(** * Flash-card store: the CSV persistence layer of [main.py]

    The development embeds the functions of [main.py] that read and rewrite
    [users.csv] and [flashcards.csv] and the request handlers that call
    them, and states the properties of the specification over them.

    Modelling conventions.
    - A Python [str] is a [string]; one [ascii] is one code point in the
      range 0..255.  [lower], [strip], [in], [str(int)] and [int(str)] are
      written out for that range.
    - A value that is "a [str] or [None]" is an [option string].
    - A file is kept as the sequence of records that the [csv] module reads
      from it and writes to it (a record is the list of its fields); the
      quoting performed by [csv.writer] is written out where the program
      looks at the raw text of a line ([readline] in the migration).  Files
      that [csv.reader] rejects (a field beyond the [csv.field_size_limit]
      of 10 MB set at the top of [main.py]) and files whose last line is
      not terminated are outside the model.
    - The file system is a finite map from path to file contents.
    - A function that can raise returns a [result]; a function that touches
      the file system takes the file system and returns the new one.
    - [int(s)] and [str(n)] are those of CPython 3.11 with its default
      [sys.int_max_str_digits] of 4300: both raise [ValueError] beyond
      that many digits.  The limit is written out where a number comes
      from the file ([int(row.get('id', 0))] and the [writerow] of the id
      computed from it).  A [flashcard_id] argument comes from the route
      converter [<int:card_id>], which delivers no integer beyond the
      limit, and the row counter of the migration and the clock stay far
      below it: [str()] of these is written without the test.
    - A request handler works on a [site] (the user kept in the session and
      the files) and returns the messages it flashes and the page it
      renders or redirects to; the clock is a parameter. *)

From Stdlib Require Import ZArith Ascii String List.
From stdpp Require Import gmap strings list fin_maps pretty sorting.

Local Open Scope string_scope.
Local Open Scope Z_scope.

(** ** Python strings *)

Module PyStr.

Definition code (c : ascii) : Z := Z.of_N (N_of_ascii c).

Definition in_range (lo hi n : Z) : bool := (lo <=? n) && (n <=? hi).

(** [c.lower()] on one code point below 256: A-Z and the Latin-1 capitals
    (U+00C0..U+00DE without the multiplication sign U+00D7) move up by 32. *)
Definition lower_char (c : ascii) : ascii :=
  let n := code c in
  if in_range 65 90 n || in_range 192 214 n || in_range 216 222 n
  then ascii_of_N (Z.to_N (n + 32))
  else c.

Fixpoint lower (s : string) : string :=
  match s with
  | EmptyString => EmptyString
  | String c rest => String (lower_char c) (lower rest)
  end.

(** [c.isspace()] below 256. *)
Definition isspace (c : ascii) : bool :=
  let n := code c in
  in_range 9 13 n || in_range 28 32 n || (n =? 133) || (n =? 160).

Fixpoint lstrip (s : string) : string :=
  match s with
  | EmptyString => EmptyString
  | String c rest => if isspace c then lstrip rest else s
  end.

(** Drops the trailing white space: a character is kept when it is not
    white space or when something is kept after it. *)
Fixpoint rstrip (s : string) : string :=
  match s with
  | EmptyString => EmptyString
  | String c rest =>
      match rstrip rest with
      | EmptyString => if isspace c then EmptyString else String c EmptyString
      | kept => String c kept
      end
  end.

Definition strip (s : string) : string := rstrip (lstrip s).

(** [sub in s]. *)
Fixpoint contains (sub s : string) : bool :=
  String.prefix sub s ||
  match s with
  | EmptyString => false
  | String _ rest => contains sub rest
  end.

(** [not s] is [s == ''] for a string. *)
Definition truthy (s : string) : bool :=
  match s with EmptyString => false | _ => true end.

(** [str(n)] for an [int]. *)
Definition str_of_int (n : Z) : string := pretty n.

Definition digit_of (c : ascii) : option Z :=
  let n := code c in
  if in_range 48 57 n then Some (n - 48) else None.

(** The digits of an integer literal as [int()] reads them: decimal digits,
    with single underscores allowed between two digits.  [seen] tells that
    the previous character was a digit. *)
Fixpoint int_digits (s : string) (acc : Z) (seen : bool) : option Z :=
  match s with
  | EmptyString => if seen then Some acc else None
  | String c rest =>
      match digit_of c with
      | Some d => int_digits rest (10 * acc + d) true
      | None =>
          if seen && Ascii.eqb c "_"%char then int_digits rest acc false
          else None
      end
  end.

(** The white space that [int()] skips around a literal: the ASCII white
    space and, beyond ASCII, the characters for which [isspace()] holds.
    U+001C..U+001F are white space for [strip()], not for [int()]. *)
Definition int_isspace (c : ascii) : bool :=
  let n := code c in
  in_range 9 13 n || (n =? 32) || (n =? 133) || (n =? 160).

Fixpoint int_lstrip (s : string) : string :=
  match s with
  | EmptyString => EmptyString
  | String c rest => if int_isspace c then int_lstrip rest else s
  end.

Fixpoint int_rstrip (s : string) : string :=
  match s with
  | EmptyString => EmptyString
  | String c rest =>
      match int_rstrip rest with
      | EmptyString => if int_isspace c then EmptyString else String c EmptyString
      | kept => String c kept
      end
  end.

Definition int_strip (s : string) : string := int_rstrip (int_lstrip s).

(** [sys.int_max_str_digits]: [int(s)] and [str(n)] raise [ValueError]
    beyond that many digits. *)
Definition MAX_STR_DIGITS : nat := 4300.

Fixpoint digit_count (s : string) : nat :=
  match s with
  | EmptyString => 0
  | String c rest =>
      match digit_of c with
      | Some _ => S (digit_count rest)
      | None => digit_count rest
      end
  end.

(** [int(s)]: [None] stands for [ValueError]. *)
Definition int_of_str (s : string) : option Z :=
  let t := int_strip s in
  if (MAX_STR_DIGITS <? digit_count t)%nat then None else
  match t with
  | String "+"%char rest => int_digits rest 0 false
  | String "-"%char rest => Z.opp <$> int_digits rest 0 false
  | t => int_digits t 0 false
  end.

(** [str(n)] does not raise: [n] has at most [MAX_STR_DIGITS] digits. *)
Definition str_fits (n : Z) : bool :=
  (digit_count (str_of_int n) <=? MAX_STR_DIGITS)%nat.

End PyStr.

(** ** Exceptions *)

Inductive exn : Type :=
  | KeyError (key : string)
  | AttributeError
  | TypeError
  | ValueError
  | FileNotFoundError (path : string).

Inductive result (A : Type) : Type :=
  | Ok (a : A)
  | Raise (e : exn).

Arguments Ok {A} a.
Arguments Raise {A} e.

#[global] Instance result_ret : MRet result := @Ok.

#[global] Instance result_bind : MBind result := fun A B f r =>
  match r with
  | Ok a => f a
  | Raise e => Raise e
  end.

#[global] Instance result_fmap : FMap result := fun A B f r =>
  match r with
  | Ok a => Ok (f a)
  | Raise e => Raise e
  end.

(** ** Rows as [csv.DictReader] yields them *)

(** A field value of a row dictionary: a string, or [None] for a column
    that the record is too short to fill ([restval]). *)
Abbreviation pyval := (option string).

Abbreviation row := (gmap string pyval).

(** [d[key]] *)
Definition getitem (d : row) (key : string) : result pyval :=
  match d !! key with
  | Some v => Ok v
  | None => Raise (KeyError key)
  end.

(** [d.get(key, '')] *)
Definition get_or_empty (d : row) (key : string) : pyval :=
  default (Some "") (d !! key).

(** [v.lower()], which [None] does not have. *)
Definition lower_of (v : pyval) : result string :=
  match v with
  | Some s => Ok (PyStr.lower s)
  | None => Raise AttributeError
  end.

(** [v == s] for a string [s]; [None] equals no string. *)
Definition eq_str (v : pyval) (s : string) : bool := bool_decide (v = Some s).

(** ** The csv layer *)

Abbreviation csv_record := (list string).

(** What [writer.writerow] is handed: strings, integers and [None]. *)
Inductive cell : Type :=
  | CStr (s : string)
  | CInt (n : Z)
  | CNone.

Definition cell_of_val (v : pyval) : cell :=
  match v with
  | Some s => CStr s
  | None => CNone
  end.

(** The field that [csv.writer] stores for a cell: [str()] of a number and
    the empty string for [None]. *)
Definition cell_text (c : cell) : string :=
  match c with
  | CStr s => s
  | CInt n => PyStr.str_of_int n
  | CNone => ""
  end.

Definition writerow (cells : list cell) : csv_record := cell_text <$> cells.

(** [writer.writerow] where a number comes from the file: [str()] raises
    [ValueError] for an integer beyond the digit limit, and nothing is
    written then. *)
Definition cell_fits (c : cell) : bool :=
  match c with
  | CInt n => PyStr.str_fits n
  | _ => true
  end.

Definition try_writerow (cells : list cell) : result csv_record :=
  if forallb cell_fits cells then Ok (writerow cells) else Raise ValueError.

(** The raw text of a record, as [csv.writer] lays it out in the default
    dialect: a field holding a comma, a double quote, or a line break is
    enclosed in double quotes with its quotes doubled; a record made of one
    empty field is written as two quotes; the record ends with CR LF. *)
Definition CR : ascii := ascii_of_N 13.
Definition LF : ascii := ascii_of_N 10.
Definition DQUOTE : ascii := ascii_of_N 34.

Definition needs_quotes (c : ascii) : bool :=
  Ascii.eqb c ","%char || Ascii.eqb c DQUOTE || Ascii.eqb c CR || Ascii.eqb c LF.

Fixpoint any_char (p : ascii -> bool) (s : string) : bool :=
  match s with
  | EmptyString => false
  | String c rest => p c || any_char p rest
  end.

Fixpoint double_quotes (s : string) : string :=
  match s with
  | EmptyString => EmptyString
  | String c rest =>
      if Ascii.eqb c DQUOTE then String c (String c (double_quotes rest))
      else String c (double_quotes rest)
  end.

Definition quoted (s : string) : string :=
  String DQUOTE (double_quotes s ++ String DQUOTE EmptyString).

Definition field_text (s : string) : string :=
  if any_char needs_quotes s then quoted s else s.

Definition record_text (r : csv_record) : string :=
  match r with
  | [EmptyString] => quoted ""
  | _ => String.concat "," (field_text <$> r)
  end ++ String CR (String LF EmptyString).

(** [file.readline()] on a file opened with [newline='']: the characters up
    to and including the first line break (LF, CR, or CR LF). *)
Fixpoint first_line (text : string) : string :=
  match text with
  | EmptyString => EmptyString
  | String c rest =>
      if Ascii.eqb c LF then String c EmptyString
      else if Ascii.eqb c CR then
        match rest with
        | String c' _ =>
            if Ascii.eqb c' LF then String c (String c' EmptyString)
            else String c EmptyString
        | EmptyString => String c EmptyString
        end
      else String c (first_line rest)
  end.

(** The contents of a csv file: its records, header first. *)
Abbreviation csv_file := (list csv_record).

(** [readline()] on a freshly opened file. *)
Definition readline (f : csv_file) : string :=
  match f with
  | [] => ""
  | r :: _ => first_line (record_text r)
  end.

(** [dict(zip(fieldnames, record))], then [restval] for the columns the
    record is too short for.  Fields beyond the header go under the key
    [None], which this program never reads: they are left out. *)
Fixpoint zip_fields (names : list string) (fields : csv_record) (d : row) : row :=
  match names with
  | [] => d
  | k :: ks =>
      match fields with
      | [] => zip_fields ks [] (<[k := None]> d)
      | v :: vs => zip_fields ks vs (<[k := Some v]> d)
      end
  end.

Definition nonblank (r : csv_record) : bool :=
  match r with [] => false | _ => true end.

(** The rows that iterating a [csv.DictReader] yields: the first record
    gives the field names, blank records are skipped. *)
Definition DictReader (f : csv_file) : list row :=
  match f with
  | [] => []
  | names :: records => (fun r => zip_fields names r ∅) <$> List.filter nonblank records
  end.

(** ** The file system *)

Abbreviation filesystem := (gmap string csv_file).

Definition exists_path (path : string) (fs : filesystem) : bool :=
  bool_decide (is_Some (fs !! path)).

(** [open(path, 'r')] *)
Definition open_read (path : string) (fs : filesystem) : result csv_file :=
  match fs !! path with
  | Some f => Ok f
  | None => Raise (FileNotFoundError path)
  end.

(** [os.rename(src, dst)]: [dst] is replaced when it exists. *)
Definition rename (src dst : string) (fs : filesystem) : result unit * filesystem :=
  match fs !! src with
  | Some f => (Ok tt, <[dst := f]> (delete src fs))
  | None => (Raise (FileNotFoundError src), fs)
  end.

(** Appending one record to a file opened with mode ['a'], which creates
    the file when it is missing. *)
Definition append_record (path : string) (r : csv_record) (fs : filesystem) : filesystem :=
  <[path := (default [] (fs !! path) ++ [r])%list]> fs.

Definition USERS_CSV : string := "users.csv".
Definition FLASHCARDS_CSV : string := "flashcards.csv".

Definition USERS_HEADER : csv_record :=
  ["name"; "email"; "password"; "created_at"].

Definition FLASHCARDS_HEADER : csv_record :=
  ["id"; "user_email"; "name"; "question"; "answer";
   "image_question"; "image_answer"; "collection"; "created_at"].

(** ** Arguments with a default value *)

(** An optional parameter of a Python function at a call: left out, or
    passed. *)
Inductive arg (A : Type) : Type :=
  | omitted
  | passed (a : A).

Arguments omitted {A}.
Arguments passed {A} a.

Definition arg_value {A : Type} (dflt : A) (a : arg A) : A :=
  match a with
  | omitted => dflt
  | passed x => x
  end.

(** ** Initialisation and migration *)

Definition init_users_csv (fs : filesystem) : filesystem :=
  if negb (exists_path USERS_CSV fs)
  then <[USERS_CSV := [writerow (CStr <$> USERS_HEADER)]]> fs
  else fs.

Definition init_flashcards_csv (fs : filesystem) : filesystem :=
  if negb (exists_path FLASHCARDS_CSV fs)
  then <[FLASHCARDS_CSV := [writerow (CStr <$> FLASHCARDS_HEADER)]]> fs
  else fs.

(** The dictionary with nine fixed keys that the migration builds for a
    card. *)
Record migrated_card : Type := {
  mc_id : Z;
  mc_user_email : pyval;
  mc_name : pyval;
  mc_question : pyval;
  mc_answer : pyval;
  mc_image_question : pyval;
  mc_image_answer : pyval;
  mc_collection : pyval;
  mc_created_at : pyval
}.

Definition migrate_card (i : Z) (r : row) : result migrated_card :=
  user_email ← getitem r "user_email";
  let name := get_or_empty r "name" in
  question ← getitem r "question";
  answer ← getitem r "answer";
  let image_question := get_or_empty r "image_question" in
  let image_answer := get_or_empty r "image_answer" in
  let collection := get_or_empty r "collection" in
  created_at ← getitem r "created_at";
  Ok {| mc_id := i; mc_user_email := user_email; mc_name := name;
        mc_question := question; mc_answer := answer;
        mc_image_question := image_question; mc_image_answer := image_answer;
        mc_collection := collection; mc_created_at := created_at |}.

(** [for i, row in enumerate(reader, 1)] *)
Fixpoint migrate_cards (i : Z) (rows : list row) : result (list migrated_card) :=
  match rows with
  | [] => Ok []
  | r :: rest =>
      card ← migrate_card i r;
      cards ← migrate_cards (i + 1) rest;
      Ok (card :: cards)
  end.

Definition migrated_record (card : migrated_card) : csv_record :=
  writerow [CInt (mc_id card); cell_of_val (mc_user_email card);
            cell_of_val (mc_name card); cell_of_val (mc_question card);
            cell_of_val (mc_answer card); cell_of_val (mc_image_question card);
            cell_of_val (mc_image_answer card); cell_of_val (mc_collection card);
            cell_of_val (mc_created_at card)].

(** The header test of the migration: all four markers occur in the first
    line. *)
Definition already_migrated (first : string) : bool :=
  PyStr.contains "id" first && PyStr.contains "collection" first &&
  PyStr.contains "name" first && PyStr.contains "image_question" first.

(** [now] is [int(time.time())]. *)
Definition migrate_flashcards_csv (now : Z) (fs : filesystem)
  : result unit * filesystem :=
  if negb (exists_path FLASHCARDS_CSV fs) then (Ok tt, fs) else
  match open_read FLASHCARDS_CSV fs with
  | Raise e => (Raise e, fs)
  | Ok file =>
      let first := PyStr.strip (readline file) in
      if already_migrated first then (Ok tt, fs) else
      let backup_file := FLASHCARDS_CSV ++ ".backup" in
      let backup_file :=
        if exists_path backup_file fs
        then FLASHCARDS_CSV ++ ".backup." ++ PyStr.str_of_int now
        else backup_file in
      match rename FLASHCARDS_CSV backup_file fs with
      | (Raise e, fs1) => (Raise e, fs1)
      | (Ok _, fs1) =>
          match open_read backup_file fs1 with
          | Raise e => (Raise e, fs1)
          | Ok old =>
              match migrate_cards 1 (DictReader old) with
              | Raise e => (Raise e, fs1)
              | Ok migrated_cards =>
                  (Ok tt,
                   <[FLASHCARDS_CSV :=
                       writerow (CStr <$> FLASHCARDS_HEADER)
                       :: (migrated_record <$> migrated_cards)]> fs1)
              end
          end
      end
  end.

(** ** Users *)

(** [created_at] is the formatted [datetime.now()]. *)
Definition save_user_to_csv (created_at name email password : string)
    (fs : filesystem) : filesystem :=
  append_record USERS_CSV
    (writerow [CStr name; CStr email; CStr password; CStr created_at]) fs.

Fixpoint email_in (rows : list row) (email : string) : result bool :=
  match rows with
  | [] => Ok false
  | r :: rest =>
      v ← getitem r "email";
      l ← lower_of v;
      if String.eqb l (PyStr.lower email) then Ok true
      else email_in rest email
  end.

Definition email_exists (email : string) (fs : filesystem) : result bool :=
  if negb (exists_path USERS_CSV fs) then Ok false else
  file ← open_read USERS_CSV fs;
  email_in (DictReader file) email.

(** ** Flashcards *)

(** One step of the id scan: [int(row.get('id', 0))] under
    [except ValueError: continue].  A missing key gives the number 0; [None]
    makes [int] raise [TypeError], which is not caught. *)
Definition scan_id (max_id : Z) (r : row) : result Z :=
  match r !! "id" with
  | None => Ok (Z.max max_id 0)
  | Some None => Raise TypeError
  | Some (Some s) =>
      match PyStr.int_of_str s with
      | Some card_id => Ok (Z.max max_id card_id)
      | None => Ok max_id
      end
  end.

Fixpoint scan_ids (max_id : Z) (rows : list row) : result Z :=
  match rows with
  | [] => Ok max_id
  | r :: rest => m ← scan_id max_id r; scan_ids m rest
  end.

Definition get_next_flashcard_id (fs : filesystem) : result Z :=
  if negb (exists_path FLASHCARDS_CSV fs) then Ok 1 else
  file ← open_read FLASHCARDS_CSV fs;
  max_id ← scan_ids 0 (DictReader file);
  Ok (max_id + 1).

Definition save_flashcard (created_at user_email name question answer : string)
    (collection image_question image_answer : arg string) (fs : filesystem)
  : result Z * filesystem :=
  let collection := arg_value "" collection in
  let image_question := arg_value "" image_question in
  let image_answer := arg_value "" image_answer in
  let fs1 := init_flashcards_csv fs in
  match get_next_flashcard_id fs1 with
  | Raise e => (Raise e, fs1)
  | Ok card_id =>
      match try_writerow [CInt card_id; CStr user_email; CStr name;
                          CStr question; CStr answer; CStr image_question;
                          CStr image_answer; CStr collection; CStr created_at] with
      | Raise e => (Raise e, fs1)
      | Ok record => (Ok card_id, append_record FLASHCARDS_CSV record fs1)
      end
  end.

(** [row['id'] == str(card_id) and
     row['user_email'].lower() == user_email.lower()] *)
Definition is_card_of (card_id : Z) (user_email : string) (r : row) : result bool :=
  id ← getitem r "id";
  if eq_str id (PyStr.str_of_int card_id) then
    owner ← getitem r "user_email";
    l ← lower_of owner;
    Ok (String.eqb l (PyStr.lower user_email))
  else Ok false.

(** The list handed to [writerow] when a table is written back. *)
Definition card_cells (card : row) : result (list cell) :=
  id ← getitem card "id";
  user_email ← getitem card "user_email";
  let name := get_or_empty card "name" in
  question ← getitem card "question";
  answer ← getitem card "answer";
  let image_question := get_or_empty card "image_question" in
  let image_answer := get_or_empty card "image_answer" in
  let collection := get_or_empty card "collection" in
  created_at ← getitem card "created_at";
  Ok (cell_of_val <$> [id; user_email; name; question; answer;
                       image_question; image_answer; collection; created_at]).

(** [for card in flashcards: writer.writerow([...])] on a file that already
    holds [out]; the records written before an exception stay in the file. *)
Fixpoint write_cards (flashcards : list row) (out : csv_file)
  : result unit * csv_file :=
  match flashcards with
  | [] => (Ok tt, out)
  | card :: rest =>
      match card_cells card with
      | Raise e => (Raise e, out)
      | Ok cells => write_cards rest (out ++ [writerow cells])%list
      end
  end.

(** Opening the flashcard file with mode ['w'] and writing the header and
    the cards. *)
Definition rewrite_flashcards (flashcards : list row) (fs : filesystem)
  : result unit * filesystem :=
  let (r, file) := write_cards flashcards [writerow (CStr <$> FLASHCARDS_HEADER)] in
  (r, <[FLASHCARDS_CSV := file]> fs).

(** The assignments made to the matching row by [update_flashcard]; an
    image is assigned when the argument [is not None]. *)
Definition assign_image (key : string) (image : pyval) (r : row) : row :=
  match image with
  | Some s => <[key := Some s]> r
  | None => r
  end.

Definition update_row (name question answer collection : string)
    (image_question image_answer : pyval) (r : row) : row :=
  let r := <["name" := Some name]> r in
  let r := <["question" := Some question]> r in
  let r := <["answer" := Some answer]> r in
  let r := <["collection" := Some collection]> r in
  let r := assign_image "image_question" image_question r in
  assign_image "image_answer" image_answer r.

Fixpoint update_rows (card_id : Z) (user_email name question answer collection : string)
    (image_question image_answer : pyval) (rows : list row) : result (list row) :=
  match rows with
  | [] => Ok []
  | r :: rest =>
      found ← is_card_of card_id user_email r;
      let r := if found : bool
               then update_row name question answer collection
                      image_question image_answer r
               else r in
      flashcards ← update_rows card_id user_email name question answer
                     collection image_question image_answer rest;
      Ok (r :: flashcards)
  end.

Definition update_flashcard (card_id : Z) (user_email name question answer : string)
    (collection : arg string) (image_question image_answer : arg pyval)
    (fs : filesystem) : result bool * filesystem :=
  let collection := arg_value "" collection in
  let image_question := arg_value (Some "") image_question in
  let image_answer := arg_value (Some "") image_answer in
  if negb (exists_path FLASHCARDS_CSV fs) then (Ok false, fs) else
  match open_read FLASHCARDS_CSV fs with
  | Raise e => (Raise e, fs)
  | Ok file =>
      match update_rows card_id user_email name question answer collection
              image_question image_answer (DictReader file) with
      | Raise e => (Raise e, fs)
      | Ok flashcards =>
          match rewrite_flashcards flashcards fs with
          | (Raise e, fs1) => (Raise e, fs1)
          | (Ok _, fs1) => (Ok true, fs1)
          end
      end
  end.

(** The rows for which [keep] says so, in order; [keep] may raise. *)
Fixpoint keep_rows (keep : row -> result bool) (rows : list row) : result (list row) :=
  match rows with
  | [] => Ok []
  | r :: rest =>
      k ← keep r;
      flashcards ← keep_rows keep rest;
      Ok (if k : bool then r :: flashcards else flashcards)
  end.

Definition delete_flashcard (card_id : Z) (user_email : string)
    (fs : filesystem) : result bool * filesystem :=
  if negb (exists_path FLASHCARDS_CSV fs) then (Ok false, fs) else
  match open_read FLASHCARDS_CSV fs with
  | Raise e => (Raise e, fs)
  | Ok file =>
      match keep_rows (fun r => negb <$> is_card_of card_id user_email r)
              (DictReader file) with
      | Raise e => (Raise e, fs)
      | Ok flashcards =>
          match rewrite_flashcards flashcards fs with
          | (Raise e, fs1) => (Raise e, fs1)
          | (Ok _, fs1) => (Ok true, fs1)
          end
      end
  end.

(** The dictionary that [get_flashcard_by_id] returns for a row. *)
Definition card_view (r : row) : result row :=
  id ← getitem r "id";
  let name := get_or_empty r "name" in
  question ← getitem r "question";
  answer ← getitem r "answer";
  let image_question := get_or_empty r "image_question" in
  let image_answer := get_or_empty r "image_answer" in
  let collection := get_or_empty r "collection" in
  created_at ← getitem r "created_at";
  Ok (<["created_at" := created_at]> (<["collection" := collection]>
     (<["image_answer" := image_answer]> (<["image_question" := image_question]>
     (<["answer" := answer]> (<["question" := question]>
     (<["name" := name]> (<["id" := id]> ∅)))))))).

Fixpoint find_card (card_id : Z) (user_email : string) (rows : list row)
  : result (option row) :=
  match rows with
  | [] => Ok None
  | r :: rest =>
      found ← is_card_of card_id user_email r;
      if found : bool then Some <$> card_view r
      else find_card card_id user_email rest
  end.

Definition get_flashcard_by_id (card_id : Z) (user_email : string)
    (fs : filesystem) : result (option row) :=
  if negb (exists_path FLASHCARDS_CSV fs) then Ok None else
  file ← open_read FLASHCARDS_CSV fs;
  find_card card_id user_email (DictReader file).

(** [row['collection'] == collection_name and
     row['user_email'].lower() == user_email.lower()] *)
Definition in_collection_of (collection_name user_email : string) (r : row)
  : result bool :=
  collection ← getitem r "collection";
  if eq_str collection collection_name then
    owner ← getitem r "user_email";
    l ← lower_of owner;
    Ok (String.eqb l (PyStr.lower user_email))
  else Ok false.

Definition delete_collection (collection_name user_email : string)
    (fs : filesystem) : result bool * filesystem :=
  if negb (exists_path FLASHCARDS_CSV fs) then (Ok false, fs) else
  match open_read FLASHCARDS_CSV fs with
  | Raise e => (Raise e, fs)
  | Ok file =>
      match keep_rows (fun r => negb <$> in_collection_of collection_name user_email r)
              (DictReader file) with
      | Raise e => (Raise e, fs)
      | Ok flashcards =>
          match rewrite_flashcards flashcards fs with
          | (Raise e, fs1) => (Raise e, fs1)
          | (Ok _, fs1) => (Ok true, fs1)
          end
      end
  end.

(** ** The registration handler *)

Inductive response : Type :=
  | render_template (template : string)
  | redirect (endpoint : string).

(** What the handler leaves for the user: the flashed message with its
    category, and the response. *)
Record reply : Type := {
  flash_message : string;
  flash_category : string;
  reply_response : response
}.

Definition ALL_FIELDS_REQUIRED : string := "All fields are required!".
Definition PASSWORDS_DO_NOT_MATCH : string := "Passwords do not match!".
Definition PASSWORD_TOO_SHORT : string :=
  "Password must be at least 6 characters long!".
Definition EMAIL_ALREADY_REGISTERED : string :=
  "Email already registered! Please use a different email or try logging in.".
Definition ACCOUNT_CREATED : string :=
  "Account created successfully! You can now log in.".

Definition failure (message : string) : reply :=
  {| flash_message := message; flash_category := "error";
     reply_response := render_template "login.html" |}.

(** A form value is truthy when it is present and not empty. *)
Definition submitted (v : pyval) : bool :=
  match v with
  | Some s => PyStr.truthy s
  | None => false
  end.

(** [name], [email], [password] and [confirm_password] are what
    [request.form.get] returns; [created_at] is the formatted
    [datetime.now()].  The file operations of the [try] block do not raise
    in this model, so its [except] branch is not reached. *)
Definition register (created_at : string) (name email password confirm_password : pyval)
    (fs : filesystem) : result reply * filesystem :=
  if negb (submitted name && submitted email && submitted password
           && submitted confirm_password)
  then (Ok (failure ALL_FIELDS_REQUIRED), fs) else
  match name, email, password, confirm_password with
  | Some name, Some email, Some password, Some confirm_password =>
      if negb (String.eqb password confirm_password)
      then (Ok (failure PASSWORDS_DO_NOT_MATCH), fs) else
      if (String.length password <? 6)%nat
      then (Ok (failure PASSWORD_TOO_SHORT), fs) else
      match email_exists email fs with
      | Raise e => (Raise e, fs)
      | Ok true => (Ok (failure EMAIL_ALREADY_REGISTERED), fs)
      | Ok false =>
          let fs := init_users_csv fs in
          let fs := save_user_to_csv created_at name email password fs in
          (Ok {| flash_message := ACCOUNT_CREATED; flash_category := "success";
                 reply_response := redirect "login" |}, fs)
      end
  | _, _, _, _ => (Ok (failure ALL_FIELDS_REQUIRED), fs)
  end.

(** ** The data model of a flashcard table

    A flashcard has the nine fields of a record under the current schema.
    A flashcard table is a file that holds the current header followed by
    one nine-field record per card, which is what every write of the
    program produces. *)

Record flashcard : Type := {
  fc_id : string;
  fc_user_email : string;
  fc_name : string;
  fc_question : string;
  fc_answer : string;
  fc_image_question : string;
  fc_image_answer : string;
  fc_collection : string;
  fc_created_at : string
}.

Definition record_of (c : flashcard) : csv_record :=
  [fc_id c; fc_user_email c; fc_name c; fc_question c; fc_answer c;
   fc_image_question c; fc_image_answer c; fc_collection c; fc_created_at c].

Definition table (cards : list flashcard) : csv_file :=
  FLASHCARDS_HEADER :: (record_of <$> cards).

(** The dictionary that the reader yields for a card of a table. *)
Definition row_of (c : flashcard) : row :=
  zip_fields FLASHCARDS_HEADER (record_of c) ∅.

(** Ownership as the program tests it: equal after [lower()]. *)
Definition same_email (a b : string) : Prop := PyStr.lower a = PyStr.lower b.

#[global] Instance same_email_dec a b : Decision (same_email a b) :=
  decide (PyStr.lower a = PyStr.lower b).

(** The card carries the id [n] and belongs to [e]. *)
Definition card_of (n : Z) (e : string) (c : flashcard) : Prop :=
  fc_id c = PyStr.str_of_int n ∧ same_email (fc_user_email c) e.

#[global] Instance card_of_dec n e c : Decision (card_of n e c) :=
  decide (fc_id c = PyStr.str_of_int n ∧ same_email (fc_user_email c) e).

(** The card is in collection [col] and belongs to [e]. *)
Definition in_collection (col e : string) (c : flashcard) : Prop :=
  fc_collection c = col ∧ same_email (fc_user_email c) e.

#[global] Instance in_collection_dec col e c : Decision (in_collection col e c) :=
  decide (fc_collection c = col ∧ same_email (fc_user_email c) e).

(** A card after the assignments of [update_flashcard]; an image is
    replaced when the value handed over is not [None]. *)
Definition update_card (name question answer collection : string)
    (image_question image_answer : pyval) (c : flashcard) : flashcard :=
  {| fc_id := fc_id c;
     fc_user_email := fc_user_email c;
     fc_name := name;
     fc_question := question;
     fc_answer := answer;
     fc_image_question := default (fc_image_question c) image_question;
     fc_image_answer := default (fc_image_answer c) image_answer;
     fc_collection := collection;
     fc_created_at := fc_created_at c |}.

(** The dictionary returned for a card: its fields without the owner. *)
Definition view_of (c : flashcard) : row :=
  <["created_at" := Some (fc_created_at c)]>
  (<["collection" := Some (fc_collection c)]>
  (<["image_answer" := Some (fc_image_answer c)]>
  (<["image_question" := Some (fc_image_question c)]>
  (<["answer" := Some (fc_answer c)]>
  (<["question" := Some (fc_question c)]>
  (<["name" := Some (fc_name c)]>
  (<["id" := Some (fc_id c)]> ∅))))))).

(** ** Sample tables *)

Definition ann_card : flashcard :=
  {| fc_id := "1"; fc_user_email := "a@x.com"; fc_name := "sum";
     fc_question := "2+2?"; fc_answer := "4";
     fc_image_question := "IMGQ"; fc_image_answer := "IMGA";
     fc_collection := "Math"; fc_created_at := "2024-01-01 10:00:00" |}.

Definition bob_card : flashcard :=
  {| fc_id := "2"; fc_user_email := "b@x.com"; fc_name := "";
     fc_question := "3*3?"; fc_answer := "9";
     fc_image_question := ""; fc_image_answer := "";
     fc_collection := "Math"; fc_created_at := "2024-01-02 10:00:00" |}.

Definition ann_store : filesystem := {[ FLASHCARDS_CSV := table [ann_card] ]}.

Definition two_card_store : filesystem :=
  {[ FLASHCARDS_CSV := table [ann_card; bob_card] ]}.

(** ** The migration, in terms of records *)

(** The text in column [k] of the record [r] read under the header
    [names]: empty when the header has no such column or the record is too
    short for it. *)
Definition field_of (names r : csv_record) (k : string) : string :=
  match zip_fields names r ∅ !! k with
  | Some (Some s) => s
  | _ => ""
  end.

(** The record under the current schema that carries the id [id] and the
    fields of [r]. *)
Definition migrated_with (names : csv_record) (id : string) (r : csv_record)
  : csv_record :=
  [id; field_of names r "user_email"; field_of names r "name";
   field_of names r "question"; field_of names r "answer";
   field_of names r "image_question"; field_of names r "image_answer";
   field_of names r "collection"; field_of names r "created_at"].

(** The record numbered by its position [i], counted from 0. *)
Definition migrated_of (names : csv_record) (i : nat) (r : csv_record)
  : csv_record :=
  migrated_with names (PyStr.str_of_int (Z.of_nat (S i))) r.

(** Where the migration puts the backup. *)
Definition backup_path (now : Z) (fs : filesystem) : string :=
  if exists_path (FLASHCARDS_CSV ++ ".backup") fs
  then FLASHCARDS_CSV ++ ".backup." ++ PyStr.str_of_int now
  else FLASHCARDS_CSV ++ ".backup".

(** The migrated records in the words of the specification: a record that
    lacks an id is given the next sequential id, counted from [next] in
    file order; a record that has an id keeps it, like its other fields. *)
Fixpoint spec_migrated (names : csv_record) (next : Z) (records : list csv_record)
  : list csv_record :=
  match records with
  | [] => []
  | r :: rest =>
      if String.eqb (field_of names r "id") ""
      then migrated_with names (PyStr.str_of_int next) r
           :: spec_migrated names (next + 1) rest
      else migrated_with names (field_of names r "id") r
           :: spec_migrated names next rest
  end.

(** A file of the four-column schema, as the first version of the program
    wrote it. *)
Definition LEGACY_HEADER : csv_record :=
  ["user_email"; "question"; "answer"; "created_at"].

Definition legacy_records : list csv_record :=
  [["a@x.com"; "2+2?"; "4"; "2023-05-01 09:00:00"];
   ["b@x.com"; "3*3?"; "9"; "2023-05-02 09:00:00"];
   ["a@x.com"; "5-1?"; "4"; "2023-05-03 09:00:00"]].

Definition legacy_store : filesystem :=
  {[ FLASHCARDS_CSV := LEGACY_HEADER :: legacy_records ]}.

(** A file written after ids, names and collections were added and before
    the image columns were. *)
Definition IMAGELESS_HEADER : csv_record :=
  ["id"; "user_email"; "name"; "question"; "answer"; "collection"; "created_at"].

Definition imageless_records : list csv_record :=
  [["2"; "a@x.com"; "sum"; "2+2?"; "4"; "Math"; "2024-01-01 10:00:00"];
   ["5"; "b@x.com"; ""; "3*3?"; "9"; "Math"; "2024-01-02 10:00:00"]].

Definition imageless_store : filesystem :=
  {[ FLASHCARDS_CSV := IMAGELESS_HEADER :: imageless_records ]}.

(** ** Integer literals

    What [int()] accepts (library reference, [class int]): a decimal
    integer literal "optionally preceded by + or - (with no space in
    between) and surrounded by whitespace", where single underscores may
    stand between digits, of at most 4300 digits
    ([sys.int_max_str_digits]).  Of the characters below 256, the white
    space is the ASCII white space and U+0085 and U+00A0.  This is the
    grammar; [PyStr.int_of_str] scans a string as the interpreter does, and
    the two are proved to agree. *)

Definition INT_WHITESPACE : list Z := [9; 10; 11; 12; 13; 32; 133; 160].

Definition chars (s : string) : list ascii := list_ascii_of_string s.

Definition is_white (s : string) : Prop :=
  Forall (fun c => PyStr.code c ∈ INT_WHITESPACE) (chars s).

Definition is_digit (c : ascii) : Prop := 48 ≤ PyStr.code c ≤ 57.

(** The number that a string of digits denotes in radix 10, read on from
    the number [v]. *)
Definition decimal_from (v : Z) (digits : string) : Z :=
  fold_left (fun v c => 10 * v + (PyStr.code c - 48)) (chars digits) v.

Definition decimal (digits : string) : Z := decimal_from 0 digits.

(** [digit_groups body digits]: [body] is made of digits, with single
    underscores between digits, and [digits] are its digits. *)
Inductive digit_groups : string → string → Prop :=
  | groups_digit c :
      is_digit c → digit_groups (String c "") (String c "")
  | groups_more c body digits :
      is_digit c → digit_groups body digits →
      digit_groups (String c body) (String c digits)
  | groups_underscore c body digits :
      is_digit c → digit_groups body digits →
      digit_groups (String c (String "_" body)) (String c digits).

(** The first number that [str()] refuses to print: ten to the power
    [sys.int_max_str_digits]. *)
Definition INT_STR_LIMIT : Z := 10 ^ 4300.

Inductive sign_of : string → Z → Prop :=
  | no_sign : sign_of "" 1
  | plus_sign : sign_of "+" 1
  | minus_sign : sign_of "-" (-1).

(** [int_literal s k]: [int(s)] is defined and is [k]. *)
Inductive int_literal : string → Z → Prop :=
  | int_literal_intro before sign body after digits factor :
      is_white before → sign_of sign factor → digit_groups body digits →
      is_white after → (String.length digits ≤ 4300)%nat →
      int_literal (before +:+ sign +:+ body +:+ after) (factor * decimal digits).

(** ** The id scan, in terms of records *)

(** The number that the id field of a record parses to, if any. *)
Definition record_id (r : csv_record) : option Z :=
  match r with
  | [] => None
  | id :: _ => PyStr.int_of_str id
  end.

(** The integer ids present in the records of a table, in file order. *)
Definition parsed_ids (records : list csv_record) : list Z :=
  omap record_id records.

(** The integer ids of the records of a table, in file order: the values
    of the id fields (the first field of a record) that are integer
    literals.  A record without fields is a blank line, which the reader
    skips. *)
Inductive literal_ids : list csv_record → list Z → Prop :=
  | literal_ids_nil : literal_ids [] []
  | literal_ids_blank records ids :
      literal_ids records ids → literal_ids ([] :: records) ids
  | literal_ids_literal id r records k ids :
      int_literal id k → literal_ids records ids →
      literal_ids ((id :: r) :: records) (k :: ids)
  | literal_ids_other id r records ids :
      (∀ k, ¬ int_literal id k) → literal_ids records ids →
      literal_ids ((id :: r) :: records) ids.

(** [max(ids, default=0)], in the words of the specification. *)
Definition max_or_zero (ids : list Z) : Z :=
  match ids with
  | [] => 0
  | i :: rest => fold_left Z.max rest i
  end.

Definition carol_card (id : string) : flashcard :=
  {| fc_id := id; fc_user_email := "c@x.com"; fc_name := "";
     fc_question := "q"; fc_answer := "a";
     fc_image_question := ""; fc_image_answer := "";
     fc_collection := ""; fc_created_at := "2024-02-01 08:00:00" |}.

Definition three_card_store : filesystem :=
  {[ FLASHCARDS_CSV := table [carol_card "1"; carol_card "2"; carol_card "5"] ]}.

(** ** Users tables *)

(** The users file is missing, or starts with the users header. *)
Definition users_ready (fs : filesystem) : Prop :=
  fs !! USERS_CSV = None
  ∨ ∃ records, fs !! USERS_CSV = Some (USERS_HEADER :: records).

(** The records after the header of the users file. *)
Definition users_records (fs : filesystem) : list csv_record :=
  match fs !! USERS_CSV with
  | Some (_ :: records) => records
  | _ => []
  end.

(** The rows that the reader yields for records under the users header. *)
Definition user_rows (records : list csv_record) : list row :=
  (fun r => zip_fields USERS_HEADER r ∅) <$> List.filter nonblank records.

(** What a successful registration leaves for the user. *)
Definition account_created : reply :=
  {| flash_message := ACCOUNT_CREATED; flash_category := "success";
     reply_response := redirect "login" |}.

Definition ann_users : filesystem :=
  {[ USERS_CSV := [USERS_HEADER; ["Ann"; "Ann@X.com"; "secret1"; "2024-01-01 09:00:00"]] ]}.


(** ** Logging in *)

(** The dictionary with the keys name, email and created_at that
    [verify_user] returns and the session keeps.  The email is a string:
    it is returned only after its [lower()] was taken. *)
Record user : Type := {
  user_name : pyval;
  user_email : string;
  user_created_at : pyval
}.

Fixpoint find_user (rows : list row) (email password : string)
  : result (option user) :=
  match rows with
  | [] => Ok None
  | r :: rest =>
      stored ← getitem r "email";
      match stored with
      | None => Raise AttributeError
      | Some stored_email =>
          if String.eqb (PyStr.lower stored_email) (PyStr.lower email) then
            stored_password ← getitem r "password";
            if eq_str stored_password password then
              name ← getitem r "name";
              created_at ← getitem r "created_at";
              Ok (Some {| user_name := name; user_email := stored_email;
                          user_created_at := created_at |})
            else find_user rest email password
          else find_user rest email password
      end
  end.

Definition verify_user (email password : string) (fs : filesystem)
  : result (option user) :=
  if negb (exists_path USERS_CSV fs) then Ok None else
  file ← open_read USERS_CSV fs;
  find_user (DictReader file) email password.

(** ** Listing the cards and the collections of a user *)

Fixpoint user_cards (user_email : string) (rows : list row) : result (list row) :=
  match rows with
  | [] => Ok []
  | r :: rest =>
      owner ← getitem r "user_email";
      l ← lower_of owner;
      if String.eqb l (PyStr.lower user_email) then
        card ← card_view r;
        flashcards ← user_cards user_email rest;
        Ok (card :: flashcards)
      else user_cards user_email rest
  end.

Definition get_user_flashcards (user_email : string) (fs : filesystem)
  : result (list row) :=
  if negb (exists_path FLASHCARDS_CSV fs) then Ok [] else
  file ← open_read FLASHCARDS_CSV fs;
  user_cards user_email (DictReader file).

(** [a <= b] on strings: lexicographic on the code points. *)
Definition str_le (a b : string) : Prop := String.leb a b = true.

#[global] Instance str_le_dec a b : Decision (str_le a b) :=
  decide (String.leb a b = true).

(** [sorted(l)] for a list of strings. *)
Definition sorted (l : list string) : list string := merge_sort str_le l.

(** [for card in flashcards: if card['collection']:
     collections.add(card['collection'])] *)
Fixpoint add_collections (flashcards : list row) (collections : gset string)
  : result (gset string) :=
  match flashcards with
  | [] => Ok collections
  | card :: rest =>
      collection ← getitem card "collection";
      match collection with
      | Some s =>
          if PyStr.truthy s then add_collections rest ({[ s ]} ∪ collections)
          else add_collections rest collections
      | None => add_collections rest collections
      end
  end.

Definition get_user_collections (user_email : string) (fs : filesystem)
  : result (list string) :=
  flashcards ← get_user_flashcards user_email fs;
  collections ← add_collections flashcards ∅;
  Ok (sorted (elements collections)).

(** ** The other request handlers *)

Inductive http_method : Type := GET | POST.

(** The submitted form: field name to value. *)
Abbreviation form := (gmap string string).

(** [request.form.get(key)] *)
Definition form_get (f : form) (key : string) : pyval := f !! key.

(** [request.form.get(key, '').strip()] *)
Definition form_get_stripped (f : form) (key : string) : string :=
  PyStr.strip (default "" (f !! key)).

(** What a handler returns: a rendered template with its variables, or a
    redirect to [url_for(endpoint)]. *)
Inductive page : Type :=
  | index_html
  | login_html
  | practice_html (flashcards : list row) (collections : list string)
  | edit_flashcard_html (flashcard : row) (collections : list string)
  | redirect_to (endpoint : string).

(** The messages flashed by a handler, each with its category, and the page
    it returns. *)
Record outcome : Type := {
  flashed : list (string * string);
  shown : page
}.

(** The state a handler works on: the user kept in the session, if any, and
    the files. *)
Record site : Type := {
  session_user : option user;
  files : filesystem
}.

Definition with_files (s : site) (fs : filesystem) : site :=
  {| session_user := session_user s; files := fs |}.

Definition error (message : string) (p : page) : outcome :=
  {| flashed := [(message, "error")]; shown := p |}.

Definition success (message : string) (p : page) : outcome :=
  {| flashed := [(message, "success")]; shown := p |}.

(** [str(v)] inside an f-string. *)
Definition format_val (v : pyval) : string :=
  match v with
  | Some s => s
  | None => "None"
  end.

Definition home (s : site) : result outcome * site :=
  (Ok {| flashed := []; shown := index_html |}, s).

(** [now] is [int(time.time())]. *)
Definition practice (now : Z) (s : site) : result outcome * site :=
  match session_user s with
  | None =>
      (Ok (error "Please log in to access the practice page."
             (redirect_to "login")), s)
  | Some u =>
      match migrate_flashcards_csv now (files s) with
      | (Raise e, fs) => (Raise e, with_files s fs)
      | (Ok _, fs) =>
          let s := with_files s fs in
          match get_user_flashcards (user_email u) fs with
          | Raise e => (Raise e, s)
          | Ok user_flashcards =>
              match get_user_collections (user_email u) fs with
              | Raise e => (Raise e, s)
              | Ok user_collections =>
                  (Ok {| flashed := [];
                         shown := practice_html user_flashcards user_collections |},
                   s)
              end
          end
      end
  end.

(** [created_at] is the formatted [datetime.now()]. *)
Definition add_flashcard (created_at : string) (f : form) (s : site)
  : result outcome * site :=
  match session_user s with
  | None =>
      (Ok (error "Please log in to add flashcards." (redirect_to "login")), s)
  | Some u =>
      let name := form_get_stripped f "name" in
      let question := form_get f "question" in
      let answer := form_get f "answer" in
      let collection := form_get_stripped f "collection" in
      let image_question := form_get_stripped f "image_question" in
      let image_answer := form_get_stripped f "image_answer" in
      match question, answer with
      | Some question, Some answer =>
          if PyStr.truthy question && PyStr.truthy answer then
            match save_flashcard created_at (user_email u) name question answer
                    (passed collection) (passed image_question)
                    (passed image_answer) (files s) with
            | (Ok _, fs) =>
                (Ok (success "Flashcard added successfully!"
                       (redirect_to "practice")), with_files s fs)
            | (Raise _, fs) =>
                (Ok (error "An error occurred while saving the flashcard."
                       (redirect_to "practice")), with_files s fs)
            end
          else
            (Ok (error "Both question and answer are required!"
                   (redirect_to "practice")), s)
      | _, _ =>
          (Ok (error "Both question and answer are required!"
                 (redirect_to "practice")), s)
      end
  end.

Definition NOT_FOUND_TO_EDIT : string :=
  "Flashcard not found or you do not have permission to edit it.".

Definition edit_flashcard (card_id : Z) (method : http_method) (f : form)
    (s : site) : result outcome * site :=
  match session_user s with
  | None =>
      (Ok (error "Please log in to edit flashcards." (redirect_to "login")), s)
  | Some u =>
      match method with
      | POST =>
          let name := form_get_stripped f "name" in
          let question := form_get f "question" in
          let answer := form_get f "answer" in
          let collection := form_get_stripped f "collection" in
          let image_question := form_get_stripped f "image_question" in
          let image_answer := form_get_stripped f "image_answer" in
          match question, answer with
          | Some question, Some answer =>
              if PyStr.truthy question && PyStr.truthy answer then
                match update_flashcard card_id (user_email u) name question
                        answer (passed collection)
                        (passed (Some image_question))
                        (passed (Some image_answer)) (files s) with
                | (Ok true, fs) =>
                    (Ok (success "Flashcard updated successfully!"
                           (redirect_to "practice")), with_files s fs)
                | (Ok false, fs) =>
                    (Ok (error NOT_FOUND_TO_EDIT (redirect_to "practice")),
                     with_files s fs)
                | (Raise _, fs) =>
                    (Ok (error "An error occurred while updating the flashcard."
                           (redirect_to "practice")), with_files s fs)
                end
              else
                (Ok (error "Both question and answer are required!"
                       (redirect_to "practice")), s)
          | _, _ =>
              (Ok (error "Both question and answer are required!"
                     (redirect_to "practice")), s)
          end
      | GET =>
          match get_flashcard_by_id card_id (user_email u) (files s) with
          | Raise e => (Raise e, s)
          | Ok None =>
              (Ok (error NOT_FOUND_TO_EDIT (redirect_to "practice")), s)
          | Ok (Some flashcard) =>
              match get_user_collections (user_email u) (files s) with
              | Raise e => (Raise e, s)
              | Ok user_collections =>
                  (Ok {| flashed := [];
                         shown := edit_flashcard_html flashcard user_collections |},
                   s)
              end
          end
      end
  end.

Definition delete_flashcard_route (card_id : Z) (s : site)
  : result outcome * site :=
  match session_user s with
  | None =>
      (Ok (error "Please log in to delete flashcards." (redirect_to "login")), s)
  | Some u =>
      match delete_flashcard card_id (user_email u) (files s) with
      | (Ok true, fs) =>
          (Ok (success "Flashcard deleted successfully!"
                 (redirect_to "practice")), with_files s fs)
      | (Ok false, fs) =>
          (Ok (error "Flashcard not found or you do not have permission to delete it."
                 (redirect_to "practice")), with_files s fs)
      | (Raise _, fs) =>
          (Ok (error "An error occurred while deleting the flashcard."
                 (redirect_to "practice")), with_files s fs)
      end
  end.

Definition login (method : http_method) (f : form) (s : site)
  : result outcome * site :=
  match method with
  | POST =>
      match form_get f "email", form_get f "password" with
      | Some email, Some password =>
          if PyStr.truthy email && PyStr.truthy password then
            match verify_user email password (files s) with
            | Raise e => (Raise e, s)
            | Ok (Some u) =>
                (Ok (success ("Welcome back, " ++ format_val (user_name u) ++ "!")
                       (redirect_to "home")),
                 {| session_user := Some u; files := files s |})
            | Ok None =>
                (Ok (error "Invalid email or password!" login_html), s)
            end
          else (Ok (error "Please enter both email and password!" login_html), s)
      | _, _ =>
          (Ok (error "Please enter both email and password!" login_html), s)
      end
  | GET => (Ok {| flashed := []; shown := login_html |}, s)
  end.

Definition logout (s : site) : result outcome * site :=
  (Ok (success "You have been logged out successfully!" (redirect_to "home")),
   {| session_user := None; files := files s |}).

Definition delete_collection_route (collection_name : string) (s : site)
  : result outcome * site :=
  match session_user s with
  | None =>
      (Ok (error "Please log in to delete collections." (redirect_to "login")), s)
  | Some u =>
      match delete_collection collection_name (user_email u) (files s) with
      | (Ok true, fs) =>
          (Ok (success ("Collection " ++ String DQUOTE collection_name
                        ++ String DQUOTE " deleted successfully!")
                 (redirect_to "practice")), with_files s fs)
      | (Ok false, fs) =>
          (Ok (error "Collection not found or you do not have permission to delete it."
                 (redirect_to "practice")), with_files s fs)
      | (Raise _, fs) =>
          (Ok (error "An error occurred while deleting the collection."
                 (redirect_to "practice")), with_files s fs)
      end
  end.

(** ** The data model of the users table *)

(** An account: the four fields of a record of the users file. *)
Record account : Type := {
  acc_name : string;
  acc_email : string;
  acc_password : string;
  acc_created_at : string
}.

Definition account_record (a : account) : csv_record :=
  [acc_name a; acc_email a; acc_password a; acc_created_at a].

Definition users_table (accounts : list account) : csv_file :=
  USERS_HEADER :: (account_record <$> accounts).

(** The dictionary that the reader yields for an account. *)
Definition account_row (a : account) : row :=
  zip_fields USERS_HEADER (account_record a) ∅.

(** What [verify_user] returns for an account: its fields without the
    password. *)
Definition user_of (a : account) : user :=
  {| user_name := Some (acc_name a); user_email := acc_email a;
     user_created_at := Some (acc_created_at a) |}.

(** The account has the email [e] up to case and the password [p]. *)
Definition has_credentials (e p : string) (a : account) : Prop :=
  same_email (acc_email a) e ∧ acc_password a = p.

#[global] Instance has_credentials_dec e p a : Decision (has_credentials e p a) :=
  decide (same_email (acc_email a) e ∧ acc_password a = p).

(** The card belongs to [e]. *)
Definition owned_by (e : string) (c : flashcard) : Prop :=
  same_email (fc_user_email c) e.

#[global] Instance owned_by_dec e c : Decision (owned_by e c) :=
  decide (same_email (fc_user_email c) e).

(** The card that [save_flashcard] appends under the id [n]. *)
Definition created_card (n : Z) (created_at e name question answer
    collection image_question image_answer : string) : flashcard :=
  {| fc_id := PyStr.str_of_int n; fc_user_email := e; fc_name := name;
     fc_question := question; fc_answer := answer;
     fc_image_question := image_question; fc_image_answer := image_answer;
     fc_collection := collection; fc_created_at := created_at |}.

(** Two accounts of a users table. *)
Definition ann_account : account :=
  {| acc_name := "Ann"; acc_email := "Ann@X.com"; acc_password := "secret1";
     acc_created_at := "2024-01-01 09:00:00" |}.

Definition bob_account : account :=
  {| acc_name := "Bob"; acc_email := "bob@x.com"; acc_password := "hunter22";
     acc_created_at := "2024-01-02 09:00:00" |}.

Definition two_users : filesystem :=
  {[ USERS_CSV := users_table [ann_account; bob_account] ]}.

(** A table with cards in several collections. *)
Definition card_in (id owner collection : string) : flashcard :=
  {| fc_id := id; fc_user_email := owner; fc_name := "";
     fc_question := "q"; fc_answer := "a";
     fc_image_question := ""; fc_image_answer := "";
     fc_collection := collection; fc_created_at := "2024-03-01 08:00:00" |}.

Definition shelf : list flashcard :=
  [card_in "1" "a@x.com" "Math"; card_in "2" "b@x.com" "Zoo";
   card_in "3" "A@x.com" "algebra"; card_in "4" "a@x.com" "";
   card_in "5" "a@x.com" "Math"; card_in "6" "a@X.com" "Algebra"].

Definition shelf_store : filesystem := {[ FLASHCARDS_CSV := table shelf ]}.

(** The table that [update_flashcard] writes. *)
Definition updated (n : Z) (e name question answer collection : string)
    (iq ia : pyval) (cards : list flashcard) : list flashcard :=
  (fun c => if decide (card_of n e c)
            then update_card name question answer collection iq ia c
            else c) <$> cards.

(** A file under the current header with records of other widths, and its
    rows. *)
Definition ragged_store : filesystem :=
  {[ FLASHCARDS_CSV :=
       [FLASHCARDS_HEADER;
        ["1"; "a@x.com"; "sum"; "2+2?"; "4"];
        [];
        ["2"; "b@x.com"; ""; "3*3?"; "9"; ""; ""; "Math"; "2024-01-02 10:00:00";
         "extra"]] ]}.

(** A legacy file whose header has no owner column, beside an older
    backup. *)
Definition ownerless_store : filesystem :=
  {[ FLASHCARDS_CSV := [["question"; "answer"; "created_at"];
                        ["2+2?"; "4"; "2023-05-01 09:00:00"]];
     "flashcards.csv.backup" := [["question"; "answer"]; ["old"; "backup"]];
     USERS_CSV := [USERS_HEADER] ]}.

(** Sample sessions and forms. *)
Definition ann_user : user :=
  {| user_name := Some "Ann"; user_email := "a@x.com";
     user_created_at := Some "2024-01-01 09:00:00" |}.

Definition bob_user : user :=
  {| user_name := Some "Bob"; user_email := "b@x.com";
     user_created_at := Some "2024-01-02 09:00:00" |}.

Definition visitor_site : site :=
  {| session_user := None; files := two_card_store |}.

Definition ann_site : site :=
  {| session_user := Some ann_user; files := two_card_store |}.

Definition bob_site : site :=
  {| session_user := Some bob_user; files := two_card_store |}.

Definition product_form : form :=
  {[ "name" := "  product "; "question" := " 6*7? "; "answer" := "42";
     "collection" := "Math " ]}.

Definition answerless_form : form :=
  {[ "name" := "product"; "question" := "6*7?"; "answer" := "" ]}.

(** A table with ids that are no integer literals: U+001C before a digit,
    and the empty string; and with ids that are literals in other
    spellings than [str()] gives. *)
Definition odd_ids : list flashcard :=
  [carol_card "4"; carol_card (String (ascii_of_N 28) "7"); carol_card " +1_2 ";
   carol_card ""; carol_card "9x"].

Definition odd_ids_store : filesystem := {[ FLASHCARDS_CSV := table odd_ids ]}.

Fixpoint repeat_char (c : ascii) (n : nat) : string :=
  match n with
  | O => EmptyString
  | S n => String c (repeat_char c n)
  end.

(** A table whose only id is the largest number that [int()] reads:
    4300 nines. *)
Definition last_id_store : filesystem :=
  {[ FLASHCARDS_CSV := table [carol_card (repeat_char "9" 4300)] ]}.

(** A form value that is missing or empty. *)
Definition blank (v : pyval) : Prop := v = None ∨ v = Some "".

(** * Properties *)

Local Open Scope list_scope.

(** ** The Python primitives on examples *)

Example lower_mixed : PyStr.lower "A@X.com" = "a@x.com".
Proof. reflexivity. Qed.

Example strip_line : PyStr.strip "  id,name " = "id,name".
Proof. reflexivity. Qed.

Example contains_id : PyStr.contains "id" "user_email,id" = true.
Proof. reflexivity. Qed.

Example contains_no_id : PyStr.contains "id" "user_email,question" = false.
Proof. reflexivity. Qed.

Example str_of_int_12 : PyStr.str_of_int 12 = "12".
Proof. reflexivity. Qed.

Example str_of_int_neg : PyStr.str_of_int (-7) = "-7".
Proof. reflexivity. Qed.

Example int_of_str_ok : PyStr.int_of_str " 007 " = Some 7.
Proof. reflexivity. Qed.

Example int_of_str_underscore : PyStr.int_of_str "1_000" = Some 1000.
Proof. reflexivity. Qed.

Example int_of_str_bad : PyStr.int_of_str "12a" = None.
Proof. reflexivity. Qed.

Example int_of_str_neg : PyStr.int_of_str "-3" = Some (-3).
Proof. reflexivity. Qed.

(** U+001C is white space for [strip()] and not for [int()]; U+00A0 and
    U+0085 are white space for both. *)
Example int_of_str_separator :
  PyStr.strip (String (ascii_of_N 28) "7") = "7"
  ∧ PyStr.int_of_str (String (ascii_of_N 28) "7") = None.
Proof. split; reflexivity. Qed.

Example int_of_str_no_break_space :
  PyStr.int_of_str (String (ascii_of_N 160) ("7" +:+ String (ascii_of_N 133) ""))
  = Some 7.
Proof. reflexivity. Qed.

Example int_of_str_sign_apart : PyStr.int_of_str "+ 7" = None.
Proof. reflexivity. Qed.

Example int_of_str_two_underscores : PyStr.int_of_str "1__0" = None.
Proof. reflexivity. Qed.

Example int_of_str_last_underscore : PyStr.int_of_str "1_" = None.
Proof. reflexivity. Qed.

(** Leading zeros count towards the digit limit. *)
Example int_of_str_too_long : PyStr.int_of_str (repeat_char "0" 4301) = None.
Proof. vm_compute. reflexivity. Qed.

Example int_of_str_empty : PyStr.int_of_str "" = None.
Proof. reflexivity. Qed.

Example header_line :
  PyStr.strip (readline [FLASHCARDS_HEADER]) =
  "id,user_email,name,question,answer,image_question,image_answer,collection,created_at".
Proof. reflexivity. Qed.

Example quoted_field : field_text "a,b" = String DQUOTE ("a,b" ++ String DQUOTE "").
Proof. reflexivity. Qed.

Example short_record_row :
  DictReader [["id"; "user_email"]; ["7"]] !! 0%nat
  = Some (<["user_email" := None]> (<["id" := Some "7"]> ∅)).
Proof. reflexivity. Qed.

(** ** Flashcard tables *)

Section Tables.

Implicit Types (c : flashcard) (cards : list flashcard) (fs : filesystem).

Lemma record_of_width c : length (record_of c) = 9%nat.
Proof. reflexivity. Qed.

Lemma full_record_is_card (r : csv_record) :
  length r = 9%nat → ∃ c, r = record_of c.
Proof.
  intros H.
  do 9 (destruct r as [|? r]; [discriminate H|]).
  destruct r; [|discriminate H].
  by eexists {| fc_id := _ |}.
Qed.

(** A file with the current header and nine fields in every record is a
    table. *)
Lemma full_records_table (records : list csv_record) :
  Forall (fun r => length r = 9%nat) records →
  ∃ cards, FLASHCARDS_HEADER :: records = table cards.
Proof.
  induction 1 as [|r records Hr _ [cards IH]].
  - by exists [].
  - destruct (full_record_is_card r Hr) as [c ->].
    exists (c :: cards). unfold table in *. rewrite fmap_cons. congruence.
Qed.

Lemma filter_nonblank_records cards :
  List.filter nonblank (record_of <$> cards) = record_of <$> cards.
Proof. induction cards as [|c cards IH]; simpl; [done|f_equal; exact IH]. Qed.

Lemma DictReader_table cards : DictReader (table cards) = row_of <$> cards.
Proof.
  change (DictReader (table cards)) with
    ((fun r => zip_fields FLASHCARDS_HEADER r ∅) <$>
       List.filter nonblank (record_of <$> cards)).
  rewrite filter_nonblank_records. by rewrite <- list_fmap_compose.
Qed.

Lemma exists_path_true path fs f : fs !! path = Some f → exists_path path fs = true.
Proof. intros H. unfold exists_path. rewrite H. by apply bool_decide_eq_true_2. Qed.

Lemma exists_path_false path fs : fs !! path = None → exists_path path fs = false.
Proof.
  intros H. unfold exists_path. rewrite H.
  apply bool_decide_eq_false_2. by intros [? ?].
Qed.

Lemma eqb_same_email a b :
  String.eqb (PyStr.lower a) (PyStr.lower b) = bool_decide (same_email a b).
Proof.
  unfold same_email. destruct (String.eqb_spec (PyStr.lower a) (PyStr.lower b)).
  - by rewrite bool_decide_eq_true_2.
  - by rewrite bool_decide_eq_false_2.
Qed.

(** The fields of the dictionary of a card. *)
Lemma row_of_id c : row_of c !! "id" = Some (Some (fc_id c)).
Proof. reflexivity. Qed.

Lemma row_of_user_email c : row_of c !! "user_email" = Some (Some (fc_user_email c)).
Proof. reflexivity. Qed.

Lemma row_of_collection c : row_of c !! "collection" = Some (Some (fc_collection c)).
Proof. reflexivity. Qed.

(** The ownership test on a card of a table. *)
Lemma is_card_of_row n e c :
  is_card_of n e (row_of c) =
  Ok (bool_decide (fc_id c = PyStr.str_of_int n ∧ same_email (fc_user_email c) e)).
Proof.
  unfold is_card_of, getitem, eq_str.
  rewrite row_of_id, row_of_user_email. cbn.
  destruct (decide (fc_id c = PyStr.str_of_int n)) as [Hid|Hid].
  - rewrite bool_decide_eq_true_2 by congruence. cbn.
    rewrite eqb_same_email. f_equal. apply bool_decide_ext. tauto.
  - rewrite bool_decide_eq_false_2 by congruence.
    f_equal. symmetry. apply bool_decide_eq_false_2. tauto.
Qed.

Lemma in_collection_of_row col e c :
  in_collection_of col e (row_of c) =
  Ok (bool_decide (fc_collection c = col ∧ same_email (fc_user_email c) e)).
Proof.
  unfold in_collection_of, getitem, eq_str.
  rewrite row_of_collection, row_of_user_email. cbn.
  destruct (decide (fc_collection c = col)) as [Hc|Hc].
  - rewrite bool_decide_eq_true_2 by congruence. cbn.
    rewrite eqb_same_email. f_equal. apply bool_decide_ext. tauto.
  - rewrite bool_decide_eq_false_2 by congruence.
    f_equal. symmetry. apply bool_decide_eq_false_2. tauto.
Qed.

(** Writing back a card that was read gives its record again. *)
Lemma card_cells_row c : writerow <$> card_cells (row_of c) = Ok (record_of c).
Proof. reflexivity. Qed.

Lemma write_cards_rows cards (out : csv_file) :
  write_cards (row_of <$> cards) out = (Ok tt, (out ++ (record_of <$> cards))%list).
Proof.
  revert out. induction cards as [|c cards IH]; intros out; simpl.
  - by rewrite app_nil_r.
  - pose proof (card_cells_row c) as Hc.
    destruct (card_cells (row_of c)) as [cells|e]; [|discriminate Hc].
    injection Hc as Hc. rewrite Hc, IH. by rewrite <- app_assoc.
Qed.

Lemma rewrite_flashcards_rows cards fs :
  rewrite_flashcards (row_of <$> cards) fs = (Ok tt, <[FLASHCARDS_CSV := table cards]> fs).
Proof. unfold rewrite_flashcards. by rewrite write_cards_rows. Qed.

End Tables.

(** ** Reading and rewriting a flashcard table *)

Section Rewriting.

Implicit Types (c : flashcard) (cards : list flashcard) (fs : filesystem).

Lemma update_row_row name question answer collection iq ia c :
  update_row name question answer collection iq ia (row_of c)
  = row_of (update_card name question answer collection iq ia c).
Proof. destruct iq, ia; reflexivity. Qed.

Lemma update_rows_table n e name question answer collection iq ia cards :
  update_rows n e name question answer collection iq ia (row_of <$> cards)
  = Ok (row_of <$>
          ((fun c => if decide (card_of n e c)
                     then update_card name question answer collection iq ia c
                     else c) <$> cards)).
Proof.
  induction cards as [|c cards IH]; [done|].
  rewrite !fmap_cons. cbn [update_rows].
  rewrite is_card_of_row, IH. fold (card_of n e c).
  destruct (decide (card_of n e c)).
  - rewrite bool_decide_eq_true_2 by done. cbn [mbind result_bind].
    by rewrite update_row_row.
  - by rewrite bool_decide_eq_false_2 by done.
Qed.

Lemma keep_rows_table (keep : row → result bool) (P : flashcard → Prop)
    `{!∀ c, Decision (P c)} cards :
  (∀ c, keep (row_of c) = Ok (bool_decide (P c))) →
  keep_rows (fun r => negb <$> keep r) (row_of <$> cards)
  = Ok (row_of <$> filter (fun c => ¬ P c) cards).
Proof.
  intros Hkeep. induction cards as [|c cards IH]; [done|].
  rewrite fmap_cons. cbn [keep_rows]. rewrite Hkeep, IH.
  destruct (decide (P c)) as [HP|HP].
  - rewrite bool_decide_eq_true_2 by done.
    by rewrite filter_cons_False by tauto.
  - rewrite bool_decide_eq_false_2 by done.
    by rewrite filter_cons_True by done.
Qed.

(** [update_flashcard] on a table: every card with the id and the owner is
    reassigned, the table is written back, and the answer is [True]. *)
Lemma update_flashcard_table fs cards n e name question answer collection iq ia :
  fs !! FLASHCARDS_CSV = Some (table cards) →
  update_flashcard n e name question answer collection iq ia fs
  = (Ok true,
     <[FLASHCARDS_CSV :=
         table ((fun c => if decide (card_of n e c)
                          then update_card name question answer
                                 (arg_value "" collection)
                                 (arg_value (Some "") iq)
                                 (arg_value (Some "") ia) c
                          else c) <$> cards)]> fs).
Proof.
  intros Hfs. unfold update_flashcard, open_read.
  rewrite (exists_path_true _ _ _ Hfs), Hfs. cbn [negb].
  rewrite DictReader_table, update_rows_table.
  by rewrite rewrite_flashcards_rows.
Qed.

(** [delete_flashcard] on a table: the cards with the id and the owner are
    left out, the table is written back, and the answer is [True]. *)
Lemma delete_flashcard_table fs cards n e :
  fs !! FLASHCARDS_CSV = Some (table cards) →
  delete_flashcard n e fs
  = (Ok true,
     <[FLASHCARDS_CSV := table (filter (fun c => ¬ card_of n e c) cards)]> fs).
Proof.
  intros Hfs. unfold delete_flashcard, open_read.
  rewrite (exists_path_true _ _ _ Hfs), Hfs. cbn [negb].
  rewrite DictReader_table.
  rewrite (keep_rows_table (is_card_of n e) (card_of n e))
    by (intros c; apply is_card_of_row).
  by rewrite rewrite_flashcards_rows.
Qed.

Lemma delete_collection_table fs cards col e :
  fs !! FLASHCARDS_CSV = Some (table cards) →
  delete_collection col e fs
  = (Ok true,
     <[FLASHCARDS_CSV := table (filter (fun c => ¬ in_collection col e c) cards)]> fs).
Proof.
  intros Hfs. unfold delete_collection, open_read.
  rewrite (exists_path_true _ _ _ Hfs), Hfs. cbn [negb].
  rewrite DictReader_table.
  rewrite (keep_rows_table (in_collection_of col e) (in_collection col e))
    by (intros c; apply in_collection_of_row).
  by rewrite rewrite_flashcards_rows.
Qed.

(** Writing a table over itself changes nothing. *)
Lemma insert_table_id fs cards :
  fs !! FLASHCARDS_CSV = Some (table cards) →
  <[FLASHCARDS_CSV := table cards]> fs = fs.
Proof. apply insert_id. Qed.

End Rewriting.

(** ** Looking a card up *)

Section Lookup.

Implicit Types (c : flashcard) (cards : list flashcard) (fs : filesystem).

Lemma card_view_row c : card_view (row_of c) = Ok (view_of c).
Proof. reflexivity. Qed.

Lemma find_card_none n e cards :
  Forall (fun c => ¬ card_of n e c) cards →
  find_card n e (row_of <$> cards) = Ok None.
Proof.
  induction 1 as [|c cards Hc _ IH]; [done|].
  rewrite fmap_cons. cbn [find_card]. rewrite is_card_of_row.
  fold (card_of n e c). by rewrite bool_decide_eq_false_2.
Qed.

Lemma find_card_first n e cards1 c cards2 :
  Forall (fun c' => ¬ card_of n e c') cards1 →
  card_of n e c →
  find_card n e (row_of <$> (cards1 ++ c :: cards2)) = Ok (Some (view_of c)).
Proof.
  intros Hbefore Hc. induction Hbefore as [|c' cards1 Hc' _ IH].
  - rewrite app_nil_l, fmap_cons. cbn [find_card]. rewrite is_card_of_row.
    fold (card_of n e c). rewrite bool_decide_eq_true_2 by done.
    cbn [mbind result_bind]. by rewrite card_view_row.
  - rewrite <- app_comm_cons, fmap_cons. cbn [find_card].
    rewrite is_card_of_row. fold (card_of n e c').
    by rewrite bool_decide_eq_false_2.
Qed.

Lemma get_flashcard_by_id_table fs cards n e :
  fs !! FLASHCARDS_CSV = Some (table cards) →
  get_flashcard_by_id n e fs = find_card n e (row_of <$> cards).
Proof.
  intros Hfs. unfold get_flashcard_by_id, open_read.
  rewrite (exists_path_true _ _ _ Hfs), Hfs. cbn [negb mbind result_bind].
  by rewrite DictReader_table.
Qed.

(** In a table with distinct ids, the cards around a card carry other
    ids. *)
Lemma distinct_ids_split cards1 c cards2 :
  NoDup (fc_id <$> (cards1 ++ c :: cards2)) →
  Forall (fun c' => fc_id c' ≠ fc_id c) cards1 ∧
  Forall (fun c' => fc_id c' ≠ fc_id c) cards2.
Proof.
  rewrite fmap_app, fmap_cons. intros Hnd.
  apply NoDup_app in Hnd as (_ & Hdisj & Hnd).
  apply NoDup_cons in Hnd as [Hnotin _].
  split; apply Forall_forall; intros c' Hin Heq.
  - apply (Hdisj (fc_id c')).
    + apply list_elem_of_fmap. by exists c'.
    + rewrite Heq. apply list_elem_of_here.
  - apply Hnotin. rewrite <- Heq. apply list_elem_of_fmap. by exists c'.
Qed.

End Lookup.

(** ** Operations on a missing flashcard file *)

(** C10: when the flashcards file does not exist, [update_flashcard],
    [delete_flashcard] and [delete_collection] return [False] and leave the
    file system as it is, the file is still missing afterwards, and
    [get_flashcard_by_id] returns [None]. *)
Theorem missing_file_is_refused (fs : filesystem) (n : Z)
    (e name question answer col : string) (collection : arg string)
    (iq ia : arg pyval) :
  fs !! FLASHCARDS_CSV = None →
  update_flashcard n e name question answer collection iq ia fs = (Ok false, fs)
  ∧ delete_flashcard n e fs = (Ok false, fs)
  ∧ delete_collection col e fs = (Ok false, fs)
  ∧ get_flashcard_by_id n e fs = Ok None.
Proof.
  intros Hfs.
  unfold update_flashcard, delete_flashcard, delete_collection, get_flashcard_by_id.
  by rewrite (exists_path_false _ _ Hfs).
Qed.

Lemma missing_file_is_refused_witness :
  (∅ : filesystem) !! FLASHCARDS_CSV = None
  ∧ update_flashcard 1 "a@x.com" "n" "q" "a" omitted omitted omitted ∅ = (Ok false, ∅)
  ∧ delete_flashcard 1 "a@x.com" ∅ = (Ok false, ∅)
  ∧ delete_collection "Math" "a@x.com" ∅ = (Ok false, ∅)
  ∧ get_flashcard_by_id 1 "a@x.com" ∅ = Ok None.
Proof.
  split; [reflexivity|].
  apply (missing_file_is_refused ∅ 1 "a@x.com" "n" "q" "a" "Math"
           omitted omitted omitted).
  reflexivity.
Defined.

(** ** Updating a card *)

(** What [update_flashcard] stores in an image field of the matching card,
    by the way the argument is given. *)
Lemma update_card_image_kept name question answer collection ia c :
  fc_image_question (update_card name question answer collection None ia c)
  = fc_image_question c.
Proof. reflexivity. Qed.

Lemma update_card_image_set name question answer collection s ia c :
  fc_image_question (update_card name question answer collection (Some s) ia c) = s.
Proof. reflexivity. Qed.

Lemma update_card_texts name question answer collection iq ia c :
  let c' := update_card name question answer collection iq ia c in
  fc_name c' = name ∧ fc_question c' = question ∧ fc_answer c' = answer
  ∧ fc_collection c' = collection
  ∧ fc_id c' = fc_id c ∧ fc_user_email c' = fc_user_email c
  ∧ fc_created_at c' = fc_created_at c.
Proof. by repeat split. Qed.

(** Passing [None] for the images keeps them. *)
Example update_with_none_keeps_images :
  update_flashcard 1 "A@X.com" "sum2" "1+1?" "2" (passed "Sums")
    (passed None) (passed None) ann_store
  = (Ok true,
     {[ FLASHCARDS_CSV :=
          table [ {| fc_id := "1"; fc_user_email := "a@x.com"; fc_name := "sum2";
                     fc_question := "1+1?"; fc_answer := "2";
                     fc_image_question := "IMGQ"; fc_image_answer := "IMGA";
                     fc_collection := "Sums";
                     fc_created_at := "2024-01-01 10:00:00" |} ] ]}).
Proof. vm_compute. reflexivity. Qed.

(** Passing the empty string for the images clears them. *)
Example update_with_empty_clears_images :
  update_flashcard 1 "A@X.com" "sum2" "1+1?" "2" (passed "Sums")
    (passed (Some "")) (passed (Some "")) ann_store
  = (Ok true,
     {[ FLASHCARDS_CSV :=
          table [ {| fc_id := "1"; fc_user_email := "a@x.com"; fc_name := "sum2";
                     fc_question := "1+1?"; fc_answer := "2";
                     fc_image_question := ""; fc_image_answer := "";
                     fc_collection := "Sums";
                     fc_created_at := "2024-01-01 10:00:00" |} ] ]}).
Proof. vm_compute. reflexivity. Qed.

(** C1: at a table that holds a card with both images set, updating that
    card without the image arguments stores the empty string in both image
    fields: the images are cleared, not kept. *)
Theorem update_without_images_clears_them :
  update_flashcard 1 "A@X.com" "sum2" "1+1?" "2" (passed "Sums")
    omitted omitted ann_store
  = (Ok true,
     {[ FLASHCARDS_CSV :=
          table [ {| fc_id := "1"; fc_user_email := "a@x.com"; fc_name := "sum2";
                     fc_question := "1+1?"; fc_answer := "2";
                     fc_image_question := ""; fc_image_answer := "";
                     fc_collection := "Sums";
                     fc_created_at := "2024-01-01 10:00:00" |} ] ]}).
Proof. vm_compute. reflexivity. Qed.

(** C8: at a table that holds one card, with id 1 and owner a@x.com,
    [update_flashcard] answers [True] and leaves the table as it is both for
    an id that no card has and for the id of that card under another
    owner. *)
Theorem update_reports_success_without_match :
  update_flashcard 2 "a@x.com" "n" "q" "a" omitted omitted omitted ann_store
  = (Ok true, ann_store)
  ∧ update_flashcard 1 "b@x.com" "n" "q" "a" omitted omitted omitted ann_store
  = (Ok true, ann_store).
Proof. split; vm_compute; reflexivity. Qed.

(** ** Deleting a card *)

(** C9: at a table that holds one card, with id 1 and owner a@x.com,
    [delete_flashcard] answers [True] for an id that no card has, and for
    the id of that card under another owner, although no row is removed. *)
Theorem delete_reports_success_without_match :
  delete_flashcard 2 "a@x.com" ann_store = (Ok true, ann_store)
  ∧ delete_flashcard 1 "b@x.com" ann_store = (Ok true, ann_store).
Proof. split; vm_compute; reflexivity. Qed.

(** On a table, the answer of [update_flashcard] and of [delete_flashcard]
    does not depend on the id or on the owner. *)
Lemma update_flashcard_answer fs cards n e name question answer collection iq ia :
  fs !! FLASHCARDS_CSV = Some (table cards) →
  (update_flashcard n e name question answer collection iq ia fs).1 = Ok true.
Proof. intros Hfs. by rewrite (update_flashcard_table _ _ _ _ _ _ _ _ _ _ Hfs). Qed.

Lemma delete_flashcard_answer fs cards n e :
  fs !! FLASHCARDS_CSV = Some (table cards) →
  (delete_flashcard n e fs).1 = Ok true.
Proof. intros Hfs. by rewrite (delete_flashcard_table _ _ _ _ Hfs). Qed.

Lemma filter_keeps_all {A} (P : A → Prop) `{!∀ x, Decision (P x)} (l : list A) :
  Forall P l → filter P l = l.
Proof.
  induction 1 as [|x l Hx _ IH]; [done|].
  rewrite filter_cons_True by done. by rewrite IH.
Qed.

(** Without a matching card the table is written back as it was. *)
Lemma delete_flashcard_no_match fs cards n e :
  fs !! FLASHCARDS_CSV = Some (table cards) →
  Forall (fun c => ¬ card_of n e c) cards →
  delete_flashcard n e fs = (Ok true, fs).
Proof.
  intros Hfs Hno. rewrite (delete_flashcard_table _ _ _ _ Hfs).
  rewrite filter_keeps_all by done. by rewrite insert_table_id.
Qed.

(** ** Reading a card by id *)

(** C6: in a flashcard table with distinct ids, for every stored card and
    the number [n] that is its id, [get_flashcard_by_id n e] returns the
    card when [e] is its owner's email up to case, and [None] for every
    other [e], although a card with that id is in the table. *)
Theorem get_by_id_checks_owner (fs : filesystem) (cards : list flashcard)
    (c : flashcard) (n : Z) (e : string) :
  fs !! FLASHCARDS_CSV = Some (table cards) →
  NoDup (fc_id <$> cards) →
  c ∈ cards →
  fc_id c = PyStr.str_of_int n →
  (same_email (fc_user_email c) e →
     get_flashcard_by_id n e fs = Ok (Some (view_of c)))
  ∧ (¬ same_email (fc_user_email c) e →
     get_flashcard_by_id n e fs = Ok None).
Proof.
  intros Hfs Hnd Hin Hid.
  rewrite (get_flashcard_by_id_table _ _ _ _ Hfs).
  apply list_elem_of_split in Hin as (cards1 & cards2 & ->).
  destruct (distinct_ids_split _ _ _ Hnd) as [H1 H2].
  assert (Hother : ∀ l, Forall (fun c' => fc_id c' ≠ fc_id c) l →
                        Forall (fun c' => ¬ card_of n e c') l).
  { intros l Hl. eapply Forall_impl; [exact Hl|].
    intros c' Hne [Hid' _]. congruence. }
  split; intros Howner.
  - apply find_card_first; [by apply Hother|done].
  - apply find_card_none. apply Forall_app. split; [by apply Hother|].
    constructor; [|by apply Hother]. by intros [_ ?].
Qed.

Lemma get_by_id_checks_owner_witness :
  get_flashcard_by_id 2 "B@X.COM" two_card_store = Ok (Some (view_of bob_card))
  ∧ get_flashcard_by_id 2 "a@x.com" two_card_store = Ok None.
Proof.
  assert (Hin : bob_card ∈ [ann_card; bob_card]).
  { apply list_elem_of_further, list_elem_of_here. }
  assert (Hnd : NoDup (fc_id <$> [ann_card; bob_card])).
  { compute_done. }
  split.
  - apply (get_by_id_checks_owner two_card_store [ann_card; bob_card]
             bob_card 2 "B@X.COM"); [reflexivity|exact Hnd|exact Hin| |];
      reflexivity.
  - apply (get_by_id_checks_owner two_card_store [ann_card; bob_card]
             bob_card 2 "a@x.com"); [reflexivity|exact Hnd|exact Hin|reflexivity|].
    intros H. vm_compute in H. discriminate H.
Defined.

(** ** Deleting a collection *)

(** C7: on a flashcard table, [delete_collection col e] writes back exactly
    the cards that are not both in collection [col] (the same string) and
    owned by [e] (up to case), in their order and with all their fields:
    a card stays if and only if its collection differs from [col] or its
    owner differs from [e]. *)
Theorem delete_collection_removes_exactly (fs : filesystem)
    (cards : list flashcard) (col e : string) :
  fs !! FLASHCARDS_CSV = Some (table cards) →
  ∃ remaining,
    delete_collection col e fs = (Ok true, <[FLASHCARDS_CSV := table remaining]> fs)
    ∧ remaining = filter (fun c => ¬ in_collection col e c) cards
    ∧ ∀ c, c ∈ remaining ↔
           c ∈ cards ∧ (fc_collection c ≠ col ∨ ¬ same_email (fc_user_email c) e).
Proof.
  intros Hfs. eexists. split; [by apply delete_collection_table|].
  split; [done|]. intros c. rewrite list_elem_of_filter.
  unfold in_collection.
  destruct (decide (fc_collection c = col)); tauto.
Qed.

Lemma delete_collection_removes_exactly_witness :
  delete_collection "Math" "A@x.com" two_card_store
  = (Ok true, {[ FLASHCARDS_CSV := table [bob_card] ]}).
Proof.
  destruct (delete_collection_removes_exactly two_card_store
              [ann_card; bob_card] "Math" "A@x.com")
    as (remaining & Hrun & -> & _); [reflexivity|].
  rewrite Hrun. vm_compute. reflexivity.
Defined.

(** ** The migration *)

Section Migration.

Implicit Types (names r : csv_record) (records : list csv_record)
  (d : row) (fs : filesystem).

Lemma zip_fields_lookup_notin names r d k :
  k ∉ names → zip_fields names r d !! k = d !! k.
Proof.
  revert r d. induction names as [|k' names IH]; intros r d Hk; [done|].
  apply not_elem_of_cons in Hk as [Hne Hk].
  destruct r as [|v r]; cbn [zip_fields]; rewrite IH by done;
    by rewrite lookup_insert_ne.
Qed.

Lemma zip_fields_lookup_in names r d k :
  k ∈ names → is_Some (zip_fields names r d !! k).
Proof.
  revert r d. induction names as [|k' names IH]; intros r d Hk.
  - by apply elem_of_nil in Hk.
  - destruct (decide (k ∈ names)) as [Hin|Hnotin].
    + destruct r; cbn [zip_fields]; by apply IH.
    + apply elem_of_cons in Hk as [->|?]; [|done].
      destruct r; cbn [zip_fields]; rewrite zip_fields_lookup_notin by done;
        rewrite lookup_insert_eq; eauto.
Qed.

Lemma cell_text_get_or_empty names r k :
  cell_text (cell_of_val (get_or_empty (zip_fields names r ∅) k)) = field_of names r k.
Proof.
  unfold get_or_empty, field_of.
  by destruct (zip_fields names r ∅ !! k) as [[s|]|].
Qed.

Lemma getitem_field_of names r k :
  k ∈ names →
  ∃ v, getitem (zip_fields names r ∅) k = Ok v
       ∧ cell_text (cell_of_val v) = field_of names r k.
Proof.
  intros Hk. destruct (zip_fields_lookup_in names r ∅ k Hk) as [v Hv].
  exists v. unfold getitem, field_of. rewrite Hv. by destruct v.
Qed.

Lemma migrate_card_record names r i :
  "user_email" ∈ names → "question" ∈ names →
  "answer" ∈ names → "created_at" ∈ names →
  ∃ card, migrate_card i (zip_fields names r ∅) = Ok card
          ∧ migrated_record card = migrated_with names (PyStr.str_of_int i) r.
Proof.
  intros Hu Hq Ha Hc.
  destruct (getitem_field_of names r _ Hu) as (vu & Eu & Tu).
  destruct (getitem_field_of names r _ Hq) as (vq & Eq & Tq).
  destruct (getitem_field_of names r _ Ha) as (va & Ea & Ta).
  destruct (getitem_field_of names r _ Hc) as (vc & Ec & Tc).
  eexists. unfold migrate_card. rewrite Eu, Eq, Ea, Ec.
  split; [reflexivity|].
  unfold migrated_record, migrated_with, writerow. cbn.
  by rewrite Tu, Tq, Ta, Tc, !cell_text_get_or_empty.
Qed.

Lemma migrate_cards_records names records (i : nat) :
  "user_email" ∈ names → "question" ∈ names →
  "answer" ∈ names → "created_at" ∈ names →
  ∃ cards,
    migrate_cards (Z.of_nat (S i)) ((fun r => zip_fields names r ∅) <$> records)
    = Ok cards
    ∧ migrated_record <$> cards
      = imap (fun j => migrated_of names (i + j)) records.
Proof.
  intros Hu Hq Ha Hc. revert i.
  induction records as [|r records IH]; intros i.
  - by exists [].
  - destruct (migrate_card_record names r (Z.of_nat (S i)) Hu Hq Ha Hc)
      as (card & Ecard & Rcard).
    destruct (IH (S i)) as (cards & Ecards & Rcards).
    exists (card :: cards). rewrite fmap_cons. cbn [migrate_cards].
    rewrite Ecard. cbn [mbind result_bind].
    replace (Z.of_nat (S i) + 1) with (Z.of_nat (S (S i))) by lia.
    rewrite Ecards. split; [done|].
    rewrite fmap_cons, imap_cons, Rcard, Rcards.
    unfold migrated_of at 1. rewrite Nat.add_0_r. f_equal.
    apply imap_ext. intros j x _. cbn. by rewrite Nat.add_succ_r.
Qed.

Lemma backup_path_fresh now fs : backup_path now fs ≠ FLASHCARDS_CSV.
Proof. unfold backup_path. by destruct (exists_path _ fs). Qed.

(** The first line of a file that starts with the current header holds the
    four markers. *)
Lemma current_header_is_migrated records :
  already_migrated
    (PyStr.strip (readline (writerow (CStr <$> FLASHCARDS_HEADER) :: records)))
  = true.
Proof. reflexivity. Qed.

(** The run of the migration on a file that fails the header test. *)
Lemma migrate_run now fs names records :
  fs !! FLASHCARDS_CSV = Some (names :: records) →
  already_migrated (PyStr.strip (readline (names :: records))) = false →
  "user_email" ∈ names → "question" ∈ names →
  "answer" ∈ names → "created_at" ∈ names →
  migrate_flashcards_csv now fs
  = (Ok tt,
     <[FLASHCARDS_CSV :=
         FLASHCARDS_HEADER
         :: imap (migrated_of names) (List.filter nonblank records)]>
       (<[backup_path now fs := names :: records]> (delete FLASHCARDS_CSV fs))).
Proof.
  intros Hfs Hold Hu Hq Ha Hc.
  unfold migrate_flashcards_csv, open_read, rename.
  rewrite (exists_path_true _ _ _ Hfs), Hfs. cbn [negb]. rewrite Hold.
  fold (backup_path now fs). rewrite lookup_insert_eq.
  destruct (migrate_cards_records names (List.filter nonblank records) 0
              Hu Hq Ha Hc) as (cards & Ecards & Rcards).
  change (DictReader (names :: records)) with
    ((fun r => zip_fields names r ∅) <$> List.filter nonblank records).
  change 1 with (Z.of_nat 1). rewrite Ecards, Rcards. reflexivity.
Qed.

End Migration.

(** The migration of the four-column file of the specification: ids 1, 2, 3
    in the original order, empty name, images and collection, and the old
    content in the backup. *)
Example migrate_legacy_store :
  migrate_flashcards_csv 1700000000 legacy_store
  = (Ok tt,
     {[ FLASHCARDS_CSV :=
          table [ {| fc_id := "1"; fc_user_email := "a@x.com"; fc_name := "";
                     fc_question := "2+2?"; fc_answer := "4";
                     fc_image_question := ""; fc_image_answer := "";
                     fc_collection := "";
                     fc_created_at := "2023-05-01 09:00:00" |};
                  {| fc_id := "2"; fc_user_email := "b@x.com"; fc_name := "";
                     fc_question := "3*3?"; fc_answer := "9";
                     fc_image_question := ""; fc_image_answer := "";
                     fc_collection := "";
                     fc_created_at := "2023-05-02 09:00:00" |};
                  {| fc_id := "3"; fc_user_email := "a@x.com"; fc_name := "";
                     fc_question := "5-1?"; fc_answer := "4";
                     fc_image_question := ""; fc_image_answer := "";
                     fc_collection := "";
                     fc_created_at := "2023-05-03 09:00:00" |} ];
        "flashcards.csv.backup" := LEGACY_HEADER :: legacy_records ]}).
Proof. vm_compute. reflexivity. Qed.

(** On that file, where no record has an id, the program and the words of
    the specification give the same records. *)
Example spec_migrated_legacy :
  (migrate_flashcards_csv 1700000000 legacy_store).2 !! FLASHCARDS_CSV
  = Some (FLASHCARDS_HEADER :: spec_migrated LEGACY_HEADER 1 legacy_records).
Proof. vm_compute. reflexivity. Qed.

(** C2, as amended: for a flashcard file whose first line lacks one of the
    four markers and whose header has the columns user_email, question,
    answer and created_at, the migration succeeds and leaves a file under
    the current nine-column header in which every record, whether or not it
    had an id, carries its position in file order, counted from 1, as id;
    a field among name, collection, image_question and image_answer whose
    column is missing is the empty string; the other fields are those of
    the old record; the backup holds the old content; and no other file
    is touched. *)
Theorem migrate_numbers_every_row (now : Z) (fs : filesystem)
    (names : csv_record) (records : list csv_record) :
  fs !! FLASHCARDS_CSV = Some (names :: records) →
  already_migrated (PyStr.strip (readline (names :: records))) = false →
  "user_email" ∈ names → "question" ∈ names →
  "answer" ∈ names → "created_at" ∈ names →
  ∃ fs',
    migrate_flashcards_csv now fs = (Ok tt, fs')
    ∧ fs' !! FLASHCARDS_CSV
      = Some (FLASHCARDS_HEADER
              :: imap (migrated_of names) (List.filter nonblank records))
    ∧ (∀ r k, k ∉ names → field_of names r k = "")
    ∧ fs' !! backup_path now fs = Some (names :: records)
    ∧ ∀ path, path ≠ FLASHCARDS_CSV → path ≠ backup_path now fs →
              fs' !! path = fs !! path.
Proof.
  intros Hfs Hold Hu Hq Ha Hc. eexists.
  split; [by apply migrate_run|].
  pose proof (backup_path_fresh now fs) as Hfresh.
  split; [by rewrite lookup_insert_eq|].
  split.
  { intros r k Hk. unfold field_of.
    by rewrite zip_fields_lookup_notin, lookup_empty. }
  split; [by rewrite lookup_insert_ne, lookup_insert_eq|].
  intros path H1 H2.
  by rewrite !lookup_insert_ne, lookup_delete_ne.
Qed.

Lemma migrate_numbers_every_row_witness :
  ∃ fs',
    migrate_flashcards_csv 1700000000 imageless_store = (Ok tt, fs')
    ∧ fs' !! FLASHCARDS_CSV
      = Some [FLASHCARDS_HEADER;
              ["1"; "a@x.com"; "sum"; "2+2?"; "4"; ""; ""; "Math";
               "2024-01-01 10:00:00"];
              ["2"; "b@x.com"; ""; "3*3?"; "9"; ""; ""; "Math";
               "2024-01-02 10:00:00"]]
    ∧ fs' !! "flashcards.csv.backup" = imageless_store !! FLASHCARDS_CSV.
Proof.
  destruct (migrate_numbers_every_row 1700000000 imageless_store
              IMAGELESS_HEADER imageless_records)
    as (fs' & Hrun & Hfile & _ & Hbackup & _);
    [reflexivity|reflexivity|compute_done|compute_done|compute_done|compute_done|].
  exists fs'. split; [exact Hrun|]. split; [exact Hfile|exact Hbackup].
Defined.

(** C2, as stated, fails on a file that has ids and lacks the image
    columns: its records have the ids 2 and 5, which the specification
    carries over, and the migration writes 1 and 2 in their place. *)
Lemma migrate_overwrites_stored_ids :
  (migrate_flashcards_csv 1700000000 imageless_store).2 !! FLASHCARDS_CSV
  = Some [FLASHCARDS_HEADER;
          ["1"; "a@x.com"; "sum"; "2+2?"; "4"; ""; ""; "Math";
           "2024-01-01 10:00:00"];
          ["2"; "b@x.com"; ""; "3*3?"; "9"; ""; ""; "Math";
           "2024-01-02 10:00:00"]]
  ∧ spec_migrated IMAGELESS_HEADER 1 imageless_records
    = [["2"; "a@x.com"; "sum"; "2+2?"; "4"; ""; ""; "Math";
        "2024-01-01 10:00:00"];
       ["5"; "b@x.com"; ""; "3*3?"; "9"; ""; ""; "Math";
        "2024-01-02 10:00:00"]]
  ∧ (migrate_flashcards_csv 1700000000 imageless_store).2 !! FLASHCARDS_CSV
    ≠ Some (FLASHCARDS_HEADER
            :: spec_migrated IMAGELESS_HEADER 1 imageless_records).
Proof.
  split; [vm_compute; reflexivity|].
  split; [vm_compute; reflexivity|].
  intros H. vm_compute in H. discriminate H.
Qed.

(** C3: when the first line of the flashcard file holds the four markers,
    the migration returns at once and the file system is as before; and
    after a migration that succeeded, a second run, at whatever time,
    leaves the file system as it is: the file is unchanged and there is no
    new backup. *)
Theorem migrate_is_idempotent (now now' : Z) (fs : filesystem) :
  (∀ file, fs !! FLASHCARDS_CSV = Some file →
           already_migrated (PyStr.strip (readline file)) = true →
           migrate_flashcards_csv now fs = (Ok tt, fs))
  ∧ (∀ fs', migrate_flashcards_csv now fs = (Ok tt, fs') →
            migrate_flashcards_csv now' fs' = (Ok tt, fs')).
Proof.
  split.
  - intros file Hfs Hnew. unfold migrate_flashcards_csv, open_read.
    by rewrite (exists_path_true _ _ _ Hfs), Hfs, Hnew.
  - intros fs' Hrun. unfold migrate_flashcards_csv in Hrun.
    destruct (exists_path FLASHCARDS_CSV fs) eqn:Hex; cbn [negb] in Hrun.
    2:{ injection Hrun as <-. unfold migrate_flashcards_csv. by rewrite Hex. }
    unfold open_read in Hrun at 1.
    destruct (fs !! FLASHCARDS_CSV) as [file|] eqn:Hfs; [|discriminate Hrun].
    destruct (already_migrated (PyStr.strip (readline file))) eqn:Hnew.
    { injection Hrun as <-. unfold migrate_flashcards_csv, open_read.
      by rewrite Hex, Hfs, Hnew. }
    unfold rename in Hrun. rewrite Hfs in Hrun.
    destruct (open_read _ _) as [old|]; [|discriminate Hrun].
    destruct (migrate_cards 1 (DictReader old)) as [cards|];
      [|discriminate Hrun].
    injection Hrun as <-.
    unfold migrate_flashcards_csv, open_read.
    rewrite (exists_path_true _ _ _ (lookup_insert_eq _ _ _)), lookup_insert_eq.
    cbn [negb]. by rewrite current_header_is_migrated.
Qed.

Lemma migrate_is_idempotent_witness :
  migrate_flashcards_csv 1700000000 ann_store = (Ok tt, ann_store)
  ∧ migrate_flashcards_csv 1700000060
      (migrate_flashcards_csv 1700000000 legacy_store).2
    = (Ok tt, (migrate_flashcards_csv 1700000000 legacy_store).2).
Proof.
  split.
  - apply (proj1 (migrate_is_idempotent 1700000000 0 ann_store)
             (table [ann_card])); reflexivity.
  - apply (proj2 (migrate_is_idempotent 1700000000 1700000060 legacy_store)).
    vm_compute. reflexivity.
Defined.

(** ** Integer literals: the scan of [int()] and the grammar agree *)

Section IntLiteral.

Implicit Types (s t body digits before after : string) (c : ascii) (acc v k : Z).

Lemma append_cons c s t : String c s +:+ t = String c (s +:+ t).
Proof. reflexivity. Qed.

Lemma append_assoc s t u : (s +:+ t) +:+ u = s +:+ t +:+ u.
Proof. induction s as [|c s IH]; [done|]. by rewrite !append_cons, IH. Qed.

Lemma append_nil_r s : s +:+ "" = s.
Proof. induction s as [|c s IH]; [done|]. by rewrite append_cons, IH. Qed.

Lemma any_char_append (p : ascii → bool) s t :
  any_char p (s +:+ t) = any_char p s || any_char p t.
Proof.
  induction s as [|c s IH]; [done|].
  rewrite append_cons. cbn [any_char]. by rewrite IH, orb_assoc.
Qed.

Lemma int_isspace_white c :
  PyStr.int_isspace c = true ↔ PyStr.code c ∈ INT_WHITESPACE.
Proof.
  unfold PyStr.int_isspace, PyStr.in_range, INT_WHITESPACE.
  rewrite !elem_of_cons, elem_of_nil, !orb_true_iff, andb_true_iff,
    !Z.leb_le, !Z.eqb_eq.
  lia.
Qed.

Lemma digit_of_digit c d :
  PyStr.digit_of c = Some d ↔ is_digit c ∧ d = PyStr.code c - 48.
Proof.
  unfold PyStr.digit_of, PyStr.in_range, is_digit.
  destruct (Z.leb_spec 48 (PyStr.code c)), (Z.leb_spec (PyStr.code c) 57);
    cbn [andb]; split; try (intros [= <-]); try (intros [? ->]);
    try done; lia.
Qed.

Lemma digit_of_is_digit c :
  is_digit c → PyStr.digit_of c = Some (PyStr.code c - 48).
Proof. intros Hc. by apply digit_of_digit. Qed.

Lemma digit_not_white c : is_digit c → PyStr.int_isspace c = false.
Proof.
  intros Hc. apply not_true_is_false. rewrite int_isspace_white.
  unfold is_digit, INT_WHITESPACE in *.
  rewrite !elem_of_cons, elem_of_nil. lia.
Qed.

Lemma digit_not_sign c : is_digit c → c ≠ "+"%char ∧ c ≠ "-"%char.
Proof.
  unfold is_digit. intros Hc. split; intros ->.
  - change (PyStr.code "+") with 43 in Hc. lia.
  - change (PyStr.code "-") with 45 in Hc. lia.
Qed.

(** *** White space around the literal *)

Lemma is_white_cons c s :
  is_white (String c s) ↔ PyStr.int_isspace c = true ∧ is_white s.
Proof.
  unfold is_white. cbn [chars list_ascii_of_string].
  rewrite Forall_cons. by rewrite int_isspace_white.
Qed.

Lemma int_lstrip_split s :
  ∃ before, is_white before ∧ s = before +:+ PyStr.int_lstrip s.
Proof.
  induction s as [|c s (before & Hwhite & Hs)].
  - exists "". split; [constructor|done].
  - cbn [PyStr.int_lstrip]. destruct (PyStr.int_isspace c) eqn:Hc.
    + exists (String c before). split; [by apply is_white_cons|].
      by rewrite append_cons, <- Hs.
    + exists "". split; [constructor|done].
Qed.

Lemma int_rstrip_split s :
  ∃ after, is_white after ∧ s = PyStr.int_rstrip s +:+ after.
Proof.
  induction s as [|c s (after & Hwhite & Hs)].
  - exists "". split; [constructor|done].
  - cbn [PyStr.int_rstrip]. destruct (PyStr.int_rstrip s) as [|c' kept].
    + change ("" +:+ after) with after in Hs. subst s.
      destruct (PyStr.int_isspace c) eqn:Hc.
      * exists (String c after). split; [by apply is_white_cons|done].
      * by exists after.
    + exists after. split; [done|]. by rewrite append_cons, <- Hs.
Qed.

Lemma int_lstrip_white before s :
  is_white before → PyStr.int_lstrip (before +:+ s) = PyStr.int_lstrip s.
Proof.
  induction before as [|c before IH]; [done|].
  intros [Hc Hwhite]%is_white_cons.
  rewrite append_cons. cbn [PyStr.int_lstrip]. rewrite Hc. by apply IH.
Qed.

Lemma int_rstrip_white after :
  is_white after → PyStr.int_rstrip after = "".
Proof.
  induction after as [|c after IH]; [done|].
  intros [Hc Hwhite]%is_white_cons. cbn [PyStr.int_rstrip]. by rewrite IH, Hc.
Qed.

Lemma int_rstrip_append_white s after :
  is_white after → PyStr.int_rstrip (s +:+ after) = PyStr.int_rstrip s.
Proof.
  intros Hwhite. induction s as [|c s IH]; [by apply int_rstrip_white|].
  rewrite append_cons. cbn [PyStr.int_rstrip]. by rewrite IH.
Qed.

Lemma int_rstrip_clean s :
  any_char PyStr.int_isspace s = false → PyStr.int_rstrip s = s.
Proof.
  induction s as [|c s IH]; [done|]. cbn [any_char PyStr.int_rstrip].
  intros [Hc Hs]%orb_false_elim. rewrite IH, Hc by done. by destruct s.
Qed.

(** A text without white space, between white space, is what [int()]
    reads. *)
Lemma int_strip_core before core after :
  is_white before → is_white after →
  core ≠ "" → any_char PyStr.int_isspace core = false →
  PyStr.int_strip (before +:+ core +:+ after) = core.
Proof.
  intros Hbefore Hafter Hne Hclean. unfold PyStr.int_strip.
  rewrite int_lstrip_white by done.
  destruct core as [|c core]; [done|].
  cbn [any_char] in Hclean. apply orb_false_elim in Hclean as [Hc Hcore].
  rewrite append_cons. cbn [PyStr.int_lstrip]. rewrite Hc, <- append_cons.
  rewrite int_rstrip_append_white by done.
  apply int_rstrip_clean. cbn [any_char]. by rewrite Hc, Hcore.
Qed.

(** *** The digits *)

Lemma digit_groups_head body digits :
  digit_groups body digits →
  ∃ c rest, body = String c rest ∧ is_digit c.
Proof. destruct 1; by eauto. Qed.

Lemma digit_groups_clean body digits :
  digit_groups body digits → any_char PyStr.int_isspace body = false.
Proof.
  induction 1 as [c Hc|c body digits Hc _ IH|c body digits Hc _ IH];
    cbn [any_char]; rewrite (digit_not_white c Hc); [done|done|].
  by rewrite IH.
Qed.

Lemma digit_groups_count body digits :
  digit_groups body digits → PyStr.digit_count body = String.length digits.
Proof.
  induction 1 as [c Hc|c body digits Hc _ IH|c body digits Hc _ IH];
    cbn [PyStr.digit_count String.length];
    rewrite (digit_of_is_digit c Hc); [done|by rewrite IH|].
  change (PyStr.digit_of "_") with (@None Z). by rewrite IH.
Qed.

(** After a digit, the scan goes on as at the start of the digits. *)
Lemma int_digits_seen c s acc :
  is_digit c →
  PyStr.int_digits (String c s) acc true = PyStr.int_digits (String c s) acc false.
Proof. intros Hc. cbn [PyStr.int_digits]. by rewrite (digit_of_is_digit c Hc). Qed.

Lemma int_digits_groups body digits :
  digit_groups body digits →
  ∀ acc, PyStr.int_digits body acc false = Some (decimal_from acc digits).
Proof.
  induction 1 as [c Hc|c body digits Hc Hbody IH|c body digits Hc _ IH];
    intros acc; cbn [PyStr.int_digits]; rewrite (digit_of_is_digit c Hc).
  - done.
  - destruct (digit_groups_head _ _ Hbody) as (c' & rest & -> & Hc').
    rewrite int_digits_seen by done. apply IH.
  - change (PyStr.digit_of "_") with (@None Z). cbn [andb Ascii.eqb Bool.eqb].
    apply IH.
Qed.

(** What the scan accepts: at the start of the digits, digit groups; after
    a digit, nothing more, or more digit groups, or an underscore and digit
    groups. *)
Lemma int_digits_accepts s :
  ∀ acc v,
    (PyStr.int_digits s acc false = Some v →
     ∃ digits, digit_groups s digits ∧ v = decimal_from acc digits)
    ∧ (PyStr.int_digits s acc true = Some v →
       (s = "" ∧ v = acc)
       ∨ (∃ digits, digit_groups s digits ∧ v = decimal_from acc digits)
       ∨ (∃ rest digits, s = String "_" rest ∧ digit_groups rest digits
                         ∧ v = decimal_from acc digits)).
Proof.
  induction s as [|c s IH]; intros acc v.
  { split; [done|]. intros [= <-]. by left. }
  cbn [PyStr.int_digits].
  destruct (PyStr.digit_of c) as [d|] eqn:Hd.
  - apply digit_of_digit in Hd as [Hc ->].
    assert (Hstep : PyStr.int_digits s (10 * acc + (PyStr.code c - 48)) true = Some v →
                    ∃ digits, digit_groups (String c s) digits
                              ∧ v = decimal_from acc digits).
    { intros Hrun. apply IH in Hrun
        as [[-> ->]|[(digits & Hgroups & ->)|(rest & digits & -> & Hgroups & ->)]].
      - exists (String c ""). split; [by constructor|done].
      - exists (String c digits). split; [by constructor|done].
      - exists (String c digits). split; [by constructor|done]. }
    split; [done|]. intros Hrun. right. left. by apply Hstep.
  - split; [done|]. cbn [andb].
    destruct (Ascii.eqb_spec c "_") as [->|Hc]; [|done].
    intros Hrun. apply IH in Hrun as (digits & Hgroups & ->).
    right. right. by eauto.
Qed.

(** *** The sign *)

(** The three ways in which [int()] goes on after the white space. *)
Lemma int_sign_cases t :
  (∃ rest, t = String "+" rest)
  ∨ (∃ rest, t = String "-" rest)
  ∨ ((∀ c rest, t = String c rest → c ≠ "+"%char ∧ c ≠ "-"%char)
     ∧ match t with
       | String "+"%char rest => PyStr.int_digits rest 0 false
       | String "-"%char rest => Z.opp <$> PyStr.int_digits rest 0 false
       | t => PyStr.int_digits t 0 false
       end = PyStr.int_digits t 0 false).
Proof.
  destruct t as [|c rest]; [right; right; by split|].
  destruct (decide (c = "+"%char)) as [->|Hplus]; [left; by eauto|].
  destruct (decide (c = "-"%char)) as [->|Hminus]; [right; left; by eauto|].
  right. right. split; [by intros ? ? [= <- <-]|].
  destruct c as [[] [] [] [] [] [] [] []]; try reflexivity; congruence.
Qed.

(** *** The scan and the grammar *)

Lemma int_of_str_literal s k :
  PyStr.int_of_str s = Some k ↔ int_literal s k.
Proof.
  split.
  - unfold PyStr.int_of_str, PyStr.int_strip.
    destruct (int_lstrip_split s) as (before & Hbefore & Hs).
    destruct (int_rstrip_split (PyStr.int_lstrip s)) as (after & Hafter & Ht).
    set (t := PyStr.int_rstrip (PyStr.int_lstrip s)) in *.
    change PyStr.MAX_STR_DIGITS with 4300%nat.
    destruct (Nat.ltb_spec 4300 (PyStr.digit_count t)) as [|Hcount]; [done|].
    assert (Hlit : ∀ sign factor body digits,
              t = sign +:+ body → sign_of sign factor →
              PyStr.digit_count sign = 0%nat →
              digit_groups body digits → k = factor * decimal digits →
              int_literal s k).
    { intros sign factor body digits Hsplit Hsign Hnone Hgroups ->.
      rewrite Hs, Ht, Hsplit, !append_assoc. constructor; try done.
      rewrite <- (digit_groups_count _ _ Hgroups).
      assert (PyStr.digit_count t
              = (PyStr.digit_count sign + PyStr.digit_count body)%nat) as Hsum.
      { rewrite Hsplit. clear. induction sign as [|c sign IH]; [done|].
        rewrite append_cons. cbn [PyStr.digit_count].
        destruct (PyStr.digit_of c); by rewrite IH. }
      rewrite Hsum, Hnone in Hcount. exact Hcount. }
    destruct (int_sign_cases t) as [[rest Hplus]|[[rest Hminus]|[_ Hplain]]].
    + rewrite Hplus. intros Hrun.
      apply int_digits_accepts in Hrun as (digits & Hgroups & ->).
      apply (Hlit "+" 1 rest digits); [done|constructor|done|done|].
      unfold decimal. lia.
    + rewrite Hminus.
      destruct (PyStr.int_digits rest 0 false) as [v|] eqn:Hrun; [|done].
      intros [= <-].
      apply int_digits_accepts in Hrun as (digits & Hgroups & ->).
      apply (Hlit "-" (-1) rest digits); [done|constructor|done|done|].
      unfold decimal. lia.
    + rewrite Hplain. intros Hrun.
      apply int_digits_accepts in Hrun as (digits & Hgroups & ->).
      apply (Hlit "" 1 t digits); [done|constructor|done|done|].
      unfold decimal. lia.
  - intros [before sign body after digits factor Hbefore Hsign Hgroups Hafter Hlen].
    unfold PyStr.int_of_str.
    assert (Hsign_clean : any_char PyStr.int_isspace sign = false
                          ∧ PyStr.digit_count sign = 0%nat)
      by (by destruct Hsign).
    destruct Hsign_clean as [Hclean Hnone].
    destruct (digit_groups_head _ _ Hgroups) as (c & rest & Hbody & Hc).
    rewrite <- (append_assoc sign), int_strip_core; [|done|done| |].
    2:{ subst body. by destruct Hsign. }
    2:{ by rewrite any_char_append, Hclean, (digit_groups_clean _ _ Hgroups). }
    assert (PyStr.digit_count (sign +:+ body) = String.length digits) as ->.
    { rewrite <- (digit_groups_count _ _ Hgroups). by destruct Hsign. }
    change PyStr.MAX_STR_DIGITS with 4300%nat.
    destruct (Nat.ltb_spec 4300 (String.length digits)) as [Hover|_].
    { exfalso. by apply (Nat.lt_irrefl 4300), (Nat.lt_le_trans _ _ _ Hover). }
    destruct Hsign.
    + change ("" +:+ body) with body.
      destruct (int_sign_cases body) as [[? ->]|[[? ->]|[_ ->]]].
      * injection Hbody as <- _. by destruct (digit_not_sign _ Hc).
      * injection Hbody as <- _. by destruct (digit_not_sign _ Hc).
      * rewrite (int_digits_groups _ _ Hgroups). f_equal. unfold decimal. lia.
    + change ("+" +:+ body) with (String "+" body). cbv beta iota.
      rewrite (int_digits_groups _ _ Hgroups). f_equal. unfold decimal. lia.
    + change ("-" +:+ body) with (String "-" body). cbv beta iota.
      rewrite (int_digits_groups _ _ Hgroups). cbn [fmap option_fmap option_map].
      f_equal; unfold decimal; lia.
Qed.

(** A string is a literal of at most one number. *)
Lemma int_literal_unique s k k' : int_literal s k → int_literal s k' → k = k'.
Proof. rewrite <- !int_of_str_literal. congruence. Qed.

Lemma not_int_literal s :
  PyStr.int_of_str s = None → ∀ k, ¬ int_literal s k.
Proof. intros Hs k Hk. apply int_of_str_literal in Hk. congruence. Qed.

(** The ids that the scan of the records counts are the integer literals
    among their id fields. *)
Lemma literal_ids_parsed (records : list csv_record) (ids : list Z) :
  literal_ids records ids → parsed_ids records = ids.
Proof.
  unfold parsed_ids.
  induction 1 as [|records ids _ IH|id r records k ids Hid _ IH
                  |id r records ids Hid _ IH]; cbn [omap list_omap record_id].
  - done.
  - exact IH.
  - apply int_of_str_literal in Hid. rewrite Hid. f_equal. exact IH.
  - destruct (PyStr.int_of_str id) as [k|] eqn:Hk; [|exact IH].
    apply int_of_str_literal in Hk. by destruct (Hid k).
Qed.

Lemma parsed_ids_literal (records : list csv_record) :
  literal_ids records (parsed_ids records).
Proof.
  unfold parsed_ids. induction records as [|[|id r] records IH];
    cbn [omap list_omap record_id]; [constructor|by constructor|].
  destruct (PyStr.int_of_str id) as [k|] eqn:Hk.
  - constructor; [by apply int_of_str_literal|done].
  - apply literal_ids_other; [by apply not_int_literal|done].
Qed.

End IntLiteral.

(** ** The next id *)

Section NextId.

Implicit Types (records : list csv_record) (fs : filesystem).

Lemma header_row_id (r : csv_record) id :
  zip_fields FLASHCARDS_HEADER (id :: r) ∅ !! "id" = Some (Some id).
Proof.
  change (zip_fields FLASHCARDS_HEADER (id :: r) ∅) with
    (zip_fields (tail FLASHCARDS_HEADER) r (<["id" := Some id]> ∅)).
  rewrite zip_fields_lookup_notin by compute_done.
  apply lookup_insert_eq.
Qed.

Lemma scan_ids_records records (m : Z) :
  scan_ids m ((fun r => zip_fields FLASHCARDS_HEADER r ∅)
                <$> List.filter nonblank records)
  = Ok (fold_left Z.max (parsed_ids records) m).
Proof.
  revert m. induction records as [|r records IH]; intros m; [done|].
  destruct r as [|id r]; cbn [List.filter nonblank]; [apply IH|].
  rewrite fmap_cons. cbn [scan_ids]. unfold scan_id at 1.
  rewrite header_row_id. unfold parsed_ids. cbn [omap list_omap record_id].
  destruct (PyStr.int_of_str id) as [n|]; cbn [mbind result_bind fold_left];
    apply IH.
Qed.

Lemma max_or_zero_fold (ids : list Z) :
  Forall (fun i => 0 ≤ i) ids → fold_left Z.max ids 0 = max_or_zero ids.
Proof.
  destruct 1 as [|i ids Hi _]; [done|].
  cbn [fold_left max_or_zero]. by rewrite Z.max_r.
Qed.

(** The id scan on a file with the current header, whatever its records. *)
Lemma get_next_flashcard_id_scan fs records :
  fs !! FLASHCARDS_CSV = Some (FLASHCARDS_HEADER :: records) →
  get_next_flashcard_id fs = Ok (fold_left Z.max (parsed_ids records) 0 + 1).
Proof.
  intros Hfs. unfold get_next_flashcard_id, open_read.
  rewrite (exists_path_true _ _ _ Hfs), Hfs. cbn [negb mbind result_bind].
  change (DictReader (FLASHCARDS_HEADER :: records)) with
    ((fun r => zip_fields FLASHCARDS_HEADER r ∅) <$> List.filter nonblank records).
  by rewrite scan_ids_records.
Qed.

Lemma init_flashcards_csv_present fs file :
  fs !! FLASHCARDS_CSV = Some file → init_flashcards_csv fs = fs.
Proof.
  intros Hfs. unfold init_flashcards_csv.
  by rewrite (exists_path_true _ _ _ Hfs).
Qed.

End NextId.

(** Ids that are not positive do not raise the next id above 1. *)
Example next_id_with_negative_id :
  get_next_flashcard_id {[ FLASHCARDS_CSV := table [carol_card "-3"] ]} = Ok 1.
Proof. vm_compute. reflexivity. Qed.

(** An id that does not parse is skipped. *)
Example next_id_skips_garbage :
  get_next_flashcard_id
    {[ FLASHCARDS_CSV := table [carol_card "4"; carol_card "x7"] ]} = Ok 5.
Proof. vm_compute. reflexivity. Qed.

(** [save_flashcard] on a file with the current header: the record goes
    under the next id when [str()] of that id is defined, and nothing is
    written when [str()] raises. *)
Lemma save_flashcard_next (fs : filesystem) (records : list csv_record) (next : Z)
    (created_at e name question answer : string) (col iq ia : arg string) :
  fs !! FLASHCARDS_CSV = Some (FLASHCARDS_HEADER :: records) →
  get_next_flashcard_id fs = Ok next →
  save_flashcard created_at e name question answer col iq ia fs
  = if PyStr.str_fits next
    then (Ok next,
          <[FLASHCARDS_CSV :=
              FLASHCARDS_HEADER
              :: records ++
                 [[PyStr.str_of_int next; e; name; question; answer;
                   arg_value "" iq; arg_value "" ia; arg_value "" col;
                   created_at]]]> fs)
    else (Raise ValueError, fs).
Proof.
  intros Hfs Hnext. unfold save_flashcard.
  rewrite (init_flashcards_csv_present _ _ Hfs), Hnext.
  unfold try_writerow. cbn [forallb cell_fits andb]. rewrite andb_true_r.
  destruct (PyStr.str_fits next); [|done].
  unfold append_record. by rewrite Hfs.
Qed.

(** ** Registration *)

Section Registration.

Implicit Types (fs : filesystem) (records : list csv_record) (rows : list row).

Lemma truthy_nonempty (s : string) : s ≠ "" → PyStr.truthy s = true.
Proof. by destruct s. Qed.

Lemma submitted_inv (v : pyval) :
  submitted v = true → ∃ s, v = Some s ∧ s ≠ "".
Proof. destruct v as [[|a s]|]; [done| |done]. intros _. by eexists. Qed.

(** The handler on a form with four non-empty values: the three remaining
    checks, in order. *)
Lemma register_valid created_at n e p c fs :
  n ≠ "" → e ≠ "" → p ≠ "" → c ≠ "" →
  register created_at (Some n) (Some e) (Some p) (Some c) fs
  = if negb (String.eqb p c) then (Ok (failure PASSWORDS_DO_NOT_MATCH), fs)
    else if (String.length p <? 6)%nat then (Ok (failure PASSWORD_TOO_SHORT), fs)
    else match email_exists e fs with
         | Raise err => (Raise err, fs)
         | Ok true => (Ok (failure EMAIL_ALREADY_REGISTERED), fs)
         | Ok false =>
             (Ok account_created,
              save_user_to_csv created_at n e p (init_users_csv fs))
         end.
Proof.
  intros Hn He Hp Hc. unfold register, submitted.
  by rewrite !truthy_nonempty by done.
Qed.

Lemma email_in_same rows e e' :
  same_email e e' → email_in rows e = email_in rows e'.
Proof.
  unfold same_email. intros Hsame.
  induction rows as [|r rows IH]; [done|].
  cbn [email_in]. by rewrite Hsame, IH.
Qed.

Lemma email_in_snoc rows r e :
  email_in rows e = Ok false → email_in (rows ++ [r]) e = email_in [r] e.
Proof.
  induction rows as [|r' rows IH]; [done|].
  rewrite <- app_comm_cons. cbn [email_in].
  destruct (getitem r' "email") as [v|]; [|done]. cbn [mbind result_bind].
  destruct (lower_of v) as [l|]; [|done]. cbn [mbind result_bind].
  by destruct (String.eqb l (PyStr.lower e)).
Qed.

Lemma email_in_new_user n e p t e' :
  same_email e e' →
  email_in [zip_fields USERS_HEADER [n; e; p; t] ∅] e' = Ok true.
Proof.
  unfold same_email. intros Hsame.
  change (email_in [zip_fields USERS_HEADER [n; e; p; t] ∅] e') with
    (if String.eqb (PyStr.lower e) (PyStr.lower e') then Ok true else Ok false).
  by rewrite Hsame, String.eqb_refl.
Qed.

Lemma user_rows_snoc records (r : csv_record) :
  r ≠ [] →
  user_rows (records ++ [r]) = user_rows records ++ [zip_fields USERS_HEADER r ∅].
Proof.
  intros Hr. unfold user_rows. rewrite List.filter_app, fmap_app.
  by destruct r.
Qed.

Lemma email_exists_ready fs e :
  users_ready fs → email_exists e fs = email_in (user_rows (users_records fs)) e.
Proof.
  unfold email_exists, users_records, open_read.
  intros [Hfs|[records Hfs]].
  - by rewrite (exists_path_false _ _ Hfs), Hfs.
  - by rewrite (exists_path_true _ _ _ Hfs), Hfs.
Qed.

(** The users file after [init_users_csv] and [save_user_to_csv]: the
    header, the records that were there, and the new record. *)
Lemma users_after_save fs t n e p :
  users_ready fs →
  save_user_to_csv t n e p (init_users_csv fs)
  = <[USERS_CSV := USERS_HEADER :: users_records fs ++ [[n; e; p; t]]]> fs.
Proof.
  unfold save_user_to_csv, init_users_csv, append_record, users_records.
  intros [Hfs|[records Hfs]].
  - rewrite (exists_path_false _ _ Hfs), Hfs. cbn [negb].
    rewrite lookup_insert_eq. by rewrite insert_insert_eq.
  - rewrite (exists_path_true _ _ _ Hfs), Hfs. cbn [negb]. by rewrite Hfs.
Qed.

Lemma users_ready_after fs records :
  users_ready (<[USERS_CSV := USERS_HEADER :: records]> fs)
  ∧ users_records (<[USERS_CSV := USERS_HEADER :: records]> fs) = records.
Proof.
  split.
  - right. exists records. apply lookup_insert_eq.
  - unfold users_records. by rewrite lookup_insert_eq.
Qed.

(** After a registration was saved, every spelling of its email is found. *)
Lemma email_exists_after_save fs t n e p e' :
  users_ready fs →
  email_exists e fs = Ok false →
  same_email e e' →
  email_exists e' (save_user_to_csv t n e p (init_users_csv fs)) = Ok true.
Proof.
  intros Hready Hfresh Hsame.
  rewrite users_after_save by done.
  destruct (users_ready_after fs (users_records fs ++ [[n; e; p; t]]))
    as [Hready' Hrecords'].
  rewrite email_exists_ready, Hrecords' by done.
  rewrite email_exists_ready in Hfresh by done.
  rewrite user_rows_snoc by done.
  rewrite email_in_snoc.
  - by apply email_in_new_user.
  - by rewrite <- (email_in_same _ e e').
Qed.

End Registration.

(** The four reasons are four different messages. *)
Lemma failure_reasons_distinct :
  NoDup [ALL_FIELDS_REQUIRED; PASSWORDS_DO_NOT_MATCH; PASSWORD_TOO_SHORT;
         EMAIL_ALREADY_REGISTERED].
Proof. compute_done. Qed.

(** A registration that succeeded passed the four checks. *)
Lemma register_success_inv created_at n e p fs fs' :
  register created_at (Some n) (Some e) (Some p) (Some p) fs
  = (Ok account_created, fs') →
  n ≠ "" ∧ e ≠ "" ∧ p ≠ "" ∧ (6 ≤ String.length p)%nat
  ∧ email_exists e fs = Ok false
  ∧ fs' = save_user_to_csv created_at n e p (init_users_csv fs).
Proof.
  intros Hrun.
  destruct n as [|a n]; [discriminate Hrun|].
  destruct e as [|b e]; [discriminate Hrun|].
  destruct p as [|c p]; [discriminate Hrun|].
  rewrite register_valid in Hrun by done.
  rewrite String.eqb_refl in Hrun. cbn [negb] in Hrun.
  destruct (Nat.ltb_spec (String.length (String c p)) 6) as [Hlen|Hlen];
    [discriminate Hrun|].
  destruct (email_exists (String b e) fs) as [[|]|];
    [discriminate Hrun| |discriminate Hrun].
  injection Hrun as <-. by repeat split.
Qed.

(** ** Every write of the program leaves a table *)

Section Closure.

Implicit Types (c : flashcard) (cards : list flashcard) (fs : filesystem).

Lemma init_flashcards_csv_missing fs :
  fs !! FLASHCARDS_CSV = None →
  init_flashcards_csv fs = <[FLASHCARDS_CSV := table []]> fs.
Proof.
  intros Hfs. unfold init_flashcards_csv.
  by rewrite (exists_path_false _ _ Hfs).
Qed.

(** A new card is appended to a table under the id that the scan gives,
    unless [str()] of that id raises. *)
Lemma save_flashcard_table fs cards created_at e name question answer col iq ia :
  fs !! FLASHCARDS_CSV = Some (table cards) →
  ∃ n,
    get_next_flashcard_id fs = Ok n
    ∧ save_flashcard created_at e name question answer col iq ia fs
      = if PyStr.str_fits n
        then (Ok n,
              <[FLASHCARDS_CSV :=
                  table (cards ++
                         [created_card n created_at e name question answer
                            (arg_value "" col) (arg_value "" iq)
                            (arg_value "" ia)])]> fs)
        else (Raise ValueError, fs).
Proof.
  intros Hfs. eexists. split; [by apply get_next_flashcard_id_scan|].
  rewrite (save_flashcard_next _ _ _ _ _ _ _ _ _ _ _ Hfs
             (get_next_flashcard_id_scan _ _ Hfs)).
  destruct (PyStr.str_fits _); [|done].
  unfold table. by rewrite fmap_app.
Qed.

(** The file that the migration writes is a table. *)
Lemma migrated_records_table (names : csv_record) (records : list csv_record) :
  ∃ cards, FLASHCARDS_HEADER :: imap (migrated_of names) records = table cards.
Proof.
  apply full_records_table, Forall_forall. intros r Hr.
  apply elem_of_lookup_imap in Hr as (i & old & -> & _). reflexivity.
Qed.

End Closure.

(** ** Printing and reading back an integer *)

Section IntText.

Lemma digit_of_pretty_char (m : N) :
  (m < 10)%N → PyStr.digit_of (pretty_N_char m) = Some (Z.of_N m).
Proof.
  intros Hm.
  assert (m = 0 ∨ m = 1 ∨ m = 2 ∨ m = 3 ∨ m = 4 ∨ m = 5 ∨ m = 6 ∨ m = 7
          ∨ m = 8 ∨ m = 9)%N as Hcases by lia.
  repeat (destruct Hcases as [->|Hcases]; [reflexivity|]).
  by subst m.
Qed.

Lemma isspace_pretty_char (m : N) :
  (m < 10)%N → PyStr.isspace (pretty_N_char m) = false.
Proof.
  intros Hm.
  assert (m = 0 ∨ m = 1 ∨ m = 2 ∨ m = 3 ∨ m = 4 ∨ m = 5 ∨ m = 6 ∨ m = 7
          ∨ m = 8 ∨ m = 9)%N as Hcases by lia.
  repeat (destruct Hcases as [->|Hcases]; [reflexivity|]).
  by subst m.
Qed.

(** The digits that [pretty_N_go] puts in front of [s]: they start with a
    digit, hold no white space, and read back as the number. *)
Lemma pretty_digits (x : N) :
  (0 < x)%N →
  ∀ s, ∃ m rest k,
    (m < 10)%N ∧ 0 ≤ k
    ∧ pretty_N_go x s = String (pretty_N_char m) rest
    ∧ (any_char PyStr.isspace s = false →
       any_char PyStr.isspace (pretty_N_go x s) = false)
    ∧ ∀ acc seen,
        PyStr.int_digits (pretty_N_go x s) acc seen
        = PyStr.int_digits s (acc * 10 ^ k + Z.of_N x) true.
Proof.
  induction (N.lt_wf_0 x) as [x _ IH]. intros Hx s.
  rewrite pretty_N_go_step by done.
  assert (Hd : (x `mod` 10 < 10)%N) by (apply N.mod_lt; lia).
  destruct (decide (x `div` 10 = 0)%N) as [Hz|Hnz].
  - rewrite Hz, pretty_N_go_0.
    exists (x `mod` 10)%N, s, 1. split; [done|]. split; [lia|].
    split; [done|]. split.
    + intros Hs. cbn [any_char]. by rewrite isspace_pretty_char, Hs.
    + intros acc seen. cbn [PyStr.int_digits].
      rewrite digit_of_pretty_char by done. f_equal.
      assert (x = x `mod` 10)%N.
      { rewrite (N.div_mod x 10) at 1 by lia. rewrite Hz. lia. }
      lia.
  - destruct (IH (x `div` 10)%N) with (s := String (pretty_N_char (x `mod` 10)) s)
      as (m & rest & k & Hm & Hk & Hhead & Hspace & Hread).
    { apply N.div_lt; lia. }
    { by apply N.neq_0_lt_0. }
    exists m, rest, (k + 1). split; [done|]. split; [lia|].
    split; [done|]. split.
    + intros Hs. apply Hspace. cbn [any_char].
      by rewrite isspace_pretty_char, Hs.
    + intros acc seen. rewrite Hread. cbn [PyStr.int_digits].
      rewrite digit_of_pretty_char by done. f_equal.
      rewrite Z.pow_add_r by lia.
      pose proof (N.div_mod x 10) as Hdm.
      assert (Z.of_N x = 10 * Z.of_N (x `div` 10) + Z.of_N (x `mod` 10)) by lia.
      lia.
Qed.

Lemma int_isspace_isspace (c : ascii) :
  PyStr.isspace c = false → PyStr.int_isspace c = false.
Proof.
  intros Hc. apply not_true_is_false. intros Hint.
  apply not_true_iff_false in Hc. apply Hc. revert Hint.
  unfold PyStr.int_isspace, PyStr.isspace, PyStr.in_range.
  rewrite !orb_true_iff, !andb_true_iff, !Z.leb_le, !Z.eqb_eq. lia.
Qed.

Lemma any_char_int_isspace (s : string) :
  any_char PyStr.isspace s = false → any_char PyStr.int_isspace s = false.
Proof.
  induction s as [|c s IH]; [done|]. cbn [any_char].
  intros [Hc Hs]%orb_false_elim. by rewrite (int_isspace_isspace c Hc), IH.
Qed.

Lemma int_strip_clean (s : string) :
  any_char PyStr.int_isspace s = false → PyStr.int_strip s = s.
Proof.
  intros Hs. unfold PyStr.int_strip.
  replace (PyStr.int_lstrip s) with s; [by apply int_rstrip_clean|].
  destruct s as [|c s]; [done|]. cbn [any_char] in Hs.
  apply orb_false_elim in Hs as [Hc _]. cbn [PyStr.int_lstrip]. by rewrite Hc.
Qed.

(** [int()] on a text without white space and within the digit limit. *)
Lemma int_of_str_clean (s : string) :
  any_char PyStr.int_isspace s = false →
  (PyStr.digit_count s <=? PyStr.MAX_STR_DIGITS)%nat = true →
  PyStr.int_of_str s
  = match s with
    | String "+"%char rest => PyStr.int_digits rest 0 false
    | String "-"%char rest => Z.opp <$> PyStr.int_digits rest 0 false
    | t => PyStr.int_digits t 0 false
    end.
Proof.
  intros Hclean Hfits. unfold PyStr.int_of_str.
  rewrite int_strip_clean by done.
  apply Nat.leb_le, Nat.ltb_ge in Hfits. by rewrite Hfits.
Qed.

Lemma pretty_char_unsigned (m : N) :
  (m < 10)%N → pretty_N_char m ≠ "+"%char ∧ pretty_N_char m ≠ "-"%char.
Proof.
  intros Hm.
  assert (m = 0 ∨ m = 1 ∨ m = 2 ∨ m = 3 ∨ m = 4 ∨ m = 5 ∨ m = 6 ∨ m = 7
          ∨ m = 8 ∨ m = 9)%N as Hcases by lia.
  repeat (destruct Hcases as [->|Hcases]; [by split|]).
  by subst m.
Qed.

Lemma int_digits_pretty_positive (p : positive) :
  any_char PyStr.isspace (pretty p) = false
  ∧ (∃ m rest, (m < 10)%N ∧ pretty p = String (pretty_N_char m) rest)
  ∧ PyStr.int_digits (pretty p) 0 false = Some (Z.pos p).
Proof.
  change (pretty p) with (pretty_N_go (N.pos p) "").
  destruct (pretty_digits (N.pos p)) with (s := "")
    as (m & rest & k & Hm & Hk & Hhead & Hspace & Hread); [lia|].
  split; [by apply Hspace|]. split; [by eauto|].
  rewrite Hread. cbn [PyStr.int_digits]. f_equal; lia.
Qed.

(** [int(str(n)) == n], for an [n] within the digit limit of [str()]. *)
Lemma int_of_str_of_int (n : Z) :
  PyStr.str_fits n = true → PyStr.int_of_str (PyStr.str_of_int n) = Some n.
Proof.
  unfold PyStr.str_fits. intros Hfits.
  destruct n as [|p|p]; [by vm_compute| |].
  - destruct (int_digits_pretty_positive p)
      as (Hspace%any_char_int_isspace & (m & rest & Hm & Hhead) & Hread).
    change (PyStr.str_of_int (Z.pos p)) with (pretty p) in *.
    rewrite int_of_str_clean by done.
    destruct (pretty_char_unsigned m Hm) as [Hplus Hminus].
    destruct (int_sign_cases (pretty p)) as [[? Hp]|[[? Hp]|[_ ->]]]; [| |done].
    + rewrite Hhead in Hp. by injection Hp.
    + rewrite Hhead in Hp. by injection Hp.
  - destruct (int_digits_pretty_positive p)
      as (Hspace%any_char_int_isspace & _ & Hread).
    change (PyStr.str_of_int (Z.neg p)) with (String "-"%char (pretty p)) in *.
    rewrite int_of_str_clean; [|by cbn [any_char]; rewrite Hspace|done].
    cbv beta iota. by rewrite Hread.
Qed.

(** [str] gives different texts for different integers. *)
Lemma str_of_int_inj (m n : Z) :
  PyStr.str_of_int m = PyStr.str_of_int n → m = n.
Proof. apply pretty_Z_inj. Qed.

End IntText.

(** ** The digit limit of [str()] *)

Section DigitLimit.

Lemma digit_count_pretty_step (x : N) (s : string) :
  (0 < x)%N →
  PyStr.digit_count (pretty_N_go x s)
  = PyStr.digit_count
      (pretty_N_go (x `div` 10)%N (String (pretty_N_char (x `mod` 10)%N) s)).
Proof. intros Hx. by rewrite pretty_N_go_step. Qed.

Lemma digit_count_pretty_char (m : N) (s : string) :
  (m < 10)%N →
  PyStr.digit_count (String (pretty_N_char m) s) = S (PyStr.digit_count s).
Proof.
  intros Hm. cbn [PyStr.digit_count]. by rewrite digit_of_pretty_char.
Qed.

(** Printing a number in front of a text adds digits to it. *)
Lemma digit_count_pretty_grows (x : N) :
  ∀ s, (PyStr.digit_count s ≤ PyStr.digit_count (pretty_N_go x s))%nat.
Proof.
  induction (N.lt_wf_0 x) as [x _ IH]. intros s.
  destruct (decide (x = 0)%N) as [->|Hx]; [by rewrite pretty_N_go_0|].
  rewrite digit_count_pretty_step by lia.
  etrans; [|apply IH; apply N.div_lt; lia].
  rewrite digit_count_pretty_char by (apply N.mod_lt; lia). lia.
Qed.

(** A positive number is below [10 ** k] exactly when it prints with at
    most [k] digits. *)
Lemma digit_count_pretty_bound (k : nat) :
  ∀ (x : N) (s : string),
    (0 < x)%N →
    (x < 10 ^ N.of_nat k)%N
    ↔ (PyStr.digit_count (pretty_N_go x s) ≤ k + PyStr.digit_count s)%nat.
Proof.
  induction k as [|k IH]; intros x s Hx.
  - rewrite digit_count_pretty_step by done.
    pose proof (digit_count_pretty_grows (x `div` 10)%N
                  (String (pretty_N_char (x `mod` 10)%N) s)) as Hgrow.
    rewrite digit_count_pretty_char in Hgrow by (apply N.mod_lt; lia).
    change (10 ^ N.of_nat 0)%N with 1%N. lia.
  - rewrite digit_count_pretty_step by done.
    assert (Hpow : (10 ^ N.of_nat (S k) = 10 * 10 ^ N.of_nat k)%N).
    { rewrite Nat2N.inj_succ. apply N.pow_succ_r'. }
    destruct (decide (x `div` 10 = 0)%N) as [Hz|Hnz].
    + rewrite Hz, pretty_N_go_0.
      rewrite digit_count_pretty_char by (apply N.mod_lt; lia).
      assert (x < 10)%N by (apply N.div_small_iff in Hz; lia).
      assert (0 < 10 ^ N.of_nat k)%N by (apply N.neq_0_lt_0, N.pow_nonzero; lia).
      split; [lia|]. intros _. lia.
    + assert (Hiff : (x `div` 10 < 10 ^ N.of_nat k ↔ x < 10 ^ N.of_nat (S k))%N).
      { rewrite Hpow.
        pose proof (N.div_mod x 10 ltac:(lia)) as Hdm.
        pose proof (N.mod_lt x 10 ltac:(lia)) as Hm.
        revert Hdm Hm.
        generalize (x `div` 10)%N (x `mod` 10)%N (10 ^ N.of_nat k)%N. lia. }
      rewrite <- Hiff.
      rewrite (IH (x `div` 10)%N (String (pretty_N_char (x `mod` 10)%N) s))
        by (by apply N.neq_0_lt_0).
      rewrite digit_count_pretty_char by (apply N.mod_lt; lia). lia.
Qed.

(** [str(n)] is defined exactly for the integers between [-10 ** 4300] and
    [10 ** 4300]. *)
Lemma str_fits_limit (n : Z) :
  PyStr.str_fits n = true ↔ Z.abs n < INT_STR_LIMIT.
Proof.
  assert (Hpos : ∀ p : positive,
            (PyStr.digit_count (pretty p) <=? PyStr.MAX_STR_DIGITS)%nat = true
            ↔ Z.pos p < INT_STR_LIMIT).
  { intros p. change (pretty p) with (pretty_N_go (N.pos p) "").
    rewrite Nat.leb_le.
    rewrite <- (Nat.add_0_r PyStr.MAX_STR_DIGITS).
    change 0%nat with (PyStr.digit_count "") at 1.
    rewrite <- digit_count_pretty_bound by lia.
    unfold INT_STR_LIMIT, PyStr.MAX_STR_DIGITS.
    rewrite N2Z.inj_lt, N2Z.inj_pow.
    change (Z.of_N (N.pos p)) with (Z.pos p).
    change (Z.of_N 10) with 10.
    by replace (Z.of_N (N.of_nat 4300)) with 4300 by lia. }
  unfold PyStr.str_fits. destruct n as [|p|p].
  - split; [|done]. intros _. unfold INT_STR_LIMIT.
    apply Z.pow_pos_nonneg; lia.
  - apply Hpos.
  - change (PyStr.str_of_int (Z.neg p)) with (String "-"%char (pretty p)).
    change (PyStr.digit_count (String "-" (pretty p)))
      with (PyStr.digit_count (pretty p)).
    apply Hpos.
Qed.

Lemma str_fits_below (n : Z) :
  0 ≤ n → n < INT_STR_LIMIT → PyStr.str_fits n = true.
Proof. intros Hn Hlimit. apply str_fits_limit. lia. Qed.

Lemma str_fits_above (n : Z) :
  INT_STR_LIMIT ≤ n → PyStr.str_fits n = false.
Proof.
  intros Hlimit. apply not_true_is_false. rewrite str_fits_limit. lia.
Qed.

(** Numbers of up to nine digits are far below the limit. *)
Lemma below_limit (n : Z) : n < 10 ^ 9 → n < INT_STR_LIMIT.
Proof.
  intros Hn. unfold INT_STR_LIMIT.
  eapply Z.lt_le_trans; [exact Hn|]. apply Z.pow_le_mono_r; lia.
Qed.


(** *** The largest literal *)

Lemma repeat_char_length (c : ascii) (k : nat) :
  String.length (repeat_char c k) = k.
Proof. induction k as [|k IH]; [done|]. cbn. by rewrite IH. Qed.

Lemma digit_groups_nines (k : nat) :
  digit_groups (repeat_char "9" (S k)) (repeat_char "9" (S k)).
Proof.
  assert (Hnine : is_digit "9") by (unfold is_digit; by vm_compute).
  induction k as [|k IH]; [by apply groups_digit|].
  by apply groups_more.
Qed.

Lemma decimal_from_nines (k : nat) (v : Z) :
  decimal_from v (repeat_char "9" k) = (v + 1) * 10 ^ Z.of_nat k - 1.
Proof.
  revert v. induction k as [|k IH]; intros v.
  - unfold decimal_from. cbn. lia.
  - change (decimal_from v (repeat_char "9" (S k)))
      with (decimal_from (10 * v + 9) (repeat_char "9" k)).
    rewrite IH, Nat2Z.inj_succ, Z.pow_succ_r by lia.
    generalize (10 ^ Z.of_nat k). intros. lia.
Qed.

(** 4300 nines are the largest integer literal; [str()] of the number after
    it raises. *)
Lemma largest_literal :
  int_literal (repeat_char "9" 4300) (INT_STR_LIMIT - 1).
Proof.
  assert (Hlen : (String.length (repeat_char "9" 4300) ≤ 4300)%nat)
    by (by rewrite repeat_char_length).
  pose proof (int_literal_intro "" "" (repeat_char "9" 4300) ""
                (repeat_char "9" 4300) 1 (List.Forall_nil _) no_sign
                (digit_groups_nines 4299) (List.Forall_nil _) Hlen) as Hlit.
  change ("" +:+ "" +:+ repeat_char "9" 4300 +:+ "")
    with (repeat_char "9" 4300 +:+ "") in Hlit.
  rewrite append_nil_r in Hlit.
  replace (INT_STR_LIMIT - 1) with (1 * decimal (repeat_char "9" 4300));
    [exact Hlit|].
  unfold decimal. rewrite decimal_from_nines.
  change (Z.of_nat 4300) with 4300. unfold INT_STR_LIMIT.
  generalize (10 ^ 4300). intros. lia.
Qed.

(** [int()] reads 4300 nines, and [str()] of the next number raises. *)
Lemma int_of_str_largest :
  PyStr.int_of_str (repeat_char "9" 4300) = Some (INT_STR_LIMIT - 1)
  ∧ PyStr.str_fits (INT_STR_LIMIT - 1) = true
  ∧ PyStr.str_fits INT_STR_LIMIT = false.
Proof.
  pose proof (below_limit 0 ltac:(lia)).
  split; [apply int_of_str_literal, largest_literal|].
  split; [apply str_fits_below; lia|by apply str_fits_above].
Qed.

End DigitLimit.

(** ** Listing the cards of a user *)

Section Listing.

Implicit Types (c : flashcard) (cards : list flashcard) (fs : filesystem).

Lemma user_cards_table e cards :
  user_cards e (row_of <$> cards) = Ok (view_of <$> filter (owned_by e) cards).
Proof.
  induction cards as [|c cards IH]; [done|].
  rewrite fmap_cons. cbn [user_cards]. unfold getitem.
  rewrite row_of_user_email. cbn [mbind result_bind lower_of].
  rewrite eqb_same_email, IH.
  destruct (decide (owned_by e c)) as [Ho|Ho].
  - rewrite bool_decide_eq_true_2 by done.
    rewrite filter_cons_True by done. by rewrite card_view_row.
  - rewrite bool_decide_eq_false_2 by done.
    by rewrite filter_cons_False by done.
Qed.

Lemma get_user_flashcards_table fs cards e :
  fs !! FLASHCARDS_CSV = Some (table cards) →
  get_user_flashcards e fs = Ok (view_of <$> filter (owned_by e) cards).
Proof.
  intros Hfs. unfold get_user_flashcards, open_read.
  rewrite (exists_path_true _ _ _ Hfs), Hfs. cbn [negb mbind result_bind].
  by rewrite DictReader_table, user_cards_table.
Qed.

Lemma view_of_collection c : view_of c !! "collection" = Some (Some (fc_collection c)).
Proof. reflexivity. Qed.

(** The set that the loop of [get_user_collections] builds. *)
Lemma add_collections_views cards (X : gset string) :
  add_collections (view_of <$> cards) X
  = Ok (list_to_set (filter (fun s => s ≠ "") (fc_collection <$> cards)) ∪ X).
Proof.
  revert X. induction cards as [|c cards IH]; intros X.
  - cbn [fmap list_fmap add_collections]. rewrite filter_nil. cbn [list_to_set].
    by rewrite (left_id_L ∅ (∪)).
  - rewrite !fmap_cons. cbn [add_collections]. unfold getitem.
    rewrite view_of_collection. cbn [mbind result_bind].
    destruct (fc_collection c) as [|a s] eqn:Hc; cbn [PyStr.truthy].
    + rewrite IH. by rewrite filter_cons_False by naive_solver.
    + rewrite IH. rewrite filter_cons_True by done.
      cbn [list_to_set]. f_equal. rewrite (assoc_L (∪)). f_equal.
      apply (comm_L (∪)).
Qed.

#[local] Instance str_le_total : Total str_le.
Proof. intros a b. apply String.leb_total. Qed.

Lemma sorted_spec (l : list string) :
  Sorted str_le (sorted l) ∧ sorted l ≡ₚ l.
Proof.
  split; [apply Sorted_merge_sort; apply _|apply merge_sort_Permutation].
Qed.

End Listing.

(** [get_user_flashcards]: on a missing file the list is empty; on a table
    it holds the cards whose owner is the user up to case, and no other, in
    file order, each without its owner field. *)
Theorem get_user_flashcards_lists_own_cards (fs : filesystem) (e : string) :
  (fs !! FLASHCARDS_CSV = None → get_user_flashcards e fs = Ok [])
  ∧ (∀ cards, fs !! FLASHCARDS_CSV = Some (table cards) →
       get_user_flashcards e fs = Ok (view_of <$> filter (owned_by e) cards)).
Proof.
  split.
  - intros Hfs. unfold get_user_flashcards.
    by rewrite (exists_path_false _ _ Hfs).
  - intros cards Hfs. by apply get_user_flashcards_table.
Qed.

Lemma get_user_flashcards_lists_own_cards_witness :
  get_user_flashcards "a@x.com" ∅ = Ok []
  ∧ get_user_flashcards "A@X.COM" two_card_store = Ok [view_of ann_card].
Proof.
  split.
  - apply (proj1 (get_user_flashcards_lists_own_cards ∅ "a@x.com")). reflexivity.
  - rewrite (proj2 (get_user_flashcards_lists_own_cards two_card_store "A@X.COM")
               [ann_card; bob_card]); reflexivity.
Defined.

(** The names that [get_user_collections] returns on a table. *)
Lemma get_user_collections_table (fs : filesystem)
    (cards : list flashcard) (e : string) :
  fs !! FLASHCARDS_CSV = Some (table cards) →
  ∃ names,
    get_user_collections e fs = Ok names
    ∧ Sorted str_le names
    ∧ NoDup names
    ∧ ∀ x, x ∈ names ↔
           x ≠ "" ∧ ∃ c, c ∈ cards ∧ owned_by e c ∧ fc_collection c = x.
Proof.
  intros Hfs. unfold get_user_collections.
  rewrite (get_user_flashcards_table _ _ _ Hfs). cbn [mbind result_bind].
  rewrite add_collections_views. cbn [mbind result_bind].
  eexists. split; [reflexivity|].
  destruct (sorted_spec
              (elements (list_to_set (filter (fun s => s ≠ "")
                 (fc_collection <$> filter (owned_by e) cards)) ∪ (∅ : gset string))))
    as [Hsorted Hperm].
  split; [done|]. split.
  - rewrite Hperm. apply NoDup_elements.
  - intros x. rewrite Hperm, elem_of_elements, elem_of_union, elem_of_list_to_set.
    rewrite list_elem_of_filter, list_elem_of_fmap.
    setoid_rewrite list_elem_of_filter.
    split.
    + intros [(Hx & c & -> & Ho & Hc)|Hempty]; [|by apply elem_of_empty in Hempty].
      split; [done|]. by exists c.
    + intros (Hx & c & Hc & Ho & <-). left. split; [done|]. by exists c.
Qed.

(** [get_user_collections] on a table: the names are in ascending order
    without repetition, and a name is listed if and only if it is not empty
    and is the collection of a card of the user. *)
Theorem get_user_collections_sorted_distinct (fs : filesystem)
    (cards : list flashcard) (e : string) :
  fs !! FLASHCARDS_CSV = Some (table cards) →
  ∃ names,
    get_user_collections e fs = Ok names
    ∧ Sorted str_le names
    ∧ NoDup names
    ∧ ∀ x, x ∈ names ↔
           x ≠ "" ∧ ∃ c, c ∈ cards ∧ owned_by e c ∧ fc_collection c = x.
Proof. apply get_user_collections_table. Qed.

Lemma get_user_collections_sorted_distinct_witness :
  get_user_collections "a@x.com" shelf_store = Ok ["Algebra"; "Math"; "algebra"]
  ∧ ∃ names,
      get_user_collections "a@x.com" shelf_store = Ok names
      ∧ Sorted str_le names ∧ NoDup names.
Proof.
  split; [vm_compute; reflexivity|].
  destruct (get_user_collections_sorted_distinct shelf_store shelf "a@x.com")
    as (names & Hrun & Hsorted & Hnodup & _); [reflexivity|].
  exists names. split; [exact Hrun|]. split; [exact Hsorted|exact Hnodup].
Defined.

(** ** Creating a card *)

Section Creating.

Implicit Types (c : flashcard) (cards : list flashcard) (fs : filesystem).

Lemma fold_max_bounds (l : list Z) (m : Z) :
  m ≤ fold_left Z.max l m ∧ ∀ x, x ∈ l → x ≤ fold_left Z.max l m.
Proof.
  revert m. induction l as [|y l IH]; intros m; cbn [fold_left].
  - split; [lia|]. intros x Hx. by apply elem_of_nil in Hx.
  - destruct (IH (Z.max m y)) as [Hm Hl]. split; [lia|].
    intros x [->|Hx]%elem_of_cons; [lia|by apply Hl].
Qed.

Lemma parsed_ids_table cards :
  parsed_ids (record_of <$> cards) = omap (fun c => PyStr.int_of_str (fc_id c)) cards.
Proof.
  unfold parsed_ids. induction cards as [|c cards IH]; [done|].
  rewrite fmap_cons. cbn [omap list_omap record_id record_of].
  fold (omap record_id (record_of <$> cards)).
  fold (omap (fun c => PyStr.int_of_str (fc_id c)) cards).
  by rewrite IH.
Qed.

(** The next id is positive, and above every id of the table that is an
    integer literal. *)
Lemma next_id_above cards fs n :
  fs !! FLASHCARDS_CSV = Some (table cards) →
  get_next_flashcard_id fs = Ok n →
  0 < n ∧ ∀ c k, c ∈ cards → int_literal (fc_id c) k → k < n.
Proof.
  intros Hfs Hn. rewrite (get_next_flashcard_id_scan _ _ Hfs) in Hn.
  injection Hn as <-. rewrite parsed_ids_table.
  destruct (fold_max_bounds
              (omap (fun c => PyStr.int_of_str (fc_id c)) cards) 0) as [H0 Hall].
  split; [lia|]. intros c k Hc Hk%int_of_str_literal.
  assert (k ≤ fold_left Z.max (omap (fun c => PyStr.int_of_str (fc_id c)) cards) 0);
    [|lia].
  apply Hall. apply list_elem_of_omap. by exists c.
Qed.

(** No card of the table carries the text of the next id, when [str()]
    gives one. *)
Lemma next_id_unused cards fs n :
  fs !! FLASHCARDS_CSV = Some (table cards) →
  get_next_flashcard_id fs = Ok n →
  PyStr.str_fits n = true →
  Forall (fun c => fc_id c ≠ PyStr.str_of_int n) cards.
Proof.
  intros Hfs Hn Hfits. destruct (next_id_above _ _ _ Hfs Hn) as [_ Habove].
  apply Forall_forall. intros c Hc Hid.
  specialize (Habove c n Hc). rewrite Hid in Habove.
  specialize (Habove (proj1 (int_of_str_literal _ _) (int_of_str_of_int n Hfits))).
  lia.
Qed.

End Creating.

(** C4: on a missing flashcard file and on a table without records the
    next id is 1; on a file with the current header, where [ids] are the
    values of the id fields that are integer literals (none of them
    negative), [get_next_flashcard_id] returns the maximum of [ids] plus
    one (0 plus one when there is none), the records whose id is no integer
    literal being skipped; and [save_flashcard] appends the new card under
    that id, unless the id has more than 4300 digits: then [str()] raises
    and nothing is written. *)
Theorem next_id_is_max_plus_one (fs : filesystem) :
  (fs !! FLASHCARDS_CSV = None → get_next_flashcard_id fs = Ok 1)
  ∧ (fs !! FLASHCARDS_CSV = Some [FLASHCARDS_HEADER] →
     get_next_flashcard_id fs = Ok 1)
  ∧ (∀ records ids,
       fs !! FLASHCARDS_CSV = Some (FLASHCARDS_HEADER :: records) →
       literal_ids records ids →
       Forall (fun i => 0 ≤ i) ids →
       let next := max_or_zero ids + 1 in
       get_next_flashcard_id fs = Ok next
       ∧ ∀ created_at e name question answer col iq ia,
           (next < INT_STR_LIMIT →
            save_flashcard created_at e name question answer col iq ia fs
            = (Ok next,
               <[FLASHCARDS_CSV :=
                   FLASHCARDS_HEADER
                   :: records ++
                      [[PyStr.str_of_int next; e; name; question; answer;
                        arg_value "" iq; arg_value "" ia; arg_value "" col;
                        created_at]]]> fs))
           ∧ (INT_STR_LIMIT ≤ next →
              save_flashcard created_at e name question answer col iq ia fs
              = (Raise ValueError, fs))).
Proof.
  split; [|split].
  - intros Hfs. unfold get_next_flashcard_id.
    by rewrite (exists_path_false _ _ Hfs).
  - intros Hfs. by rewrite (get_next_flashcard_id_scan _ [] Hfs).
  - intros records ids Hfs Hlit Hids next.
    assert (Hnext : get_next_flashcard_id fs = Ok next).
    { rewrite (get_next_flashcard_id_scan _ _ Hfs).
      rewrite (literal_ids_parsed _ _ Hlit). by rewrite max_or_zero_fold. }
    assert (Hpos : 0 < next).
    { subst next. rewrite <- max_or_zero_fold by done.
      destruct (fold_max_bounds ids 0) as [H0 _]. lia. }
    split; [done|]. intros.
    rewrite (save_flashcard_next _ _ _ _ _ _ _ _ _ _ _ Hfs Hnext).
    split; intros Hlimit.
    + rewrite str_fits_below by lia. done.
    + by rewrite str_fits_above.
Qed.

Lemma next_id_is_max_plus_one_witness :
  get_next_flashcard_id ∅ = Ok 1
  ∧ get_next_flashcard_id {[ FLASHCARDS_CSV := [FLASHCARDS_HEADER] ]} = Ok 1
  ∧ get_next_flashcard_id three_card_store = Ok 6
  ∧ save_flashcard "2024-02-02 08:00:00" "c@x.com" "" "q" "a"
      omitted omitted omitted three_card_store
    = (Ok 6,
       {[ FLASHCARDS_CSV :=
            table [carol_card "1"; carol_card "2"; carol_card "5";
                   {| fc_id := "6"; fc_user_email := "c@x.com"; fc_name := "";
                      fc_question := "q"; fc_answer := "a";
                      fc_image_question := ""; fc_image_answer := "";
                      fc_collection := "";
                      fc_created_at := "2024-02-02 08:00:00" |}] ]})
  ∧ get_next_flashcard_id odd_ids_store = Ok 13
  ∧ save_flashcard "2024-02-02 08:00:00" "c@x.com" "" "q" "a"
      omitted omitted omitted last_id_store
    = (Raise ValueError, last_id_store).
Proof.
  assert (Hliteral : ∀ s k, PyStr.int_of_str s = Some k → int_literal s k)
    by (intros s k; apply int_of_str_literal).
  assert (Hthree : literal_ids
                     (record_of <$> [carol_card "1"; carol_card "2"; carol_card "5"])
                     [1; 2; 5]).
  { repeat (apply literal_ids_literal; [apply Hliteral; reflexivity|]).
    apply literal_ids_nil. }
  assert (Hodd : literal_ids (record_of <$> odd_ids) [4; 12]).
  { apply literal_ids_literal; [apply Hliteral; reflexivity|].
    apply literal_ids_other; [apply not_int_literal; reflexivity|].
    apply literal_ids_literal; [apply Hliteral; reflexivity|].
    apply literal_ids_other; [apply not_int_literal; reflexivity|].
    apply literal_ids_other; [apply not_int_literal; reflexivity|].
    apply literal_ids_nil. }
  assert (Hlast : literal_ids (record_of <$> [carol_card (repeat_char "9" 4300)])
                    [INT_STR_LIMIT - 1]).
  { apply literal_ids_literal; [exact largest_literal|apply literal_ids_nil]. }
  assert (Hbig : 0 ≤ INT_STR_LIMIT - 1).
  { pose proof (below_limit 0). lia. }
  split; [|split; [|split; [|split; [|split]]]].
  - apply (proj1 (next_id_is_max_plus_one ∅)). reflexivity.
  - apply (proj1 (proj2 (next_id_is_max_plus_one
                           {[ FLASHCARDS_CSV := [FLASHCARDS_HEADER] ]}))).
    reflexivity.
  - apply (proj2 (proj2 (next_id_is_max_plus_one three_card_store))
             (record_of <$> [carol_card "1"; carol_card "2"; carol_card "5"]) [1; 2; 5]);
      [reflexivity|exact Hthree|].
    repeat (constructor; [lia|]). constructor.
  - destruct (proj2 (proj2 (next_id_is_max_plus_one three_card_store))
                (record_of <$> [carol_card "1"; carol_card "2"; carol_card "5"]) [1; 2; 5])
      as [_ Hsave]; [reflexivity|exact Hthree| |].
    { repeat (constructor; [lia|]). constructor. }
    destruct (Hsave "2024-02-02 08:00:00" "c@x.com" "" "q" "a"
                omitted omitted omitted) as [Hfits _].
    rewrite Hfits by (apply below_limit; cbn; lia). vm_compute. reflexivity.
  - apply (proj2 (proj2 (next_id_is_max_plus_one odd_ids_store))
             (record_of <$> odd_ids) [4; 12]);
      [reflexivity|exact Hodd|].
    repeat (constructor; [lia|]). constructor.
  - destruct (proj2 (proj2 (next_id_is_max_plus_one last_id_store))
                (record_of <$> [carol_card (repeat_char "9" 4300)])
                [INT_STR_LIMIT - 1]) as [_ Hsave];
      [reflexivity|exact Hlast|by constructor|].
    apply Hsave. cbn [max_or_zero fold_left]. lia.
Defined.

(** The id that [save_flashcard] gives on a table is positive and above
    every id of the table that is an integer literal.  When it has at most
    4300 digits, [save_flashcard] appends one card under it and changes no
    other, and if the ids of the table were distinct they still are; when
    it has more, [str()] raises in [writerow]: [save_flashcard] raises
    [ValueError] and the files stay as they were. *)
Theorem save_flashcard_keeps_ids_distinct (fs : filesystem)
    (cards : list flashcard) (created_at e name question answer : string)
    (col iq ia : arg string) :
  fs !! FLASHCARDS_CSV = Some (table cards) →
  ∃ n,
    let card := created_card n created_at e name question answer
                  (arg_value "" col) (arg_value "" iq) (arg_value "" ia) in
    get_next_flashcard_id fs = Ok n
    ∧ 0 < n
    ∧ (∀ c k, c ∈ cards → int_literal (fc_id c) k → k < n)
    ∧ (n < INT_STR_LIMIT →
       save_flashcard created_at e name question answer col iq ia fs
       = (Ok n, <[FLASHCARDS_CSV := table (cards ++ [card])]> fs)
       ∧ (NoDup (fc_id <$> cards) → NoDup (fc_id <$> (cards ++ [card]))))
    ∧ (INT_STR_LIMIT ≤ n →
       save_flashcard created_at e name question answer col iq ia fs
       = (Raise ValueError, fs)).
Proof.
  intros Hfs.
  destruct (save_flashcard_table fs cards created_at e name question answer
              col iq ia Hfs) as (n & Hnext & Hsave).
  exists n. cbn zeta. split; [exact Hnext|].
  destruct (next_id_above _ _ _ Hfs Hnext) as [Hpos Habove].
  split; [done|]. split; [done|]. split.
  - intros Hlimit.
    assert (Hfits : PyStr.str_fits n = true) by (apply str_fits_below; lia).
    rewrite Hfits in Hsave. split; [exact Hsave|].
    intros Hnd. rewrite fmap_app. apply NoDup_app. split; [done|].
    split; [|apply NoDup_singleton].
    intros id Hid [->|Hnil]%elem_of_cons; [|by apply elem_of_nil in Hnil].
    apply list_elem_of_fmap in Hid as (c & Hc & Hin).
    pose proof (next_id_unused _ _ _ Hfs Hnext Hfits) as Hunused.
    rewrite Forall_forall in Hunused. by apply (Hunused c Hin).
  - intros Hlimit. by rewrite (str_fits_above n Hlimit) in Hsave.
Qed.

Lemma save_flashcard_keeps_ids_distinct_witness :
  (save_flashcard "2024-02-02 08:00:00" "c@x.com" "" "q" "a"
     omitted omitted omitted three_card_store
   = (Ok 6,
      <[FLASHCARDS_CSV :=
          table ([carol_card "1"; carol_card "2"; carol_card "5"]
                 ++ [created_card 6 "2024-02-02 08:00:00" "c@x.com" "" "q" "a"
                       "" "" ""])]> three_card_store)
   ∧ NoDup (fc_id <$> ([carol_card "1"; carol_card "2"; carol_card "5"]
                       ++ [created_card 6 "2024-02-02 08:00:00" "c@x.com" "" "q"
                             "a" "" "" ""])))
  ∧ save_flashcard "2024-02-02 08:00:00" "c@x.com" "" "q" "a"
      omitted omitted omitted last_id_store
    = (Raise ValueError, last_id_store).
Proof.
  split.
  - destruct (save_flashcard_keeps_ids_distinct three_card_store
                [carol_card "1"; carol_card "2"; carol_card "5"]
                "2024-02-02 08:00:00" "c@x.com" "" "q" "a" omitted omitted omitted)
      as (n & Hnext & _ & _ & Hsave & _); [reflexivity|].
    assert (Hn : n = 6).
    { assert (Hrun : get_next_flashcard_id three_card_store = Ok 6)
        by (vm_compute; reflexivity).
      rewrite Hnext in Hrun. congruence. }
    subst n. destruct Hsave as [Hsave Hnd]; [apply below_limit; cbn; lia|].
    split; [exact Hsave|]. apply Hnd. compute_done.
  - destruct (save_flashcard_keeps_ids_distinct last_id_store
                [carol_card (repeat_char "9" 4300)]
                "2024-02-02 08:00:00" "c@x.com" "" "q" "a" omitted omitted omitted)
      as (n & _ & _ & Habove & _ & Hraise); [reflexivity|].
    apply Hraise.
    pose proof (Habove (carol_card (repeat_char "9" 4300)) (INT_STR_LIMIT - 1)
                  (list_elem_of_here _ _) largest_literal).
    lia.
Defined.

(** A card that was just created is found under the returned id by its
    owner, in any spelling of the email up to case, and by nobody else; and
    the listing of each user grows by that card or not at all.  The card
    is created when the next id has at most 4300 digits. *)
Theorem save_flashcard_then_lookup (fs : filesystem) (cards : list flashcard)
    (created_at e name question answer : string) (col iq ia : arg string) :
  fs !! FLASHCARDS_CSV = Some (table cards) →
  ∃ n,
    get_next_flashcard_id fs = Ok n
    ∧ (n < INT_STR_LIMIT →
       ∃ fs',
         let card := created_card n created_at e name question answer
                       (arg_value "" col) (arg_value "" iq) (arg_value "" ia) in
         save_flashcard created_at e name question answer col iq ia fs
         = (Ok n, fs')
         ∧ ∀ e',
             (same_email e e' →
              get_flashcard_by_id n e' fs' = Ok (Some (view_of card))
              ∧ get_user_flashcards e' fs'
                = Ok (view_of <$> (filter (owned_by e') cards ++ [card])))
             ∧ (¬ same_email e e' →
                get_flashcard_by_id n e' fs' = Ok None
                ∧ get_user_flashcards e' fs' = get_user_flashcards e' fs)).
Proof.
  intros Hfs.
  destruct (save_flashcard_table fs cards created_at e name question answer
              col iq ia Hfs) as (n & Hnext & Hsave).
  exists n. split; [exact Hnext|]. intros Hlimit.
  destruct (next_id_above _ _ _ Hfs Hnext) as [Hpos _].
  assert (Hfits : PyStr.str_fits n = true) by (apply str_fits_below; lia).
  rewrite Hfits in Hsave.
  eexists. cbn zeta. split; [exact Hsave|].
  set (card := created_card n created_at e name question answer
                 (arg_value "" col) (arg_value "" iq) (arg_value "" ia)).
  assert (Hfs' : (<[FLASHCARDS_CSV := table (cards ++ [card])]> fs)
                   !! FLASHCARDS_CSV = Some (table (cards ++ [card])))
    by apply lookup_insert_eq.
  pose proof (next_id_unused _ _ _ Hfs Hnext Hfits) as Hunused.
  assert (Hbefore : ∀ e', Forall (fun c => ¬ card_of n e' c) cards).
  { intros e'. eapply Forall_impl; [exact Hunused|]. by intros c Hc [? _]. }
  intros e'. split; intros Hsame.
  - split.
    + rewrite (get_flashcard_by_id_table _ _ _ _ Hfs').
      apply find_card_first; [done|]. by split.
    + rewrite (get_user_flashcards_table _ _ _ Hfs'), (filter_app _ cards [card]).
      by rewrite (filter_cons_True _ card []) by done.
  - split.
    + rewrite (get_flashcard_by_id_table _ _ _ _ Hfs').
      apply find_card_none, Forall_app. split; [done|].
      constructor; [|done]. by intros [_ ?].
    + rewrite (get_user_flashcards_table _ _ _ Hfs'),
        (get_user_flashcards_table _ _ _ Hfs), (filter_app _ cards [card]).
      rewrite (filter_cons_False _ card []) by done.
      by rewrite filter_nil, app_nil_r.
Qed.

Lemma save_flashcard_then_lookup_witness :
  ∃ fs',
    save_flashcard "2024-02-02 08:00:00" "c@x.com" "" "q" "a"
      omitted omitted omitted three_card_store = (Ok 6, fs')
    ∧ get_flashcard_by_id 6 "C@X.COM" fs'
      = Ok (Some (view_of (created_card 6 "2024-02-02 08:00:00" "c@x.com" ""
                             "q" "a" "" "" "")))
    ∧ get_flashcard_by_id 6 "d@x.com" fs' = Ok None.
Proof.
  destruct (save_flashcard_then_lookup three_card_store
              [carol_card "1"; carol_card "2"; carol_card "5"]
              "2024-02-02 08:00:00" "c@x.com" "" "q" "a" omitted omitted omitted)
    as (n & Hnext & Hsaved); [reflexivity|].
  assert (Hn : n = 6).
  { assert (Hrun : get_next_flashcard_id three_card_store = Ok 6)
      by (vm_compute; reflexivity).
    rewrite Hnext in Hrun. congruence. }
  subst n.
  destruct Hsaved as (fs' & Hsave & Hlook); [apply below_limit; cbn; lia|].
  exists fs'. split; [exact Hsave|]. split.
  - apply (proj1 (Hlook "C@X.COM")). reflexivity.
  - apply (proj2 (Hlook "d@x.com")). intros H. vm_compute in H. discriminate H.
Defined.

(** The first card: on a missing flashcard file, [save_flashcard] creates
    the file with the current header and the new card under id 1. *)
Theorem save_flashcard_creates_file (fs : filesystem)
    (created_at e name question answer : string) (col iq ia : arg string) :
  fs !! FLASHCARDS_CSV = None →
  save_flashcard created_at e name question answer col iq ia fs
  = (Ok 1,
     <[FLASHCARDS_CSV :=
         table [created_card 1 created_at e name question answer
                  (arg_value "" col) (arg_value "" iq) (arg_value "" ia)]]> fs).
Proof.
  intros Hfs. unfold save_flashcard.
  rewrite (init_flashcards_csv_missing _ Hfs).
  rewrite (get_next_flashcard_id_scan _ [] (lookup_insert_eq _ _ _)).
  change (try_writerow _) with
    (Ok (record_of (created_card 1 created_at e name question answer
                      (arg_value "" col) (arg_value "" iq) (arg_value "" ia)))).
  unfold append_record. rewrite lookup_insert_eq, insert_insert_eq.
  reflexivity.
Qed.

Lemma save_flashcard_creates_file_witness :
  save_flashcard "2024-02-02 08:00:00" "a@x.com" "sum" "2+2?" "4"
    (passed "Math") omitted omitted ∅
  = (Ok 1,
     <[FLASHCARDS_CSV :=
         table [created_card 1 "2024-02-02 08:00:00" "a@x.com" "sum" "2+2?" "4"
                  "Math" "" ""]]> ∅).
Proof.
  apply (save_flashcard_creates_file ∅ "2024-02-02 08:00:00" "a@x.com" "sum"
           "2+2?" "4" (passed "Math") omitted omitted).
  reflexivity.
Defined.

(** ** What updating and deleting change *)

Section Effects.

Implicit Types (c : flashcard) (cards : list flashcard) (fs : filesystem).

Lemma fmap_unchanged {A} (f : A → A) (l : list A) :
  Forall (fun x => f x = x) l → f <$> l = l.
Proof.
  induction 1 as [|x l Hx _ IH]; [done|]. by rewrite fmap_cons, Hx, IH.
Qed.

Lemma filter_fmap_fixed {A} (P : A → Prop) `{!∀ x, Decision (P x)}
    (f : A → A) (l : list A) :
  (∀ x, P (f x) ↔ P x) → (∀ x, P x → f x = x) →
  filter P (f <$> l) = filter P l.
Proof.
  intros Hiff Hfix. induction l as [|x l IH]; [done|].
  rewrite fmap_cons. destruct (decide (P x)) as [HP|HP].
  - rewrite (Hfix x HP), !filter_cons_True by done. by rewrite IH.
  - rewrite !filter_cons_False by (by rewrite ?Hiff). done.
Qed.

Lemma filter_filter_implied {A} (P Q : A → Prop) `{!∀ x, Decision (P x)}
    `{!∀ x, Decision (Q x)} (l : list A) :
  (∀ x, P x → Q x) → filter P (filter Q l) = filter P l.
Proof.
  intros Himp. induction l as [|x l IH]; [done|].
  destruct (decide (Q x)) as [HQ|HQ].
  - rewrite (filter_cons_True Q) by done.
    destruct (decide (P x)).
    + rewrite !filter_cons_True by done. by rewrite IH.
    + rewrite !filter_cons_False by done. done.
  - rewrite (filter_cons_False Q) by done.
    rewrite (filter_cons_False P) by (intros HP; by apply HQ, Himp). done.
Qed.

(** A card of another user is not a card of [e]. *)
Lemma owned_by_other e e' c :
  ¬ same_email e e' → owned_by e' c → ¬ owned_by e c.
Proof. unfold owned_by, same_email. congruence. Qed.

Lemma updated_keeps n e name question answer collection iq ia cards :
  fc_id <$> updated n e name question answer collection iq ia cards
  = fc_id <$> cards
  ∧ fc_user_email <$> updated n e name question answer collection iq ia cards
    = fc_user_email <$> cards
  ∧ fc_created_at <$> updated n e name question answer collection iq ia cards
    = fc_created_at <$> cards.
Proof.
  unfold updated. rewrite <- !list_fmap_compose.
  repeat split; apply list_fmap_ext; intros i c _; cbn;
    by destruct (decide (card_of n e c)).
Qed.

Lemma updated_no_match n e name question answer collection iq ia cards :
  Forall (fun c => ¬ card_of n e c) cards →
  updated n e name question answer collection iq ia cards = cards.
Proof.
  intros Hno. apply fmap_unchanged.
  eapply Forall_impl; [exact Hno|]. intros c Hc.
  by destruct (decide (card_of n e c)).
Qed.

Lemma updated_others n e e' name question answer collection iq ia cards :
  ¬ same_email e e' →
  filter (owned_by e') (updated n e name question answer collection iq ia cards)
  = filter (owned_by e') cards.
Proof.
  intros Hother. apply filter_fmap_fixed.
  - intros c. by destruct (decide (card_of n e c)).
  - intros c Hc. destruct (decide (card_of n e c)) as [[_ Ho]|]; [|done].
    by destruct (owned_by_other e e' c).
Qed.

Lemma update_card_twice name question answer collection iq ia c :
  update_card name question answer collection iq ia
    (update_card name question answer collection iq ia c)
  = update_card name question answer collection iq ia c.
Proof. by destruct iq, ia. Qed.

Lemma updated_twice n e name question answer collection iq ia cards :
  updated n e name question answer collection iq ia
    (updated n e name question answer collection iq ia cards)
  = updated n e name question answer collection iq ia cards.
Proof.
  unfold updated. rewrite <- list_fmap_compose.
  apply list_fmap_ext. intros i c _. cbn.
  destruct (decide (card_of n e c)) as [Hc|Hc].
  - rewrite decide_True by (destruct Hc; by split).
    apply update_card_twice.
  - by rewrite decide_False.
Qed.

Lemma update_flashcard_updated fs cards n e name question answer col iq ia :
  fs !! FLASHCARDS_CSV = Some (table cards) →
  update_flashcard n e name question answer col iq ia fs
  = (Ok true,
     <[FLASHCARDS_CSV :=
         table (updated n e name question answer (arg_value "" col)
                  (arg_value (Some "") iq) (arg_value (Some "") ia) cards)]> fs).
Proof. apply update_flashcard_table. Qed.

Lemma filter_twice {A} (P : A → Prop) `{!∀ x, Decision (P x)} (l : list A) :
  filter P (filter P l) = filter P l.
Proof. by apply filter_filter_implied. Qed.

Lemma sublist_ids_distinct (P : flashcard → Prop) `{!∀ c, Decision (P c)} cards :
  NoDup (fc_id <$> cards) → NoDup (fc_id <$> filter P cards).
Proof.
  induction cards as [|c cards IH]; [done|].
  rewrite fmap_cons, NoDup_cons. intros [Hc Hnd].
  destruct (decide (P c)).
  - rewrite filter_cons_True, fmap_cons, NoDup_cons by done.
    split; [|by apply IH]. intros Hin. apply Hc.
    apply list_elem_of_fmap in Hin as (c' & -> & Hin).
    apply list_elem_of_filter in Hin as [_ Hin].
    apply list_elem_of_fmap. by exists c'.
  - rewrite filter_cons_False by done. by apply IH.
Qed.

End Effects.

(** [update_flashcard] on a table rewrites the cards that carry the id and
    belong to the user and leaves every other card as it is; the number of
    cards, their order, and the id, owner and creation time of every card
    stay the same. *)
Theorem update_flashcard_changes_matching_only (fs : filesystem)
    (cards : list flashcard) (n : Z) (e name question answer : string)
    (col : arg string) (iq ia : arg pyval) :
  fs !! FLASHCARDS_CSV = Some (table cards) →
  ∃ cards',
    update_flashcard n e name question answer col iq ia fs
    = (Ok true, <[FLASHCARDS_CSV := table cards']> fs)
    ∧ length cards' = length cards
    ∧ fc_id <$> cards' = fc_id <$> cards
    ∧ fc_user_email <$> cards' = fc_user_email <$> cards
    ∧ fc_created_at <$> cards' = fc_created_at <$> cards
    ∧ ∀ i c, cards !! i = Some c →
        (¬ card_of n e c → cards' !! i = Some c)
        ∧ (card_of n e c →
           cards' !! i
           = Some (update_card name question answer (arg_value "" col)
                     (arg_value (Some "") iq) (arg_value (Some "") ia) c)).
Proof.
  intros Hfs. eexists. split; [by apply update_flashcard_updated|].
  split; [apply length_fmap|].
  destruct (updated_keeps n e name question answer (arg_value "" col)
              (arg_value (Some "") iq) (arg_value (Some "") ia) cards)
    as (Hid & Howner & Hcreated).
  split; [done|]. split; [done|]. split; [done|].
  intros i c Hi. unfold updated. rewrite list_lookup_fmap, Hi. cbn.
  split; intros Hc; [by rewrite decide_False|by rewrite decide_True].
Qed.

Lemma update_flashcard_changes_matching_only_witness :
  ∃ cards',
    update_flashcard 2 "B@x.com" "square" "4*4?" "16" (passed "Squares")
      (passed None) (passed (Some "IMG")) two_card_store
    = (Ok true, <[FLASHCARDS_CSV := table cards']> two_card_store)
    ∧ fc_id <$> cards' = ["1"; "2"]
    ∧ cards' !! 0%nat = Some ann_card.
Proof.
  destruct (update_flashcard_changes_matching_only two_card_store
              [ann_card; bob_card] 2 "B@x.com" "square" "4*4?" "16"
              (passed "Squares") (passed None) (passed (Some "IMG")))
    as (cards' & Hrun & _ & Hids & _ & _ & Hcards); [reflexivity|].
  exists cards'. split; [exact Hrun|]. split; [exact Hids|].
  apply (proj1 (Hcards 0%nat ann_card eq_refl)).
  intros [H _]. vm_compute in H. discriminate H.
Defined.

(** How the image arguments of [update_flashcard] act on a matching card
    of a table: [None] keeps the stored image, a string replaces it, and a
    call that leaves the argument out stores the empty string. *)
Theorem update_flashcard_image_arguments (fs : filesystem)
    (cards : list flashcard) (c : flashcard) (i : nat) (n : Z)
    (e name question answer : string) (col : arg string) (iq ia : arg pyval) :
  fs !! FLASHCARDS_CSV = Some (table cards) →
  cards !! i = Some c →
  card_of n e c →
  ∃ cards' c',
    update_flashcard n e name question answer col iq ia fs
    = (Ok true, <[FLASHCARDS_CSV := table cards']> fs)
    ∧ cards' !! i = Some c'
    ∧ fc_name c' = name ∧ fc_question c' = question ∧ fc_answer c' = answer
    ∧ fc_collection c' = arg_value "" col
    ∧ fc_image_question c'
      = match iq with
        | passed None => fc_image_question c
        | passed (Some s) => s
        | omitted => ""
        end
    ∧ fc_image_answer c'
      = match ia with
        | passed None => fc_image_answer c
        | passed (Some s) => s
        | omitted => ""
        end.
Proof.
  intros Hfs Hi Hc. eexists _, _.
  split; [by apply update_flashcard_updated|]. split.
  - unfold updated. rewrite list_lookup_fmap, Hi. cbn.
    by rewrite decide_True.
  - repeat split; [by destruct iq as [|[]]|by destruct ia as [|[]]].
Qed.

Lemma update_flashcard_image_arguments_witness :
  ∃ cards' c',
    update_flashcard 1 "A@X.com" "sum2" "1+1?" "2" (passed "Sums")
      (passed None) omitted ann_store
    = (Ok true, <[FLASHCARDS_CSV := table cards']> ann_store)
    ∧ cards' !! 0%nat = Some c'
    ∧ fc_image_question c' = "IMGQ"
    ∧ fc_image_answer c' = "".
Proof.
  destruct (update_flashcard_image_arguments ann_store [ann_card] ann_card 0
              1 "A@X.com" "sum2" "1+1?" "2" (passed "Sums") (passed None) omitted)
    as (cards' & c' & Hrun & Hc' & _ & _ & _ & _ & Hq & Ha);
    [reflexivity|reflexivity|split; reflexivity|].
  exists cards', c'. split; [exact Hrun|]. split; [exact Hc'|].
  split; [exact Hq|exact Ha].
Defined.

(** In a table with distinct ids, a card that its owner has updated is
    returned by [get_flashcard_by_id] with the new name, question, answer,
    collection and images. *)
Theorem update_flashcard_then_lookup (fs : filesystem)
    (cards : list flashcard) (c : flashcard) (n : Z)
    (e name question answer : string) (col : arg string) (iq ia : arg pyval) :
  fs !! FLASHCARDS_CSV = Some (table cards) →
  NoDup (fc_id <$> cards) →
  c ∈ cards →
  card_of n e c →
  ∃ fs',
    update_flashcard n e name question answer col iq ia fs = (Ok true, fs')
    ∧ get_flashcard_by_id n e fs'
      = Ok (Some (view_of (update_card name question answer (arg_value "" col)
                             (arg_value (Some "") iq) (arg_value (Some "") ia) c))).
Proof.
  intros Hfs Hnd Hin Hc. eexists.
  split; [by apply update_flashcard_updated|].
  rewrite (get_flashcard_by_id_table _ _ _ _ (lookup_insert_eq _ _ _)).
  apply list_elem_of_split in Hin as (cards1 & cards2 & ->).
  destruct (distinct_ids_split _ _ _ Hnd) as [H1 _].
  assert (Hno : Forall (fun c' => ¬ card_of n e c') cards1).
  { eapply Forall_impl; [exact H1|]. intros c' Hne [Hid' _].
    destruct Hc as [Hid _]. congruence. }
  unfold updated. rewrite fmap_app, fmap_cons.
  fold (updated n e name question answer (arg_value "" col)
          (arg_value (Some "") iq) (arg_value (Some "") ia) cards1).
  rewrite updated_no_match by done. rewrite decide_True by done.
  apply find_card_first; [done|]. destruct Hc. by split.
Qed.

Lemma update_flashcard_then_lookup_witness :
  ∃ fs',
    update_flashcard 2 "B@x.com" "square" "4*4?" "16" (passed "Squares")
      (passed None) (passed (Some "IMG")) two_card_store = (Ok true, fs')
    ∧ get_flashcard_by_id 2 "B@x.com" fs'
      = Ok (Some (view_of (update_card "square" "4*4?" "16" "Squares" None
                             (Some "IMG") bob_card))).
Proof.
  apply (update_flashcard_then_lookup two_card_store [ann_card; bob_card]
           bob_card 2 "B@x.com" "square" "4*4?" "16" (passed "Squares")
           (passed None) (passed (Some "IMG")));
    [reflexivity|compute_done|apply list_elem_of_further, list_elem_of_here
    |split; reflexivity].
Defined.

(** ** What a user reads depends on the user's own cards only *)

Section Isolation.

Implicit Types (c : flashcard) (cards : list flashcard) (fs : filesystem).

Lemma find_card_owned n e cards :
  find_card n e (row_of <$> cards)
  = find_card n e (row_of <$> filter (owned_by e) cards).
Proof.
  induction cards as [|c cards IH]; [done|].
  destruct (decide (owned_by e c)) as [Ho|Ho].
  - rewrite filter_cons_True by done. rewrite !fmap_cons. cbn [find_card].
    by rewrite IH.
  - rewrite filter_cons_False by done. rewrite fmap_cons. cbn [find_card].
    rewrite is_card_of_row, bool_decide_eq_false_2 by (by intros [_ ?]).
    exact IH.
Qed.

Lemma reads_of_own_cards fs1 fs2 cards1 cards2 e :
  fs1 !! FLASHCARDS_CSV = Some (table cards1) →
  fs2 !! FLASHCARDS_CSV = Some (table cards2) →
  filter (owned_by e) cards1 = filter (owned_by e) cards2 →
  get_user_flashcards e fs1 = get_user_flashcards e fs2
  ∧ get_user_collections e fs1 = get_user_collections e fs2
  ∧ ∀ n, get_flashcard_by_id n e fs1 = get_flashcard_by_id n e fs2.
Proof.
  intros H1 H2 Hsame.
  assert (Hlist : get_user_flashcards e fs1 = get_user_flashcards e fs2).
  { rewrite (get_user_flashcards_table _ _ _ H1),
      (get_user_flashcards_table _ _ _ H2). by rewrite Hsame. }
  split; [done|]. split.
  - unfold get_user_collections. by rewrite Hlist.
  - intros n. rewrite (get_flashcard_by_id_table _ _ _ _ H1),
      (get_flashcard_by_id_table _ _ _ _ H2).
    rewrite (find_card_owned n e cards1), (find_card_owned n e cards2).
    by rewrite Hsame.
Qed.

Lemma removed_others (P : flashcard → Prop) `{!∀ c, Decision (P c)} e e' cards :
  (∀ c, P c → owned_by e c) →
  ¬ same_email e e' →
  filter (owned_by e') (filter (fun c => ¬ P c) cards) = filter (owned_by e') cards.
Proof.
  intros Hown Hother. apply filter_filter_implied.
  intros c Hc HP. by apply (owned_by_other e e' c Hother Hc), Hown.
Qed.

End Isolation.

(** [delete_flashcard] on a table removes the cards that carry the id and
    belong to the user, and no other; the cards that stay keep their order
    and their fields, distinct ids stay distinct, and afterwards
    [get_flashcard_by_id] finds nothing under that id for that user. *)
Theorem delete_flashcard_removes_matching_cards (fs : filesystem)
    (cards : list flashcard) (n : Z) (e : string) :
  fs !! FLASHCARDS_CSV = Some (table cards) →
  ∃ fs' remaining,
    delete_flashcard n e fs = (Ok true, fs')
    ∧ fs' !! FLASHCARDS_CSV = Some (table remaining)
    ∧ remaining = filter (fun c => ¬ card_of n e c) cards
    ∧ (∀ c, c ∈ remaining ↔ c ∈ cards ∧ ¬ card_of n e c)
    ∧ (NoDup (fc_id <$> cards) → NoDup (fc_id <$> remaining))
    ∧ get_flashcard_by_id n e fs' = Ok None.
Proof.
  intros Hfs. eexists _, _.
  split; [by apply delete_flashcard_table|].
  split; [apply lookup_insert_eq|]. split; [done|]. split; [|split].
  - intros c. rewrite list_elem_of_filter. tauto.
  - apply sublist_ids_distinct.
  - rewrite (get_flashcard_by_id_table _ _ _ _ (lookup_insert_eq _ _ _)).
    apply find_card_none, Forall_forall. intros c Hc.
    by apply list_elem_of_filter in Hc as [? _].
Qed.

Lemma delete_flashcard_removes_matching_cards_witness :
  ∃ fs' remaining,
    delete_flashcard 1 "A@X.com" two_card_store = (Ok true, fs')
    ∧ fs' !! FLASHCARDS_CSV = Some (table remaining)
    ∧ remaining = [bob_card]
    ∧ get_flashcard_by_id 1 "A@X.com" fs' = Ok None.
Proof.
  destruct (delete_flashcard_removes_matching_cards two_card_store
              [ann_card; bob_card] 1 "A@X.com")
    as (fs' & remaining & Hrun & Hfile & -> & _ & _ & Hgone); [reflexivity|].
  exists fs', (filter (fun c => ¬ card_of 1 "A@X.com" c) [ann_card; bob_card]).
  split; [exact Hrun|]. split; [exact Hfile|].
  split; [vm_compute; reflexivity|exact Hgone].
Defined.

(** A request that matches no card of a table leaves every file as it is,
    and still answers [True]: [update_flashcard] and [delete_flashcard]
    when no card carries the id and belongs to the user,
    [delete_collection] when the user has no card in the collection. *)
Theorem unmatched_request_leaves_files (fs : filesystem)
    (cards : list flashcard) (n : Z) (e name question answer col : string)
    (collection : arg string) (iq ia : arg pyval) :
  fs !! FLASHCARDS_CSV = Some (table cards) →
  (Forall (fun c => ¬ card_of n e c) cards →
     update_flashcard n e name question answer collection iq ia fs = (Ok true, fs)
     ∧ delete_flashcard n e fs = (Ok true, fs))
  ∧ (Forall (fun c => ¬ in_collection col e c) cards →
     delete_collection col e fs = (Ok true, fs)).
Proof.
  intros Hfs. split; [intros Hno; split|intros Hno].
  - rewrite (update_flashcard_updated _ _ _ _ _ _ _ _ _ _ Hfs).
    rewrite updated_no_match by done. by rewrite insert_table_id.
  - by apply (delete_flashcard_no_match _ cards).
  - rewrite (delete_collection_table _ _ _ _ Hfs).
    rewrite filter_keeps_all by done. by rewrite insert_table_id.
Qed.

Lemma unmatched_request_leaves_files_witness :
  update_flashcard 2 "a@x.com" "n" "q" "a" omitted omitted omitted two_card_store
  = (Ok true, two_card_store)
  ∧ delete_flashcard 2 "a@x.com" two_card_store = (Ok true, two_card_store)
  ∧ delete_collection "History" "a@x.com" two_card_store
    = (Ok true, two_card_store).
Proof.
  destruct (unmatched_request_leaves_files two_card_store [ann_card; bob_card]
              2 "a@x.com" "n" "q" "a" "History" omitted omitted omitted)
    as [Hcard Hcol]; [reflexivity|].
  destruct Hcard as [Hupdate Hdelete].
  { repeat constructor; intros [H1 H2]; vm_compute in H1, H2; discriminate. }
  split; [exact Hupdate|]. split; [exact Hdelete|].
  apply Hcol. repeat constructor; intros [H1 H2]; vm_compute in H1; discriminate.
Defined.

(** Repeating a request changes nothing more: on a table, a second
    [update_flashcard], [delete_flashcard] or [delete_collection] with the
    same arguments leaves the files as the first left them. *)
Theorem repeated_request_changes_nothing (fs : filesystem)
    (cards : list flashcard) (n : Z) (e name question answer col : string)
    (collection : arg string) (iq ia : arg pyval) :
  fs !! FLASHCARDS_CSV = Some (table cards) →
  (∀ fs', update_flashcard n e name question answer collection iq ia fs
          = (Ok true, fs') →
          update_flashcard n e name question answer collection iq ia fs'
          = (Ok true, fs'))
  ∧ (∀ fs', delete_flashcard n e fs = (Ok true, fs') →
            delete_flashcard n e fs' = (Ok true, fs'))
  ∧ (∀ fs', delete_collection col e fs = (Ok true, fs') →
            delete_collection col e fs' = (Ok true, fs')).
Proof.
  intros Hfs. split; [|split]; intros fs' Hrun.
  - rewrite (update_flashcard_updated _ _ _ _ _ _ _ _ _ _ Hfs) in Hrun.
    injection Hrun as <-.
    rewrite (update_flashcard_updated _ _ _ _ _ _ _ _ _ _ (lookup_insert_eq _ _ _)).
    by rewrite updated_twice, insert_insert_eq.
  - rewrite (delete_flashcard_table _ _ _ _ Hfs) in Hrun. injection Hrun as <-.
    rewrite (delete_flashcard_table _ _ _ _ (lookup_insert_eq _ _ _)).
    by rewrite filter_twice, insert_insert_eq.
  - rewrite (delete_collection_table _ _ _ _ Hfs) in Hrun. injection Hrun as <-.
    rewrite (delete_collection_table _ _ _ _ (lookup_insert_eq _ _ _)).
    by rewrite filter_twice, insert_insert_eq.
Qed.

Lemma repeated_request_changes_nothing_witness :
  delete_flashcard 1 "a@x.com" (delete_flashcard 1 "a@x.com" two_card_store).2
  = (Ok true, (delete_flashcard 1 "a@x.com" two_card_store).2).
Proof.
  apply (proj1 (proj2 (repeated_request_changes_nothing two_card_store
                         [ann_card; bob_card] 1 "a@x.com" "" "" "" ""
                         omitted omitted omitted eq_refl))).
  vm_compute. reflexivity.
Defined.

(** No request of one user changes what another user reads: after
    [update_flashcard], [delete_flashcard] or [delete_collection] on behalf
    of [e], the listing, the collections and every lookup by id of a user
    with another email are what they were before. *)
Theorem other_users_read_the_same (fs : filesystem) (cards : list flashcard)
    (n : Z) (e e' name question answer col : string)
    (collection : arg string) (iq ia : arg pyval) :
  fs !! FLASHCARDS_CSV = Some (table cards) →
  ¬ same_email e e' →
  ∀ fs',
    fs' = (update_flashcard n e name question answer collection iq ia fs).2
    ∨ fs' = (delete_flashcard n e fs).2
    ∨ fs' = (delete_collection col e fs).2 →
    get_user_flashcards e' fs' = get_user_flashcards e' fs
    ∧ get_user_collections e' fs' = get_user_collections e' fs
    ∧ ∀ m, get_flashcard_by_id m e' fs' = get_flashcard_by_id m e' fs.
Proof.
  intros Hfs Hother fs' [->|[->| ->]].
  - rewrite (update_flashcard_updated _ _ _ _ _ _ _ _ _ _ Hfs). cbn [snd].
    eapply reads_of_own_cards; [apply lookup_insert_eq|exact Hfs|].
    by apply updated_others.
  - rewrite (delete_flashcard_table _ _ _ _ Hfs). cbn [snd].
    eapply reads_of_own_cards; [apply lookup_insert_eq|exact Hfs|].
    apply (removed_others (card_of n e) e e'); [by intros c [_ ?]|done].
  - rewrite (delete_collection_table _ _ _ _ Hfs). cbn [snd].
    eapply reads_of_own_cards; [apply lookup_insert_eq|exact Hfs|].
    apply (removed_others (in_collection col e) e e'); [by intros c [_ ?]|done].
Qed.

Lemma other_users_read_the_same_witness :
  get_user_flashcards "b@x.com" (delete_collection "Math" "a@x.com" two_card_store).2
  = get_user_flashcards "b@x.com" two_card_store
  ∧ get_flashcard_by_id 2 "b@x.com"
      (delete_collection "Math" "a@x.com" two_card_store).2
    = get_flashcard_by_id 2 "b@x.com" two_card_store.
Proof.
  destruct (other_users_read_the_same two_card_store [ann_card; bob_card]
              1 "a@x.com" "b@x.com" "" "" "" "Math" omitted omitted omitted)
    with (fs' := (delete_collection "Math" "a@x.com" two_card_store).2)
    as (Hlist & _ & Hget);
    [reflexivity|intros H; vm_compute in H; discriminate H
    |right; right; reflexivity|].
  split; [exact Hlist|exact (Hget 2)].
Defined.

(** After [delete_collection col e] on a table, the collections of the user
    are the ones listed before without [col]. *)
Theorem delete_collection_then_collections (fs : filesystem)
    (cards : list flashcard) (col e : string) :
  fs !! FLASHCARDS_CSV = Some (table cards) →
  ∃ names names',
    get_user_collections e fs = Ok names
    ∧ get_user_collections e (delete_collection col e fs).2 = Ok names'
    ∧ ∀ x, x ∈ names' ↔ x ∈ names ∧ x ≠ col.
Proof.
  intros Hfs.
  destruct (get_user_collections_table fs cards e Hfs)
    as (names & Hnames & _ & _ & Hin).
  rewrite (delete_collection_table _ _ _ _ Hfs). cbn [snd].
  destruct (get_user_collections_table _ _ e
              (lookup_insert_eq fs FLASHCARDS_CSV
                 (table (filter (fun c => ¬ in_collection col e c) cards))))
    as (names' & Hnames' & _ & _ & Hin').
  exists names, names'. split; [done|]. split; [done|].
  intros x. rewrite Hin, Hin'. setoid_rewrite list_elem_of_filter.
  unfold in_collection, owned_by. split.
  - intros (Hx & c & [Hkeep Hc] & Ho & Hcol). subst x.
    split; [|tauto]. split; [done|]. by exists c.
  - intros [(Hx & c & Hc & Ho & Hcol) Hne]. subst x.
    split; [done|]. exists c. tauto.
Qed.

Lemma delete_collection_then_collections_witness :
  get_user_collections "a@x.com" shelf_store = Ok ["Algebra"; "Math"; "algebra"]
  ∧ get_user_collections "a@x.com"
      (delete_collection "Math" "a@x.com" shelf_store).2
    = Ok ["Algebra"; "algebra"]
  ∧ ∃ names names',
      get_user_collections "a@x.com" shelf_store = Ok names
      ∧ get_user_collections "a@x.com"
          (delete_collection "Math" "a@x.com" shelf_store).2 = Ok names'
      ∧ ∀ x, x ∈ names' ↔ x ∈ names ∧ x ≠ "Math".
Proof.
  split; [vm_compute; reflexivity|]. split; [vm_compute; reflexivity|].
  apply (delete_collection_then_collections shelf_store shelf "Math" "a@x.com").
  reflexivity.
Defined.

(** ** Rewriting a file of any shape *)

Section AnyFile.

Implicit Types (fs : filesystem) (flashcards : list row).

Lemma card_cells_width (card : row) cells :
  card_cells card = Ok cells → length (writerow cells) = 9%nat.
Proof.
  unfold card_cells. intros H.
  destruct (getitem card "id"); [|discriminate H].
  destruct (getitem card "user_email"); [|discriminate H].
  destruct (getitem card "question"); [|discriminate H].
  destruct (getitem card "answer"); [|discriminate H].
  destruct (getitem card "created_at"); [|discriminate H].
  injection H as <-. reflexivity.
Qed.

Lemma write_cards_width flashcards (out out' : csv_file) :
  write_cards flashcards out = (Ok tt, out') →
  ∃ records, out' = out ++ records
             ∧ Forall (fun r => length r = 9%nat) records.
Proof.
  revert out. induction flashcards as [|card flashcards IH]; intros out H.
  - injection H as <-. exists []. by rewrite app_nil_r.
  - cbn [write_cards] in H.
    destruct (card_cells card) as [cells|] eqn:Hcells; [|discriminate H].
    apply IH in H as (records & -> & Hwidth).
    exists (writerow cells :: records). rewrite <- app_assoc. split; [done|].
    constructor; [by eapply card_cells_width|done].
Qed.

Lemma rewrite_flashcards_width flashcards fs fs' :
  rewrite_flashcards flashcards fs = (Ok tt, fs') →
  ∃ cards, fs' !! FLASHCARDS_CSV = Some (table cards).
Proof.
  unfold rewrite_flashcards.
  destruct (write_cards flashcards _) as [[[]|] file] eqn:Hwrite;
    [|discriminate].
  intros [= <-].
  apply write_cards_width in Hwrite as (records & -> & Hwidth).
  destruct (full_records_table records Hwidth) as [cards Hcards].
  exists cards. rewrite lookup_insert_eq. f_equal. exact Hcards.
Qed.

Lemma rewrite_flashcards_frame flashcards fs path :
  path ≠ FLASHCARDS_CSV →
  (rewrite_flashcards flashcards fs).2 !! path = fs !! path.
Proof.
  intros Hpath. unfold rewrite_flashcards.
  destruct (write_cards flashcards _) as [r file]. cbn [snd].
  by rewrite lookup_insert_ne.
Qed.

End AnyFile.

(** Whatever the flashcard file held, when [update_flashcard],
    [delete_flashcard] or [delete_collection] answers [True] the file holds
    the current header and nine fields in every record. *)
Theorem successful_rewrite_leaves_table (fs fs' : filesystem) (n : Z)
    (e name question answer col : string) (collection : arg string)
    (iq ia : arg pyval) :
  update_flashcard n e name question answer collection iq ia fs = (Ok true, fs')
  ∨ delete_flashcard n e fs = (Ok true, fs')
  ∨ delete_collection col e fs = (Ok true, fs') →
  ∃ cards, fs' !! FLASHCARDS_CSV = Some (table cards).
Proof.
  unfold update_flashcard, delete_flashcard, delete_collection.
  destruct (exists_path FLASHCARDS_CSV fs); cbn [negb];
    [|intros [H|[H|H]]; discriminate H].
  destruct (open_read FLASHCARDS_CSV fs) as [file|];
    [|intros [H|[H|H]]; discriminate H].
  intros [H|[H|H]].
  - destruct (update_rows _ _ _ _ _ _ _ _ _) as [flashcards|];
      [|discriminate H].
    destruct (rewrite_flashcards flashcards fs) as [[[]|] fs1] eqn:Hw;
      [|discriminate H].
    injection H as <-. by eapply rewrite_flashcards_width.
  - destruct (keep_rows _ _) as [flashcards|]; [|discriminate H].
    destruct (rewrite_flashcards flashcards fs) as [[[]|] fs1] eqn:Hw;
      [|discriminate H].
    injection H as <-. by eapply rewrite_flashcards_width.
  - destruct (keep_rows _ _) as [flashcards|]; [|discriminate H].
    destruct (rewrite_flashcards flashcards fs) as [[[]|] fs1] eqn:Hw;
      [|discriminate H].
    injection H as <-. by eapply rewrite_flashcards_width.
Qed.

Lemma successful_rewrite_leaves_table_witness :
  delete_flashcard 7 "z@x.com" ragged_store
  = (Ok true,
     {[ FLASHCARDS_CSV :=
          [FLASHCARDS_HEADER;
           ["1"; "a@x.com"; "sum"; "2+2?"; "4"; ""; ""; ""; ""];
           ["2"; "b@x.com"; ""; "3*3?"; "9"; ""; ""; "Math";
            "2024-01-02 10:00:00"]] ]})
  ∧ ∃ cards,
      (delete_flashcard 7 "z@x.com" ragged_store).2 !! FLASHCARDS_CSV
      = Some (table cards).
Proof.
  split; [vm_compute; reflexivity|].
  apply (successful_rewrite_leaves_table ragged_store
           (delete_flashcard 7 "z@x.com" ragged_store).2 7 "z@x.com"
           "" "" "" "" omitted omitted omitted).
  right. left. vm_compute. reflexivity.
Defined.

(** ** Which files a function writes *)

(** The functions that write flashcards ([save_flashcard],
    [update_flashcard], [delete_flashcard], [delete_collection]) leave every
    file other than flashcards.csv as it is, and [register] leaves every
    file other than users.csv as it is, whatever the files hold and whether
    or not the call raises. *)
Theorem writes_stay_in_their_file (fs : filesystem) (path : string) (n : Z)
    (created_at e name question answer col : string)
    (collection scol siq sia : arg string) (iq ia : arg pyval)
    (fname femail fpassword fconfirm : pyval) :
  (path ≠ FLASHCARDS_CSV →
     (save_flashcard created_at e name question answer scol siq sia fs).2 !! path
     = fs !! path
     ∧ (update_flashcard n e name question answer collection iq ia fs).2 !! path
       = fs !! path
     ∧ (delete_flashcard n e fs).2 !! path = fs !! path
     ∧ (delete_collection col e fs).2 !! path = fs !! path)
  ∧ (path ≠ USERS_CSV →
     (register created_at fname femail fpassword fconfirm fs).2 !! path
     = fs !! path).
Proof.
  split.
  - intros Hpath.
    assert (Hinit : init_flashcards_csv fs !! path = fs !! path).
    { unfold init_flashcards_csv.
      destruct (negb _); [by rewrite lookup_insert_ne|done]. }
    split; [|split; [|split]].
    + unfold save_flashcard.
      destruct (get_next_flashcard_id _); cbn [snd]; [|done].
      destruct (try_writerow _); cbn [snd]; [|done].
      unfold append_record. by rewrite lookup_insert_ne.
    + unfold update_flashcard.
      destruct (negb _); [done|]. destruct (open_read _ _); [|done].
      destruct (update_rows _ _ _ _ _ _ _ _ _) as [flashcards|]; [|done].
      pose proof (rewrite_flashcards_frame flashcards fs path Hpath) as Hw.
      by destruct (rewrite_flashcards flashcards fs) as [[[]|] fs1].
    + unfold delete_flashcard.
      destruct (negb _); [done|]. destruct (open_read _ _); [|done].
      destruct (keep_rows _ _) as [flashcards|]; [|done].
      pose proof (rewrite_flashcards_frame flashcards fs path Hpath) as Hw.
      by destruct (rewrite_flashcards flashcards fs) as [[[]|] fs1].
    + unfold delete_collection.
      destruct (negb _); [done|]. destruct (open_read _ _); [|done].
      destruct (keep_rows _ _) as [flashcards|]; [|done].
      pose proof (rewrite_flashcards_frame flashcards fs path Hpath) as Hw.
      by destruct (rewrite_flashcards flashcards fs) as [[[]|] fs1].
  - intros Hpath. unfold register.
    destruct (negb _); [done|].
    destruct fname, femail, fpassword, fconfirm; try done.
    destruct (negb _); [done|]. destruct (_ <? _)%nat; [done|].
    destruct (email_exists _ _) as [[|]|]; try done. cbn [snd].
    unfold save_user_to_csv, append_record, init_users_csv.
    rewrite lookup_insert_ne by done.
    destruct (negb _); [by rewrite lookup_insert_ne|done].
Qed.

Lemma writes_stay_in_their_file_witness :
  (delete_collection "Math" "a@x.com" ownerless_store).2 !! USERS_CSV
  = ownerless_store !! USERS_CSV
  ∧ (register "2024-03-01 12:00:00" (Some "Bob") (Some "bob@x.com")
       (Some "secret1") (Some "secret1") ownerless_store).2 !! FLASHCARDS_CSV
    = ownerless_store !! FLASHCARDS_CSV.
Proof.
  pose proof (writes_stay_in_their_file ownerless_store USERS_CSV 1
                "" "a@x.com" "" "" "" "Math" omitted omitted omitted omitted
                omitted omitted None None None None) as [Hcards _].
  pose proof (writes_stay_in_their_file ownerless_store FLASHCARDS_CSV 1
                "2024-03-01 12:00:00" "" "" "" "" "" omitted omitted omitted
                omitted omitted omitted (Some "Bob") (Some "bob@x.com")
                (Some "secret1") (Some "secret1")) as [_ Husers].
  split.
  - apply Hcards. intros H. vm_compute in H. discriminate H.
  - apply Husers. intros H. vm_compute in H. discriminate H.
Defined.

(** ** More on the migration *)

Section MigrationEdges.

Implicit Types (names r : csv_record) (records : list csv_record)
  (fs : filesystem).

Lemma first_backup_is_not_stamped (s : string) :
  (FLASHCARDS_CSV ++ ".backup")%string
  ≠ (FLASHCARDS_CSV ++ ".backup." ++ s)%string.
Proof. cbn. discriminate. Qed.

Lemma migrate_cards_missing_owner names r records (i : Z) :
  "user_email" ∉ names →
  migrate_cards i ((fun r => zip_fields names r ∅) <$> (r :: records))
  = Raise (KeyError "user_email").
Proof.
  intros Hno. rewrite fmap_cons. cbn [migrate_cards].
  unfold migrate_card, getitem.
  rewrite (zip_fields_lookup_notin names r ∅ "user_email") by done.
  rewrite lookup_empty. reflexivity.
Qed.

Lemma migrated_ids names records :
  (fun r => default "" (head r)) <$> imap (migrated_of names) records
  = (fun i => PyStr.str_of_int (Z.of_nat (S i))) <$> seq 0 (length records).
Proof.
  rewrite fmap_imap. rewrite <- (imap_seq_0 records). by apply imap_ext.
Qed.

Lemma table_ids (cards : list flashcard) :
  fc_id <$> cards = (fun r => default "" (head r)) <$> (record_of <$> cards).
Proof. rewrite <- list_fmap_compose. by apply list_fmap_ext. Qed.

End MigrationEdges.

(** When the header of an unmigrated file has no user_email column and the
    file holds a record, the migration raises [KeyError] after it has moved
    the file away: flashcards.csv no longer exists, its content is in the
    backup, and every user is shown an empty list. *)
Theorem migrate_without_owner_column_loses_the_file (now : Z)
    (fs : filesystem) (names : csv_record) (records : list csv_record) :
  fs !! FLASHCARDS_CSV = Some (names :: records) →
  already_migrated (PyStr.strip (readline (names :: records))) = false →
  "user_email" ∉ names →
  List.filter nonblank records ≠ [] →
  ∃ fs',
    migrate_flashcards_csv now fs = (Raise (KeyError "user_email"), fs')
    ∧ fs' !! FLASHCARDS_CSV = None
    ∧ fs' !! backup_path now fs = Some (names :: records)
    ∧ ∀ e, get_user_flashcards e fs' = Ok [].
Proof.
  intros Hfs Hold Hno Hrecords. eexists.
  assert (Hrun : migrate_flashcards_csv now fs
                 = (Raise (KeyError "user_email"),
                    <[backup_path now fs := names :: records]>
                      (delete FLASHCARDS_CSV fs))).
  { unfold migrate_flashcards_csv, open_read, rename.
    rewrite (exists_path_true _ _ _ Hfs), Hfs. cbn [negb]. rewrite Hold.
    fold (backup_path now fs). rewrite lookup_insert_eq.
    change (DictReader (names :: records)) with
      ((fun r => zip_fields names r ∅) <$> List.filter nonblank records).
    destruct (List.filter nonblank records) as [|r rest]; [done|].
    by rewrite migrate_cards_missing_owner. }
  split; [exact Hrun|].
  assert (Hgone : (<[backup_path now fs := names :: records]>
                     (delete FLASHCARDS_CSV fs)) !! FLASHCARDS_CSV = None).
  { rewrite lookup_insert_ne by apply backup_path_fresh.
    apply lookup_delete_eq. }
  split; [exact Hgone|]. split; [apply lookup_insert_eq|].
  intros e. unfold get_user_flashcards.
  by rewrite (exists_path_false _ _ Hgone).
Qed.

Lemma migrate_without_owner_column_loses_the_file_witness :
  ∃ fs',
    migrate_flashcards_csv 1700000000 ownerless_store
    = (Raise (KeyError "user_email"), fs')
    ∧ fs' !! FLASHCARDS_CSV = None
    ∧ fs' !! "flashcards.csv.backup.1700000000"
      = ownerless_store !! FLASHCARDS_CSV.
Proof.
  destruct (migrate_without_owner_column_loses_the_file 1700000000
              ownerless_store ["question"; "answer"; "created_at"]
              [["2+2?"; "4"; "2023-05-01 09:00:00"]])
    as (fs' & Hrun & Hgone & Hbackup & _);
    [reflexivity|reflexivity|compute_done|discriminate|].
  exists fs'. split; [exact Hrun|]. split; [exact Hgone|exact Hbackup].
Defined.

(** A backup named flashcards.csv.backup that is already there is never
    replaced by the migration, whatever the migration does. *)
Theorem migrate_keeps_first_backup (now : Z) (fs : filesystem)
    (old : csv_file) :
  fs !! (FLASHCARDS_CSV ++ ".backup")%string = Some old →
  (migrate_flashcards_csv now fs).2 !! (FLASHCARDS_CSV ++ ".backup")%string
  = Some old.
Proof.
  intros Hold. unfold migrate_flashcards_csv.
  destruct (negb _); [done|].
  destruct (open_read FLASHCARDS_CSV fs) as [file|] eqn:Hopen; [|done].
  destruct (already_migrated _); [done|].
  rewrite (exists_path_true _ _ _ Hold). unfold rename.
  unfold open_read in Hopen.
  destruct (fs !! FLASHCARDS_CSV) as [f|]; [|discriminate Hopen].
  pose proof (first_backup_is_not_stamped (PyStr.str_of_int now)) as Hne.
  assert (Hkept : (<[(FLASHCARDS_CSV ++ ".backup." ++ PyStr.str_of_int now)%string
                     := f]> (delete FLASHCARDS_CSV fs))
                    !! (FLASHCARDS_CSV ++ ".backup")%string = Some old).
  { rewrite lookup_insert_ne by done. by rewrite lookup_delete_ne. }
  destruct (open_read _ _); [|done].
  destruct (migrate_cards 1 _); [|done].
  cbn [snd]. by rewrite lookup_insert_ne.
Qed.

Lemma migrate_keeps_first_backup_witness :
  (migrate_flashcards_csv 1700000000 ownerless_store).2
    !! "flashcards.csv.backup"
  = Some [["question"; "answer"]; ["old"; "backup"]].
Proof.
  apply (migrate_keeps_first_backup 1700000000 ownerless_store). reflexivity.
Defined.

(** After a migration that rewrote the file, the file is a table with one
    card per non-blank record of the old file, and the ids 1, 2, ... of the
    cards are pairwise distinct. *)
Theorem migrate_gives_distinct_ids (now : Z) (fs : filesystem)
    (names : csv_record) (records : list csv_record) :
  fs !! FLASHCARDS_CSV = Some (names :: records) →
  already_migrated (PyStr.strip (readline (names :: records))) = false →
  "user_email" ∈ names → "question" ∈ names →
  "answer" ∈ names → "created_at" ∈ names →
  ∃ cards,
    (migrate_flashcards_csv now fs).2 !! FLASHCARDS_CSV = Some (table cards)
    ∧ length cards = length (List.filter nonblank records)
    ∧ fc_id <$> cards
      = (fun i => PyStr.str_of_int (Z.of_nat (S i))) <$> seq 0 (length cards)
    ∧ NoDup (fc_id <$> cards).
Proof.
  intros Hfs Hold Hu Hq Ha Hc.
  rewrite (migrate_run now fs names records Hfs Hold Hu Hq Ha Hc). cbn [snd].
  destruct (migrated_records_table names (List.filter nonblank records))
    as [cards Hcards].
  exists cards. rewrite lookup_insert_eq. split; [by rewrite Hcards|].
  assert (Hrecords : record_of <$> cards
                     = imap (migrated_of names) (List.filter nonblank records)).
  { unfold table in Hcards. congruence. }
  assert (Hlen : length cards = length (List.filter nonblank records)).
  { rewrite <- (length_fmap record_of), Hrecords. apply length_imap. }
  assert (Hids : fc_id <$> cards
                 = (fun i => PyStr.str_of_int (Z.of_nat (S i)))
                     <$> seq 0 (length cards)).
  { rewrite table_ids, Hrecords, migrated_ids. by rewrite Hlen. }
  split; [done|]. split; [done|].
  rewrite Hids. apply NoDup_fmap_2_strong; [|apply NoDup_seq].
  intros i j _ _ Hij. apply str_of_int_inj in Hij. lia.
Qed.

Lemma migrate_gives_distinct_ids_witness :
  ∃ cards,
    (migrate_flashcards_csv 1700000000 legacy_store).2 !! FLASHCARDS_CSV
    = Some (table cards)
    ∧ fc_id <$> cards = ["1"; "2"; "3"]
    ∧ NoDup (fc_id <$> cards).
Proof.
  destruct (migrate_gives_distinct_ids 1700000000 legacy_store LEGACY_HEADER
              legacy_records)
    as (cards & Hfile & Hlen & Hids & Hnd);
    [reflexivity|reflexivity|compute_done|compute_done|compute_done
    |compute_done|].
  exists cards. split; [exact Hfile|]. split; [|exact Hnd].
  rewrite Hids, Hlen. vm_compute. reflexivity.
Defined.

(** ** Accounts *)

Section Accounts.

Implicit Types (a : account) (accounts : list account) (fs : filesystem)
  (rows : list row).

Lemma account_row_email a : account_row a !! "email" = Some (Some (acc_email a)).
Proof. reflexivity. Qed.

Lemma account_row_password a :
  account_row a !! "password" = Some (Some (acc_password a)).
Proof. reflexivity. Qed.

Lemma account_row_name a : account_row a !! "name" = Some (Some (acc_name a)).
Proof. reflexivity. Qed.

Lemma account_row_created_at a :
  account_row a !! "created_at" = Some (Some (acc_created_at a)).
Proof. reflexivity. Qed.

Lemma filter_nonblank_accounts accounts :
  List.filter nonblank (account_record <$> accounts) = account_record <$> accounts.
Proof. induction accounts as [|a accounts IH]; simpl; [done|f_equal; exact IH]. Qed.

Lemma DictReader_users_table accounts :
  DictReader (users_table accounts) = account_row <$> accounts.
Proof.
  change (DictReader (users_table accounts)) with
    ((fun r => zip_fields USERS_HEADER r ∅) <$>
       List.filter nonblank (account_record <$> accounts)).
  rewrite filter_nonblank_accounts. by rewrite <- list_fmap_compose.
Qed.

Lemma email_in_accounts accounts e :
  email_in (account_row <$> accounts) e
  = Ok (bool_decide (Exists (fun a => same_email (acc_email a) e) accounts)).
Proof.
  induction accounts as [|a accounts IH].
  - reflexivity.
  - rewrite fmap_cons. cbn [email_in]. unfold getitem.
    rewrite account_row_email. cbn [mbind result_bind lower_of].
    rewrite eqb_same_email.
    destruct (decide (same_email (acc_email a) e)) as [Hs|Hs].
    + rewrite bool_decide_eq_true_2 by done. f_equal. symmetry.
      apply bool_decide_eq_true_2. by constructor.
    + rewrite bool_decide_eq_false_2 by done. rewrite IH. f_equal.
      apply bool_decide_ext. rewrite Exists_cons. tauto.
Qed.

Lemma find_user_accounts accounts e p :
  find_user (account_row <$> accounts) e p
  = Ok (user_of <$> head (filter (has_credentials e p) accounts)).
Proof.
  induction accounts as [|a accounts IH]; [done|].
  rewrite fmap_cons. cbn [find_user]. unfold getitem.
  rewrite account_row_email. cbn [mbind result_bind].
  rewrite eqb_same_email.
  destruct (decide (same_email (acc_email a) e)) as [Hs|Hs].
  - rewrite bool_decide_eq_true_2 by done.
    rewrite account_row_password. cbn [mbind result_bind]. unfold eq_str.
    destruct (decide (acc_password a = p)) as [Hp|Hp].
    + rewrite bool_decide_eq_true_2 by congruence.
      rewrite account_row_name, account_row_created_at.
      rewrite filter_cons_True by done. reflexivity.
    + rewrite bool_decide_eq_false_2 by congruence.
      rewrite filter_cons_False by (by intros [_ ?]). exact IH.
  - rewrite bool_decide_eq_false_2 by done.
    rewrite filter_cons_False by (by intros [? _]). exact IH.
Qed.

(** A scan for an email that found nothing means that a login under any
    spelling of that email skips the rows. *)
Lemma find_user_skip rows rest e e' p :
  email_in rows e = Ok false →
  same_email e e' →
  find_user (rows ++ rest) e' p = find_user rest e' p.
Proof.
  unfold same_email. intros Hrows Hsame.
  induction rows as [|r rows IH]; [done|].
  rewrite <- app_comm_cons. cbn [email_in find_user] in *.
  destruct (getitem r "email") as [[s|]|]; cbn [mbind result_bind lower_of] in *;
    try discriminate Hrows.
  rewrite <- Hsame.
  destruct (String.eqb (PyStr.lower s) (PyStr.lower e)); [discriminate Hrows|].
  by apply IH.
Qed.

(** A login that succeeded means that the email is registered. *)
Lemma find_user_registered rows e p u :
  find_user rows e p = Ok (Some u) →
  email_in rows e = Ok true ∧ same_email (user_email u) e.
Proof.
  induction rows as [|r rows IH]; [discriminate|].
  cbn [email_in find_user].
  destruct (getitem r "email") as [[s|]|]; cbn [mbind result_bind lower_of];
    try discriminate.
  destruct (String.eqb_spec (PyStr.lower s) (PyStr.lower e)) as [Hs|Hs];
    [|exact IH].
  destruct (getitem r "password") as [pw|]; cbn [mbind result_bind];
    [|discriminate].
  destruct (eq_str pw p).
  - destruct (getitem r "name"); cbn [mbind result_bind]; [|discriminate].
    destruct (getitem r "created_at"); cbn [mbind result_bind]; [|discriminate].
    intros [= <-]. by split.
  - intros H. split; [done|]. by apply IH.
Qed.

Lemma users_table_ready fs accounts :
  fs !! USERS_CSV = Some (users_table accounts) →
  users_ready fs ∧ users_records fs = account_record <$> accounts.
Proof.
  intros Hfs. split.
  - right. by eexists.
  - unfold users_records. by rewrite Hfs.
Qed.

Lemma email_exists_users_table fs accounts e :
  fs !! USERS_CSV = Some (users_table accounts) →
  email_exists e fs
  = Ok (bool_decide (Exists (fun a => same_email (acc_email a) e) accounts)).
Proof.
  intros Hfs. unfold email_exists, open_read.
  rewrite (exists_path_true _ _ _ Hfs), Hfs. cbn [negb mbind result_bind].
  by rewrite DictReader_users_table, email_in_accounts.
Qed.

End Accounts.

(** ** The checks of the registration *)

Lemma register_blank created_at name email password confirm fs :
  blank name ∨ blank email ∨ blank password ∨ blank confirm →
  register created_at name email password confirm fs
  = (Ok (failure ALL_FIELDS_REQUIRED), fs).
Proof.
  unfold blank, register. intros Hblank.
  destruct name as [[|? ?]|], email as [[|? ?]|], password as [[|? ?]|],
    confirm as [[|? ?]|]; try reflexivity.
  destruct Hblank as [[H|H]|[[H|H]|[[H|H]|[H|H]]]]; discriminate H.
Qed.

(** The last check on a users table, and the record that is appended. *)
Lemma register_on_table created_at n e p fs accounts :
  n ≠ "" → e ≠ "" → p ≠ "" → (6 ≤ String.length p)%nat →
  fs !! USERS_CSV = Some (users_table accounts) →
  register created_at (Some n) (Some e) (Some p) (Some p) fs
  = if bool_decide (Exists (fun a => same_email (acc_email a) e) accounts)
    then (Ok (failure EMAIL_ALREADY_REGISTERED), fs)
    else (Ok account_created,
          <[USERS_CSV :=
              users_table
                (accounts ++ [{| acc_name := n; acc_email := e;
                                 acc_password := p;
                                 acc_created_at := created_at |}])]> fs).
Proof.
  intros Hn He Hp Hlen Hfs. rewrite register_valid by done.
  rewrite String.eqb_refl. cbn [negb].
  apply Nat.ltb_ge in Hlen. rewrite Hlen.
  rewrite (email_exists_users_table _ _ _ Hfs).
  destruct (bool_decide _); [done|].
  destruct (users_table_ready _ _ Hfs) as [Hready Hrecords].
  rewrite users_after_save, Hrecords by done.
  unfold users_table. by rewrite fmap_app.
Qed.

Lemma register_first_user created_at n e p fs :
  n ≠ "" → e ≠ "" → p ≠ "" → (6 ≤ String.length p)%nat →
  fs !! USERS_CSV = None →
  register created_at (Some n) (Some e) (Some p) (Some p) fs
  = (Ok account_created,
     <[USERS_CSV :=
         users_table [{| acc_name := n; acc_email := e; acc_password := p;
                         acc_created_at := created_at |}]]> fs).
Proof.
  intros Hn He Hp Hlen Hfs. rewrite register_valid by done.
  rewrite String.eqb_refl. cbn [negb].
  apply Nat.ltb_ge in Hlen. rewrite Hlen.
  unfold email_exists. rewrite (exists_path_false _ _ Hfs). cbn [negb].
  rewrite users_after_save by (by left).
  unfold users_records. by rewrite Hfs.
Qed.

(** C5: [register] answers "all fields are required" when one of the four
    values is missing or empty; otherwise "passwords do not match" when the
    two passwords differ; otherwise "too short" below six characters;
    otherwise, on a users table, "already registered" when an account has
    the email up to case; and only otherwise, on a users table or without
    a users file, appends the record of the new account and answers with
    success.  The four reasons are different messages, a failure leaves the
    files untouched, and once an email is registered, a registration that
    passes the first three checks under any spelling of that email up to
    case fails with "already registered". *)
Theorem register_checks_in_order (created_at : string) (fs : filesystem) :
  (∀ name email password confirm,
     blank name ∨ blank email ∨ blank password ∨ blank confirm →
     register created_at name email password confirm fs
     = (Ok (failure ALL_FIELDS_REQUIRED), fs))
  ∧ (∀ n e p c,
       n ≠ "" → e ≠ "" → p ≠ "" → c ≠ "" →
       let run := register created_at (Some n) (Some e) (Some p) (Some c) fs in
       let new := {| acc_name := n; acc_email := e; acc_password := p;
                     acc_created_at := created_at |} in
       (p ≠ c → run = (Ok (failure PASSWORDS_DO_NOT_MATCH), fs))
       ∧ (p = c → (String.length p < 6)%nat →
          run = (Ok (failure PASSWORD_TOO_SHORT), fs))
       ∧ (p = c → (6 ≤ String.length p)%nat →
          (fs !! USERS_CSV = None →
           run = (Ok account_created, <[USERS_CSV := users_table [new]]> fs))
          ∧ ∀ accounts,
              fs !! USERS_CSV = Some (users_table accounts) →
              (Exists (fun a => same_email (acc_email a) e) accounts →
               run = (Ok (failure EMAIL_ALREADY_REGISTERED), fs))
              ∧ (Forall (fun a => ¬ same_email (acc_email a) e) accounts →
                 run = (Ok account_created,
                        <[USERS_CSV := users_table (accounts ++ [new])]> fs))))
  ∧ NoDup [ALL_FIELDS_REQUIRED; PASSWORDS_DO_NOT_MATCH; PASSWORD_TOO_SHORT;
           EMAIL_ALREADY_REGISTERED]
  ∧ (∀ name email password confirm answer fs',
       register created_at name email password confirm fs = (answer, fs') →
       fs' ≠ fs → answer = Ok account_created)
  ∧ (∀ n e p fs' created_at' n' e' p',
       users_ready fs →
       register created_at (Some n) (Some e) (Some p) (Some p) fs
       = (Ok account_created, fs') →
       same_email e e' →
       n' ≠ "" → e' ≠ "" → (6 ≤ String.length p')%nat →
       register created_at' (Some n') (Some e') (Some p') (Some p') fs'
       = (Ok (failure EMAIL_ALREADY_REGISTERED), fs')).
Proof.
  split; [|split; [|split; [|split]]].
  - intros name email password confirm. apply register_blank.
  - intros n e p c Hn He Hp Hc run new. subst run new.
    split; [|split].
    + intros Hne. rewrite register_valid by done.
      apply String.eqb_neq in Hne. by rewrite Hne.
    + intros -> Hlen. rewrite register_valid by done.
      rewrite String.eqb_refl. cbn [negb].
      apply Nat.ltb_lt in Hlen. by rewrite Hlen.
    + intros -> Hlen. split; [by apply register_first_user|].
      intros accounts Hfs. rewrite (register_on_table _ _ _ _ _ _ Hn He Hp Hlen Hfs).
      split.
      * intros Hfound. by rewrite bool_decide_eq_true_2.
      * intros Hfresh. rewrite bool_decide_eq_false_2; [done|].
        intros (a & Hin & Hsame)%Exists_exists.
        rewrite Forall_forall in Hfresh. by apply (Hfresh a).
  - apply failure_reasons_distinct.
  - intros name email password confirm answer fs' Hrun Hchanged.
    destruct (submitted name && submitted email && submitted password
              && submitted confirm) eqn:Hall.
    2:{ unfold register in Hrun. rewrite Hall in Hrun.
        injection Hrun as _ <-. done. }
    apply andb_prop in Hall as [Hall Hc].
    apply andb_prop in Hall as [Hall Hp].
    apply andb_prop in Hall as [Hn He].
    apply submitted_inv in Hn as (n & -> & Hn).
    apply submitted_inv in He as (e & -> & He).
    apply submitted_inv in Hp as (p & -> & Hp).
    apply submitted_inv in Hc as (c & -> & Hc).
    rewrite register_valid in Hrun by done.
    destruct (negb (String.eqb p c)); [by injection Hrun as _ <-|].
    destruct (String.length p <? 6)%nat; [by injection Hrun as _ <-|].
    destruct (email_exists e fs) as [[|]|]; [by injection Hrun as _ <-| |
      by injection Hrun as _ <-].
    by injection Hrun as <- _.
  - intros n e p fs' created_at' n' e' p' Hready Hfirst Hsame Hn' He' Hlen'.
    apply register_success_inv in Hfirst
      as (Hn & He & Hp & Hlen & Hfresh & ->).
    assert (Hp' : p' ≠ "") by (intros ->; cbn in Hlen'; lia).
    rewrite register_valid by done.
    rewrite String.eqb_refl. cbn [negb].
    apply Nat.ltb_ge in Hlen'. rewrite Hlen'.
    by rewrite (email_exists_after_save fs created_at n e p e').
Qed.

Lemma register_checks_in_order_witness :
  register "2024-03-01 12:00:00" (Some "Ann") None (Some "secret1")
    (Some "secret1") ann_users
  = (Ok (failure ALL_FIELDS_REQUIRED), ann_users)
  ∧ register "2024-03-01 12:00:00" (Some "Bob") (Some "") (Some "secret1")
      (Some "secret1") ann_users
    = (Ok (failure ALL_FIELDS_REQUIRED), ann_users)
  ∧ register "2024-03-01 12:00:00" (Some "Bob") (Some "bob@x.com")
      (Some "secret1") (Some "secret2") ann_users
    = (Ok (failure PASSWORDS_DO_NOT_MATCH), ann_users)
  ∧ register "2024-03-01 12:00:00" (Some "Bob") (Some "bob@x.com")
      (Some "abc") (Some "abc") ann_users
    = (Ok (failure PASSWORD_TOO_SHORT), ann_users)
  ∧ register "2024-03-01 12:00:00" (Some "Ann") (Some "ann@x.COM")
      (Some "secret1") (Some "secret1") ann_users
    = (Ok (failure EMAIL_ALREADY_REGISTERED), ann_users)
  ∧ register "2024-03-01 12:00:00" (Some "Bob") (Some "bob@x.com")
      (Some "secret1") (Some "secret1") ann_users
    = (Ok account_created,
       {[ USERS_CSV :=
            [USERS_HEADER;
             ["Ann"; "Ann@X.com"; "secret1"; "2024-01-01 09:00:00"];
             ["Bob"; "bob@x.com"; "secret1"; "2024-03-01 12:00:00"]] ]})
  ∧ register "2024-03-01 12:00:00" (Some "Bob") (Some "bob@x.com")
      (Some "secret1") (Some "secret1") ∅
    = (Ok account_created,
       {[ USERS_CSV :=
            [USERS_HEADER; ["Bob"; "bob@x.com"; "secret1"; "2024-03-01 12:00:00"]] ]})
  ∧ register "2024-03-02 12:00:00" (Some "Robert") (Some "BOB@x.com")
      (Some "another1") (Some "another1")
      {[ USERS_CSV :=
           [USERS_HEADER; ["Bob"; "bob@x.com"; "secret1"; "2024-03-01 12:00:00"]] ]}
    = (Ok (failure EMAIL_ALREADY_REGISTERED),
       {[ USERS_CSV :=
            [USERS_HEADER; ["Bob"; "bob@x.com"; "secret1"; "2024-03-01 12:00:00"]] ]}).
Proof.
  pose proof (register_checks_in_order "2024-03-01 12:00:00" ann_users)
    as (Hmissing & Hvalid & _ & _ & _).
  pose proof (register_checks_in_order "2024-03-01 12:00:00" ∅)
    as (_ & Hfresh & _ & _ & Htwice).
  split; [apply Hmissing; right; left; left; reflexivity|].
  split; [apply Hmissing; right; left; right; reflexivity|].
  split; [apply (Hvalid "Bob" "bob@x.com" "secret1" "secret2"); done|].
  split; [apply (Hvalid "Bob" "bob@x.com" "abc" "abc"); [done..|cbn; lia]|].
  split.
  { destruct (Hvalid "Ann" "ann@x.COM" "secret1" "secret1")
      as (_ & _ & Hlast); [done..|].
    destruct Hlast as [_ Htable]; [reflexivity|cbn; lia|].
    apply (proj1 (Htable [ann_account] eq_refl)).
    apply Exists_cons_hd. reflexivity. }
  split.
  { destruct (Hvalid "Bob" "bob@x.com" "secret1" "secret1")
      as (_ & _ & Hlast); [done..|].
    destruct Hlast as [_ Htable]; [reflexivity|cbn; lia|].
    rewrite (proj2 (Htable [ann_account] eq_refl)).
    - vm_compute. reflexivity.
    - constructor; [|constructor]. intros H. vm_compute in H. discriminate H. }
  assert (Hbob : register "2024-03-01 12:00:00" (Some "Bob") (Some "bob@x.com")
                   (Some "secret1") (Some "secret1") ∅
                 = (Ok account_created,
                    {[ USERS_CSV :=
                         [USERS_HEADER;
                          ["Bob"; "bob@x.com"; "secret1"; "2024-03-01 12:00:00"]] ]})).
  { destruct (Hfresh "Bob" "bob@x.com" "secret1" "secret1")
      as (_ & _ & Hlast); [done..|].
    destruct Hlast as [Hfirst _]; [reflexivity|cbn; lia|].
    rewrite Hfirst by reflexivity. vm_compute. reflexivity. }
  split; [exact Hbob|].
  apply (Htwice "Bob" "bob@x.com" "secret1" _ "2024-03-02 12:00:00"
           "Robert" "BOB@x.com" "another1");
    [left; reflexivity|exact Hbob|reflexivity|done|done|cbn; lia].
Defined.

(** [email_exists] on a users table never raises, and answers [True] if and
    only if an account has that email up to case; on a missing users file
    it answers [False]. *)
Theorem email_exists_finds_any_spelling (fs : filesystem) (e : string) :
  (fs !! USERS_CSV = None → email_exists e fs = Ok false)
  ∧ (∀ accounts, fs !! USERS_CSV = Some (users_table accounts) →
       ∃ b, email_exists e fs = Ok b
            ∧ (b = true ↔ ∃ a, a ∈ accounts ∧ same_email (acc_email a) e)).
Proof.
  split.
  - intros Hfs. unfold email_exists. by rewrite (exists_path_false _ _ Hfs).
  - intros accounts Hfs. eexists.
    split; [by apply email_exists_users_table|].
    rewrite bool_decide_eq_true, Exists_exists. naive_solver.
Qed.

Lemma email_exists_finds_any_spelling_witness :
  email_exists "ann@x.com" ∅ = Ok false
  ∧ email_exists "ANN@x.com" two_users = Ok true
  ∧ email_exists "carol@x.com" two_users = Ok false.
Proof.
  split; [apply (proj1 (email_exists_finds_any_spelling ∅ "ann@x.com"));
          reflexivity|].
  split.
  - destruct (proj2 (email_exists_finds_any_spelling two_users "ANN@x.com")
                [ann_account; bob_account]) as (b & Hrun & Hb); [reflexivity|].
    rewrite Hrun. f_equal. apply Hb. exists ann_account.
    split; [apply list_elem_of_here|reflexivity].
  - destruct (proj2 (email_exists_finds_any_spelling two_users "carol@x.com")
                [ann_account; bob_account]) as (b & Hrun & Hb); [reflexivity|].
    rewrite Hrun. f_equal. destruct b; [|reflexivity].
    destruct (proj1 Hb eq_refl) as (a & Ha & Hsame).
    apply elem_of_cons in Ha as [->|Ha]; [vm_compute in Hsame; discriminate|].
    apply elem_of_cons in Ha as [->|Ha]; [vm_compute in Hsame; discriminate|].
    by apply elem_of_nil in Ha.
Defined.

(** [verify_user] on a users table returns the first account, in file
    order, whose email is the given one up to case and whose password is
    exactly the given one, without its password, and [None] when there is
    no such account; on a missing users file it returns [None]. *)
Theorem verify_user_returns_first_match (fs : filesystem) (e p : string) :
  (fs !! USERS_CSV = None → verify_user e p fs = Ok None)
  ∧ (∀ accounts, fs !! USERS_CSV = Some (users_table accounts) →
       verify_user e p fs
       = Ok (user_of <$> head (filter (has_credentials e p) accounts))).
Proof.
  split.
  - intros Hfs. unfold verify_user. by rewrite (exists_path_false _ _ Hfs).
  - intros accounts Hfs. unfold verify_user, open_read.
    rewrite (exists_path_true _ _ _ Hfs), Hfs. cbn [negb mbind result_bind].
    by rewrite DictReader_users_table, find_user_accounts.
Qed.

Lemma verify_user_returns_first_match_witness :
  verify_user "a@x.com" "secret1" ∅ = Ok None
  ∧ verify_user "BOB@X.COM" "hunter22" two_users = Ok (Some (user_of bob_account))
  ∧ verify_user "bob@x.com" "Hunter22" two_users = Ok None.
Proof.
  split; [apply (proj1 (verify_user_returns_first_match ∅ "a@x.com" "secret1"));
          reflexivity|].
  split.
  - rewrite (proj2 (verify_user_returns_first_match two_users "BOB@X.COM"
                      "hunter22") [ann_account; bob_account]);
      [vm_compute|]; reflexivity.
  - rewrite (proj2 (verify_user_returns_first_match two_users "bob@x.com"
                      "Hunter22") [ann_account; bob_account]);
      [vm_compute|]; reflexivity.
Defined.

(** Whatever the users file holds, when [verify_user] returns a user the
    email is one that [email_exists] finds, and the user carries the stored
    spelling of that email. *)
Theorem verified_user_is_registered (fs : filesystem) (e p : string) (u : user) :
  verify_user e p fs = Ok (Some u) →
  email_exists e fs = Ok true ∧ same_email (user_email u) e.
Proof.
  unfold verify_user, email_exists.
  destruct (negb _); [discriminate|].
  destruct (open_read USERS_CSV fs) as [file|]; [|discriminate].
  cbn [mbind result_bind]. apply find_user_registered.
Qed.

Lemma verified_user_is_registered_witness :
  email_exists "BOB@X.COM" two_users = Ok true
  ∧ same_email (user_email (user_of bob_account)) "BOB@X.COM".
Proof.
  apply (verified_user_is_registered two_users "BOB@X.COM" "hunter22"
           (user_of bob_account)).
  vm_compute. reflexivity.
Defined.

(** What [verify_user] returns after a registration. *)
Lemma verify_user_after_register (fs fs' : filesystem)
    (created_at n e p e' : string) :
  users_ready fs →
  register created_at (Some n) (Some e) (Some p) (Some p) fs
  = (Ok account_created, fs') →
  same_email e e' →
  verify_user e' p fs'
  = Ok (Some {| user_name := Some n; user_email := e;
                user_created_at := Some created_at |})
  ∧ ∀ p', p' ≠ p → verify_user e' p' fs' = Ok None.
Proof.
  intros Hready Hrun Hsame.
  apply register_success_inv in Hrun as (_ & _ & _ & _ & Hfresh & ->).
  rewrite users_after_save by done.
  rewrite email_exists_ready in Hfresh by done.
  set (a := {| acc_name := n; acc_email := e; acc_password := p;
               acc_created_at := created_at |}).
  assert (Hscan : ∀ p',
            verify_user e' p'
              (<[USERS_CSV :=
                   USERS_HEADER :: users_records fs ++ [[n; e; p; created_at]]]> fs)
            = Ok (user_of <$> head (filter (has_credentials e' p') [a]))).
  { intros p'. unfold verify_user, open_read.
    rewrite (exists_path_true _ _ _ (lookup_insert_eq _ _ _)), lookup_insert_eq.
    cbn [negb mbind result_bind].
    change (DictReader (USERS_HEADER :: users_records fs ++ [[n; e; p; created_at]]))
      with (user_rows (users_records fs ++ [[n; e; p; created_at]])).
    rewrite user_rows_snoc by done.
    rewrite (find_user_skip _ _ e e') by done.
    apply (find_user_accounts [a]). }
  split.
  - rewrite Hscan. rewrite filter_cons_True by (by split). reflexivity.
  - intros p' Hp'. rewrite Hscan.
    rewrite filter_cons_False by (intros [_ ?]; by apply Hp'). reflexivity.
Qed.

(** After a registration that succeeded, a login with the same password and
    any spelling of the email up to case returns the registered name, the
    email as it was registered and the creation time; a login with any
    other password returns [None]. *)
Theorem register_then_verify (fs fs' : filesystem)
    (created_at n e p e' : string) :
  users_ready fs →
  register created_at (Some n) (Some e) (Some p) (Some p) fs
  = (Ok account_created, fs') →
  same_email e e' →
  verify_user e' p fs'
  = Ok (Some {| user_name := Some n; user_email := e;
                user_created_at := Some created_at |})
  ∧ ∀ p', p' ≠ p → verify_user e' p' fs' = Ok None.
Proof. apply verify_user_after_register. Qed.

Lemma register_then_verify_witness :
  verify_user "BOB@x.com" "passw0rd"
    (register "2024-03-01 12:00:00" (Some "Bob") (Some "bob@x.com")
       (Some "passw0rd") (Some "passw0rd") ∅).2
  = Ok (Some {| user_name := Some "Bob"; user_email := "bob@x.com";
                user_created_at := Some "2024-03-01 12:00:00" |})
  ∧ verify_user "BOB@x.com" "Passw0rd"
      (register "2024-03-01 12:00:00" (Some "Bob") (Some "bob@x.com")
         (Some "passw0rd") (Some "passw0rd") ∅).2
    = Ok None.
Proof.
  destruct (register_then_verify ∅
              (register "2024-03-01 12:00:00" (Some "Bob") (Some "bob@x.com")
                 (Some "passw0rd") (Some "passw0rd") ∅).2
              "2024-03-01 12:00:00" "Bob" "bob@x.com" "passw0rd" "BOB@x.com")
    as [Hgood Hbad]; [left; reflexivity|vm_compute; reflexivity|reflexivity|].
  split; [exact Hgood|]. apply Hbad. discriminate.
Defined.

(** [register] on a users table never raises, changes the table by at most
    one appended account, and keeps the invariant of the table: if no two
    accounts had the same email up to case, none have afterwards. *)
Theorem register_keeps_emails_distinct (fs : filesystem)
    (accounts : list account) (created_at : string)
    (name email password confirm : pyval) :
  fs !! USERS_CSV = Some (users_table accounts) →
  ∃ answer fs' accounts',
    register created_at name email password confirm fs = (Ok answer, fs')
    ∧ fs' !! USERS_CSV = Some (users_table accounts')
    ∧ (accounts' = accounts
       ∨ ∃ a, accounts' = accounts ++ [a] ∧ answer = account_created)
    ∧ (NoDup ((fun a => PyStr.lower (acc_email a)) <$> accounts) →
       NoDup ((fun a => PyStr.lower (acc_email a)) <$> accounts')).
Proof.
  intros Hfs.
  assert (Hsame : ∀ answer,
            ∃ answer' fs' accounts',
              (Ok answer, fs) = (Ok answer', fs')
              ∧ fs' !! USERS_CSV = Some (users_table accounts')
              ∧ (accounts' = accounts
                 ∨ ∃ a, accounts' = accounts ++ [a] ∧ answer' = account_created)
              ∧ (NoDup ((fun a => PyStr.lower (acc_email a)) <$> accounts) →
                 NoDup ((fun a => PyStr.lower (acc_email a)) <$> accounts'))).
  { intros answer. exists answer, fs, accounts. by eauto. }
  destruct (submitted name && submitted email && submitted password
            && submitted confirm) eqn:Hall.
  2:{ unfold register. rewrite Hall. apply Hsame. }
  apply andb_prop in Hall as [Hall Hc].
  apply andb_prop in Hall as [Hall Hp].
  apply andb_prop in Hall as [Hn He].
  apply submitted_inv in Hn as (n & -> & Hn).
  apply submitted_inv in He as (e & -> & He).
  apply submitted_inv in Hp as (p & -> & Hp).
  apply submitted_inv in Hc as (c & -> & Hc).
  rewrite register_valid by done.
  destruct (negb (String.eqb p c)); [apply Hsame|].
  destruct (String.length p <? 6)%nat; [apply Hsame|].
  rewrite (email_exists_users_table _ _ _ Hfs).
  destruct (decide (Exists (fun a => same_email (acc_email a) e) accounts))
    as [Hfound|Hfresh].
  { rewrite bool_decide_eq_true_2 by done. apply Hsame. }
  rewrite bool_decide_eq_false_2 by done.
  destruct (users_table_ready _ _ Hfs) as [Hready Hrecords].
  rewrite users_after_save, Hrecords by done.
  set (a := {| acc_name := n; acc_email := e; acc_password := p;
               acc_created_at := created_at |}).
  eexists account_created, _, (accounts ++ [a]). split; [reflexivity|].
  split; [|split].
  - rewrite lookup_insert_eq. unfold users_table. by rewrite fmap_app.
  - right. by exists a.
  - intros Hnd. rewrite fmap_app. apply NoDup_app.
    split; [done|]. split; [|apply NoDup_singleton].
    intros l Hl [->|Hnil]%elem_of_cons; [|by apply elem_of_nil in Hnil].
    apply list_elem_of_fmap in Hl as (a' & Hlower & Hin).
    apply Hfresh, Exists_exists. exists a'. split; [done|].
    unfold same_email. by rewrite <- Hlower.
Qed.

Lemma register_keeps_emails_distinct_witness :
  ∃ answer fs' accounts',
    register "2024-03-01 12:00:00" (Some "Ann B") (Some "ANN@x.com")
      (Some "passw0rd") (Some "passw0rd") two_users = (Ok answer, fs')
    ∧ fs' !! USERS_CSV = Some (users_table accounts')
    ∧ NoDup ((fun a => PyStr.lower (acc_email a)) <$> accounts').
Proof.
  destruct (register_keeps_emails_distinct two_users [ann_account; bob_account]
              "2024-03-01 12:00:00" (Some "Ann B") (Some "ANN@x.com")
              (Some "passw0rd") (Some "passw0rd"))
    as (answer & fs' & accounts' & Hrun & Hfile & _ & Hnd); [reflexivity|].
  exists answer, fs', accounts'. split; [exact Hrun|]. split; [exact Hfile|].
  apply Hnd. compute_done.
Defined.

(** ** The request handlers *)

(** Without a user in the session, the handlers of the practice page and of
    adding, editing and deleting cards and collections flash a request to
    log in, redirect to the login page, and neither read nor change the
    files or the session. *)
Theorem handlers_require_login (s : site) (now n : Z) (created_at col : string)
    (method : http_method) (f : form) :
  session_user s = None →
  practice now s
  = (Ok (error "Please log in to access the practice page." (redirect_to "login")), s)
  ∧ add_flashcard created_at f s
    = (Ok (error "Please log in to add flashcards." (redirect_to "login")), s)
  ∧ edit_flashcard n method f s
    = (Ok (error "Please log in to edit flashcards." (redirect_to "login")), s)
  ∧ delete_flashcard_route n s
    = (Ok (error "Please log in to delete flashcards." (redirect_to "login")), s)
  ∧ delete_collection_route col s
    = (Ok (error "Please log in to delete collections." (redirect_to "login")), s).
Proof.
  intros Hs.
  unfold practice, add_flashcard, edit_flashcard, delete_flashcard_route,
    delete_collection_route.
  rewrite Hs. by repeat split.
Qed.

Lemma handlers_require_login_witness :
  delete_flashcard_route 1 visitor_site
  = (Ok (error "Please log in to delete flashcards." (redirect_to "login")),
     visitor_site)
  ∧ edit_flashcard 1 POST product_form visitor_site
    = (Ok (error "Please log in to edit flashcards." (redirect_to "login")),
       visitor_site).
Proof.
  destruct (handlers_require_login visitor_site 0 1 "" "" POST product_form)
    as (_ & _ & Hedit & Hdelete & _); [reflexivity|].
  split; [exact Hdelete|exact Hedit].
Defined.

(** [add_flashcard] for a logged-in user on a table: with a question and an
    answer that are not empty it appends one card owned by the session's
    email, whose name, collection and images are the form values stripped
    of surrounding white space and whose question and answer are the form
    values as they are, under the next id; when the next id has more than
    4300 digits, [str()] raises in [save_flashcard], and the handler
    flashes that an error occurred and leaves the files as they are; with a
    question or an answer that is missing or empty it flashes that both are
    required and leaves the files as they are. *)
Theorem add_flashcard_stores_the_form (s : site) (u : user)
    (cards : list flashcard) (created_at : string) (f : form) :
  session_user s = Some u →
  files s !! FLASHCARDS_CSV = Some (table cards) →
  ∃ n,
    get_next_flashcard_id (files s) = Ok n
    ∧ (∀ question answer,
         f !! "question" = Some question → f !! "answer" = Some answer →
         question ≠ "" → answer ≠ "" →
         (n < INT_STR_LIMIT →
          add_flashcard created_at f s
          = (Ok (success "Flashcard added successfully!" (redirect_to "practice")),
             with_files s
               (<[FLASHCARDS_CSV :=
                    table (cards ++
                           [created_card n created_at (user_email u)
                              (PyStr.strip (default "" (f !! "name")))
                              question answer
                              (PyStr.strip (default "" (f !! "collection")))
                              (PyStr.strip (default "" (f !! "image_question")))
                              (PyStr.strip (default "" (f !! "image_answer")))])]>
                  (files s))))
         ∧ (INT_STR_LIMIT ≤ n →
            add_flashcard created_at f s
            = (Ok (error "An error occurred while saving the flashcard."
                     (redirect_to "practice")), s)))
    ∧ (f !! "question" = None ∨ f !! "question" = Some ""
       ∨ f !! "answer" = None ∨ f !! "answer" = Some "" →
       add_flashcard created_at f s
       = (Ok (error "Both question and answer are required!"
                (redirect_to "practice")), s)).
Proof.
  intros Hs Hfs.
  assert (Hnext : ∃ n, get_next_flashcard_id (files s) = Ok n)
    by (eexists; by apply get_next_flashcard_id_scan).
  destruct Hnext as [n Hnext]. exists n. split; [exact Hnext|].
  destruct (next_id_above _ _ _ Hfs Hnext) as [Hpos _].
  unfold add_flashcard, form_get, form_get_stripped.
  rewrite Hs. split.
  - intros question answer Hq Ha Hqne Hane. rewrite Hq, Ha.
    rewrite !truthy_nonempty by done. cbn [andb].
    destruct (save_flashcard_table (files s) cards created_at (user_email u)
                (PyStr.strip (default "" (f !! "name"))) question answer
                (passed (PyStr.strip (default "" (f !! "collection"))))
                (passed (PyStr.strip (default "" (f !! "image_question"))))
                (passed (PyStr.strip (default "" (f !! "image_answer")))) Hfs)
      as (n' & Hnext' & Hsave).
    assert (n' = n) as -> by congruence.
    rewrite Hsave. split; intros Hlimit.
    + by rewrite str_fits_below by lia.
    + rewrite str_fits_above by done. by destruct s.
  - intros [Hq|[Hq|[Ha|Ha]]].
    + by rewrite Hq.
    + rewrite Hq. by destruct (f !! "answer").
    + rewrite Ha. by destruct (f !! "question").
    + rewrite Ha. destruct (f !! "question") as [q|]; [|done].
      cbn [PyStr.truthy]. by rewrite andb_false_r.
Qed.

Lemma add_flashcard_stores_the_form_witness :
  add_flashcard "2024-04-01 10:00:00" product_form ann_site
  = (Ok (success "Flashcard added successfully!" (redirect_to "practice")),
     with_files ann_site
       (<[FLASHCARDS_CSV :=
            table ([ann_card; bob_card] ++
                   [created_card 3 "2024-04-01 10:00:00" "a@x.com" "product"
                      " 6*7? " "42" "Math" "" ""])]> two_card_store))
  ∧ add_flashcard "2024-04-01 10:00:00" answerless_form ann_site
    = (Ok (error "Both question and answer are required!"
             (redirect_to "practice")), ann_site)
  ∧ add_flashcard "2024-04-01 10:00:00" product_form
      {| session_user := Some ann_user; files := last_id_store |}
    = (Ok (error "An error occurred while saving the flashcard."
             (redirect_to "practice")),
       {| session_user := Some ann_user; files := last_id_store |}).
Proof.
  destruct (add_flashcard_stores_the_form ann_site ann_user [ann_card; bob_card]
              "2024-04-01 10:00:00" product_form) as (n & Hnext & Hstore & _);
    [reflexivity|reflexivity|].
  destruct (add_flashcard_stores_the_form ann_site ann_user [ann_card; bob_card]
              "2024-04-01 10:00:00" answerless_form) as (_ & _ & _ & Hrefuse);
    [reflexivity|reflexivity|].
  destruct (add_flashcard_stores_the_form
              {| session_user := Some ann_user; files := last_id_store |}
              ann_user [carol_card (repeat_char "9" 4300)]
              "2024-04-01 10:00:00" product_form) as (m & Hlast & Hfull & _);
    [reflexivity|reflexivity|].
  assert (Hn : n = 3).
  { assert (Hrun : get_next_flashcard_id (files ann_site) = Ok 3)
      by (vm_compute; reflexivity).
    rewrite Hnext in Hrun. congruence. }
  subst n.
  split; [|split].
  - apply (Hstore " 6*7? " "42");
      [reflexivity|reflexivity|discriminate|discriminate|].
    apply below_limit. cbn. lia.
  - apply Hrefuse. right. right. right. reflexivity.
  - apply (Hfull " 6*7? " "42");
      [reflexivity|reflexivity|discriminate|discriminate|].
    change (files {| session_user := Some ann_user; files := last_id_store |})
      with last_id_store in Hlast.
    destruct (next_id_above [carol_card (repeat_char "9" 4300)] last_id_store m)
      as [_ Habove]; [reflexivity|exact Hlast|].
    pose proof (Habove (carol_card (repeat_char "9" 4300)) (INT_STR_LIMIT - 1)
                  (list_elem_of_here _ _) largest_literal).
    lia.
Defined.

(** The handlers that wrap their storage call in [try]/[except] never let
    an exception out and never change the session, whatever the files hold
    and whatever the form holds: [add_flashcard], [edit_flashcard] on a
    POST, [delete_flashcard_route] and [delete_collection_route] always
    return a page. *)
Theorem guarded_handlers_never_raise (s : site) (n : Z)
    (created_at col : string) (f : form) :
  (∃ out s', add_flashcard created_at f s = (Ok out, s')
             ∧ session_user s' = session_user s)
  ∧ (∃ out s', edit_flashcard n POST f s = (Ok out, s')
               ∧ session_user s' = session_user s)
  ∧ (∃ out s', delete_flashcard_route n s = (Ok out, s')
               ∧ session_user s' = session_user s)
  ∧ (∃ out s', delete_collection_route col s = (Ok out, s')
               ∧ session_user s' = session_user s).
Proof.
  unfold add_flashcard, edit_flashcard, delete_flashcard_route,
    delete_collection_route.
  destruct (session_user s) as [u|] eqn:Hs.
  2:{ repeat split; eexists _, _; (split; [reflexivity|done]). }
  repeat split.
  - destruct (form_get f "question") as [q|]; [|by eauto].
    destruct (form_get f "answer") as [a|]; [|by eauto].
    destruct (PyStr.truthy q && PyStr.truthy a); [|by eauto].
    destruct (save_flashcard _ _ _ _ _ _ _ _ _) as [[id|] fs]; by eauto.
  - destruct (form_get f "question") as [q|]; [|by eauto].
    destruct (form_get f "answer") as [a|]; [|by eauto].
    destruct (PyStr.truthy q && PyStr.truthy a); [|by eauto].
    destruct (update_flashcard _ _ _ _ _ _ _ _ _) as [[[]|] fs]; by eauto.
  - destruct (delete_flashcard _ _ _) as [[[]|] fs]; by eauto.
  - destruct (delete_collection _ _ _) as [[[]|] fs]; by eauto.
Qed.

Section Handlers.

Implicit Types (s : site) (fs : filesystem) (cards : list flashcard).

Lemma with_files_same s : with_files s (files s) = s.
Proof. by destruct s. Qed.

Lemma migrate_table_unchanged now fs cards :
  fs !! FLASHCARDS_CSV = Some (table cards) →
  migrate_flashcards_csv now fs = (Ok tt, fs).
Proof.
  intros Hfs. unfold migrate_flashcards_csv, open_read.
  rewrite (exists_path_true _ _ _ Hfs), Hfs. cbn [negb].
  by rewrite (current_header_is_migrated (record_of <$> cards)).
Qed.

(** In a table with distinct ids, a lookup by the id of a card answers by
    the owner of that card alone. *)
Lemma lookup_by_owner fs cards (c : flashcard) n e :
  fs !! FLASHCARDS_CSV = Some (table cards) →
  NoDup (fc_id <$> cards) →
  c ∈ cards →
  fc_id c = PyStr.str_of_int n →
  get_flashcard_by_id n e fs
  = Ok (if decide (owned_by e c) then Some (view_of c) else None).
Proof.
  intros Hfs Hnd Hin Hid.
  rewrite (get_flashcard_by_id_table _ _ _ _ Hfs).
  apply list_elem_of_split in Hin as (cards1 & cards2 & ->).
  destruct (distinct_ids_split _ _ _ Hnd) as [H1 H2].
  assert (Hother : ∀ l, Forall (fun c' => fc_id c' ≠ fc_id c) l →
                        Forall (fun c' => ¬ card_of n e c') l).
  { intros l Hl. eapply Forall_impl; [exact Hl|].
    intros c' Hne [Hid' _]. congruence. }
  destruct (decide (owned_by e c)) as [Ho|Ho].
  - apply find_card_first; [by apply Hother|by split].
  - apply find_card_none, Forall_app. split; [by apply Hother|].
    constructor; [|by apply Hother]. by intros [_ ?].
Qed.

Lemma same_email_nonempty (e e' : string) : same_email e e' → e ≠ "" → e' ≠ "".
Proof.
  unfold same_email. intros Hsame He ->. destruct e; [done|discriminate Hsame].
Qed.

End Handlers.

(** From registration to login: after a registration that succeeded, a
    login form with any spelling of the email up to case and the same
    password puts the registered name, email and creation time (and no
    password) into the session and greets the user by name; a form with
    another password is refused and leaves the session as it was; and
    [logout] empties the session and leaves the files as they are. *)
Theorem register_then_login (s : site) (fs' : filesystem)
    (created_at n e p e' : string) (f : form) :
  users_ready (files s) →
  register created_at (Some n) (Some e) (Some p) (Some p) (files s)
  = (Ok account_created, fs') →
  same_email e e' →
  f !! "email" = Some e' →
  let u := {| user_name := Some n; user_email := e;
              user_created_at := Some created_at |} in
  (f !! "password" = Some p →
     login POST f (with_files s fs')
     = (Ok (success ("Welcome back, " ++ n ++ "!") (redirect_to "home")),
        {| session_user := Some u; files := fs' |}))
  ∧ (∀ p', f !! "password" = Some p' → p' ≠ "" → p' ≠ p →
       login POST f (with_files s fs')
       = (Ok (error "Invalid email or password!" login_html), with_files s fs'))
  ∧ logout {| session_user := Some u; files := fs' |}
    = (Ok (success "You have been logged out successfully!" (redirect_to "home")),
       {| session_user := None; files := fs' |}).
Proof.
  intros Hready Hrun Hsame He' u.
  destruct (verify_user_after_register _ _ _ _ _ _ _ Hready Hrun Hsame)
    as [Hgood Hbad].
  apply register_success_inv in Hrun as (_ & He & Hp & _ & _ & _).
  pose proof (same_email_nonempty _ _ Hsame He) as He'ne.
  split; [|split].
  - intros Hpw. unfold login, form_get. rewrite He', Hpw.
    rewrite !truthy_nonempty by done. cbn [andb files with_files].
    by rewrite Hgood.
  - intros p' Hpw Hp'ne Hp'. unfold login, form_get. rewrite He', Hpw.
    rewrite !truthy_nonempty by done. cbn [andb files with_files].
    by rewrite (Hbad p' Hp').
  - reflexivity.
Qed.

Lemma register_then_login_witness :
  login POST {[ "email" := "BOB@x.com"; "password" := "passw0rd" ]}
    (with_files visitor_site
       (register "2024-03-01 12:00:00" (Some "Bob") (Some "bob@x.com")
          (Some "passw0rd") (Some "passw0rd") (files visitor_site)).2)
  = (Ok (success "Welcome back, Bob!" (redirect_to "home")),
     {| session_user :=
          Some {| user_name := Some "Bob"; user_email := "bob@x.com";
                  user_created_at := Some "2024-03-01 12:00:00" |};
        files := (register "2024-03-01 12:00:00" (Some "Bob") (Some "bob@x.com")
                    (Some "passw0rd") (Some "passw0rd") (files visitor_site)).2 |}).
Proof.
  apply (register_then_login visitor_site
           (register "2024-03-01 12:00:00" (Some "Bob") (Some "bob@x.com")
              (Some "passw0rd") (Some "passw0rd") (files visitor_site)).2
           "2024-03-01 12:00:00" "Bob" "bob@x.com" "passw0rd" "BOB@x.com"
           {[ "email" := "BOB@x.com"; "password" := "passw0rd" ]});
    [left; reflexivity|vm_compute; reflexivity|reflexivity|reflexivity
    |reflexivity].
Defined.

(** The practice page of a logged-in user on a table shows the cards of that
    user, in file order, and the user's collections, and changes neither
    the files nor the session. *)
Theorem practice_shows_own_cards (s : site) (u : user)
    (cards : list flashcard) (now : Z) :
  session_user s = Some u →
  files s !! FLASHCARDS_CSV = Some (table cards) →
  ∃ names,
    practice now s
    = (Ok {| flashed := [];
             shown := practice_html
                        (view_of <$> filter (owned_by (user_email u)) cards)
                        names |}, s)
    ∧ get_user_collections (user_email u) (files s) = Ok names.
Proof.
  intros Hs Hfs.
  destruct (get_user_collections_table _ _ (user_email u) Hfs)
    as (names & Hnames & _).
  exists names. split; [|done]. unfold practice. rewrite Hs.
  rewrite (migrate_table_unchanged _ _ _ Hfs).
  rewrite (get_user_flashcards_table _ _ _ Hfs), Hnames.
  by rewrite with_files_same.
Qed.

Lemma practice_shows_own_cards_witness :
  ∃ names,
    practice 1700000000 bob_site
    = (Ok {| flashed := [];
             shown := practice_html
                        (view_of <$> filter (owned_by "b@x.com")
                                       [ann_card; bob_card]) names |}, bob_site)
    ∧ get_user_collections "b@x.com" two_card_store = Ok names.
Proof.
  apply (practice_shows_own_cards bob_site bob_user [ann_card; bob_card]
           1700000000); reflexivity.
Defined.

(** The edit form: in a table with distinct ids, a GET for the id of a card
    shows the card to its owner and to nobody else; any other logged-in
    user is told that the card was not found and is sent back to the
    practice page; nothing is changed either way. *)
Theorem edit_form_is_for_the_owner (s : site) (u : user)
    (cards : list flashcard) (c : flashcard) (n : Z) (f : form) :
  session_user s = Some u →
  files s !! FLASHCARDS_CSV = Some (table cards) →
  NoDup (fc_id <$> cards) →
  c ∈ cards →
  fc_id c = PyStr.str_of_int n →
  (owned_by (user_email u) c →
     ∃ names,
       edit_flashcard n GET f s
       = (Ok {| flashed := []; shown := edit_flashcard_html (view_of c) names |}, s)
       ∧ get_user_collections (user_email u) (files s) = Ok names)
  ∧ (¬ owned_by (user_email u) c →
     edit_flashcard n GET f s
     = (Ok (error NOT_FOUND_TO_EDIT (redirect_to "practice")), s)).
Proof.
  intros Hs Hfs Hnd Hin Hid. unfold edit_flashcard. rewrite Hs.
  rewrite (lookup_by_owner _ _ c n (user_email u) Hfs Hnd Hin Hid).
  split; intros Ho.
  - rewrite decide_True by done.
    destruct (get_user_collections_table _ _ (user_email u) Hfs)
      as (names & Hnames & _).
    exists names. by rewrite Hnames.
  - by rewrite decide_False.
Qed.

Lemma edit_form_is_for_the_owner_witness :
  edit_flashcard 2 GET ∅ ann_site
  = (Ok (error NOT_FOUND_TO_EDIT (redirect_to "practice")), ann_site)
  ∧ ∃ names,
      edit_flashcard 2 GET ∅ bob_site
      = (Ok {| flashed := [];
               shown := edit_flashcard_html (view_of bob_card) names |}, bob_site)
      ∧ get_user_collections "b@x.com" two_card_store = Ok names.
Proof.
  assert (Hin : bob_card ∈ [ann_card; bob_card])
    by apply list_elem_of_further, list_elem_of_here.
  assert (Hnd : NoDup (fc_id <$> [ann_card; bob_card])) by compute_done.
  split.
  - apply (proj2 (edit_form_is_for_the_owner ann_site ann_user
                    [ann_card; bob_card] bob_card 2 ∅
                    eq_refl eq_refl Hnd Hin eq_refl)).
    intros H. vm_compute in H. discriminate H.
  - apply (proj1 (edit_form_is_for_the_owner bob_site bob_user
                    [ann_card; bob_card] bob_card 2 ∅
                    eq_refl eq_refl Hnd Hin eq_refl)).
    reflexivity.
Defined.
